(** * Embedding-model speed testers: benchmark orchestration engine

    Shallow embedding of the two testers of
    [miniDev-test-ollama-speed-embed]:

    - [Variant_base/test_ollama_speed_pro.py]   (synchronous, [requests] +
      [tenacity]), embedded in module [Base];
    - [Variant_reserv/test_ollama_embeddings.py] (asynchronous, [httpx]),
      embedded in module [Reserv].

    Both programs talk to a remote service and read a clock.  The service and
    the clock live in an explicit [world]; every function of the testers is a
    computation of the state-and-exception monad [M] over that world.
    Python [float]s that hold seconds, throughputs and means are modelled by
    exact rationals ([Q]); Python [int]s by [Z].  What the service answers is
    any JSON value, so the exceptions the testers meet on an answer of the
    wrong shape are part of the model. *)

From Stdlib Require Import ZArith QArith Qminmax Lia List String Ascii Bool.
From Stdlib Require Import Permutation Sorted DecimalString Setoid Morphisms Lqa.
Import ListNotations.

(* ================================================================== *)
(** * Python run-time helpers *)
(* ================================================================== *)

Module Py.

Local Open Scope string_scope.

(** [str(n)] for an [int]. *)
Definition str_of_int (n : Z) : string :=
  NilZero.string_of_int (Z.to_int n).

(** A byte of a UTF-8 text continues a code point when it is [10xxxxxx]. *)
Definition is_continuation (c : ascii) : bool :=
  let n := nat_of_ascii c in (128 <=? n)%nat && (n <? 192)%nat.

(** [len(s)] for a [str]: the number of code points. *)
Fixpoint len (s : string) : Z :=
  match s with
  | EmptyString => 0
  | String c s' => ((if is_continuation c then 0 else 1) + len s')%Z
  end.

(** [s[:n]]: the first [n] code points of [s]. *)
Fixpoint take (n : nat) (s : string) : string :=
  match s with
  | EmptyString => EmptyString
  | String c s' =>
      if is_continuation c then String c (take n s')
      else match n with
           | O => EmptyString
           | S n' => String c (take n' s')
           end
  end.

(** [s.rstrip("/")]. *)
Fixpoint rstrip_slash (s : string) : string :=
  match s with
  | EmptyString => EmptyString
  | String c s' =>
      match rstrip_slash s' with
      | EmptyString => if Ascii.eqb c "/" then EmptyString else String c EmptyString
      | t => String c t
      end
  end.

(** [sep.join(l)]. *)
Fixpoint join (sep : string) (l : list string) : string :=
  match l with
  | [] => ""
  | [x] => x
  | x :: rest => x ++ sep ++ join sep rest
  end.

(** The elements of [set(l)].  Python leaves the iteration order of a set
    open; the order of first occurrence is one of the orders it allows. *)
Fixpoint distinct (l : list string) : list string :=
  match l with
  | [] => []
  | x :: rest => x :: filter (fun y => negb (String.eqb x y)) (distinct rest)
  end.

(** Truth value of an optional number ([None] and zero are false). *)
Definition truthy_Z (o : option Z) : bool :=
  match o with Some z => negb (z =? 0)%Z | None => false end.

Definition truthy_Q (o : option Q) : bool :=
  match o with Some q => negb (Qeq_bool q 0) | None => false end.

Definition Qltb (a b : Q) : bool := negb (Qle_bool b a).

(** [a or b] for an optional list: [None] and the empty list are false. *)
Definition list_or (a : option (list string)) (b : list string) : list string :=
  match a with
  | Some (x :: rest) => x :: rest
  | _ => b
  end.

(** [range(n)] as the list [0; 1; ...; n-1] (empty when [n <= 0]). *)
Definition range (n : Z) : list Z :=
  map Z.of_nat (seq 0 (Z.to_nat n)).

(** [enumerate(l, start)]. *)
Fixpoint enumerate {A} (start : Z) (l : list A) : list (Z * A) :=
  match l with
  | [] => []
  | x :: rest => (start, x) :: enumerate (start + 1) rest
  end.

(** [sorted(l, key=key)]: a stable sort that compares keys with [<] only.
    On keys that [<] orders totally up to ties (floats that are not NaN,
    integers) the result of a stable sort is determined by its input, so
    insertion gives what Python's sort gives.  [insert x l] puts [x], which
    stood before every element of [l] in the input, in front of the first
    element whose key is not smaller. *)
Section Sorted.
Context {A K : Type} (ltb : K -> K -> bool) (key : A -> K).

Fixpoint insert (x : A) (l : list A) : list A :=
  match l with
  | [] => [x]
  | y :: rest =>
      if ltb (key y) (key x) then y :: insert x rest else x :: y :: rest
  end.

Fixpoint sorted (l : list A) : list A :=
  match l with
  | [] => []
  | x :: rest => insert x (sorted rest)
  end.
End Sorted.

(** [sorted(l, key=key, reverse=True)]: descending, and still stable. *)
Definition sorted_reverse {A K} (ltb : K -> K -> bool) (key : A -> K)
  (l : list A) : list A :=
  sorted (fun a b => ltb b a) key l.

(** A [float] key that may be [float("inf")]. *)
Inductive ext := Fin (q : Q) | Inf.

Definition ext_ltb (a b : ext) : bool :=
  match a, b with
  | Fin x, Fin y => Qltb x y
  | Fin _, Inf => true
  | Inf, _ => false
  end.

(** [x or float("inf")] for an optional float [x]. *)
Definition or_inf (o : option Q) : ext :=
  match o with
  | Some q => if Qeq_bool q 0 then Inf else Fin q
  | None => Inf
  end.

End Py.

(* ================================================================== *)
(** * The [statistics] functions the testers call *)
(* ================================================================== *)

Module Stats.

Definition sumQ (l : list Q) : Q := fold_right Qplus 0 l.

(** [statistics.mean]; only called on non-empty lists. *)
Definition mean (l : list Q) : Q := sumQ l / inject_Z (Z.of_nat (List.length l)).

(** [min(values)] and [max(values)]; only called on non-empty lists. *)
Definition minimum (l : list Q) : Q :=
  match l with
  | [] => 0
  | x :: rest => fold_left Qmin rest x
  end.

Definition maximum (l : list Q) : Q :=
  match l with
  | [] => 0
  | x :: rest => fold_left Qmax rest x
  end.

(** [statistics.median]: the middle value of the sorted data, or the mean of
    the two middle values. *)
Definition median (l : list Q) : Q :=
  let s := Py.sorted Py.Qltb (fun x => x) l in
  let n := List.length s in
  if Nat.even n
  then (nth (n / 2 - 1) s 0 + nth (n / 2) s 0) / 2
  else nth (n / 2) s 0.

End Stats.

(* ================================================================== *)
(** * The world: clock, target service, what the program did *)
(* ================================================================== *)

Module World.

Local Open Scope string_scope.

(** Exception classes the testers raise or handle.  A class stands for its
    subclasses too ([requests.Timeout] is a [RequestException],
    [json.JSONDecodeError] and pydantic's [ValidationError] are
    [ValueError]s), except that [httpx.TimeoutException], which the
    asynchronous tester handles before its base class [httpx.HTTPError], is
    kept apart. *)
Inductive exn_class :=
| RequestException
| BuiltinTimeoutError
| RetryError
| OllamaConnectionError
| RuntimeError
| HttpxTimeoutException
| HttpxHTTPError
| TypeError
| AttributeError
| ValueError
| OtherException.

(** An exception: its class and [str(e)]. *)
Record exn := mkExn { class_of : exn_class; str : string }.

Definition exn_class_eqb (a b : exn_class) : bool :=
  match a, b with
  | RequestException, RequestException
  | BuiltinTimeoutError, BuiltinTimeoutError
  | RetryError, RetryError
  | OllamaConnectionError, OllamaConnectionError
  | RuntimeError, RuntimeError
  | HttpxTimeoutException, HttpxTimeoutException
  | HttpxHTTPError, HttpxHTTPError
  | TypeError, TypeError
  | AttributeError, AttributeError
  | ValueError, ValueError
  | OtherException, OtherException => true
  | _, _ => false
  end.

Definition is_a (c : exn_class) (e : exn) : bool := exn_class_eqb (class_of e) c.

(** What [response.json()] gives: any JSON value.  An object keeps its
    members in the order of the body. *)
#[warnings="-register-all"] Inductive json :=
| JNull
| JBool (b : bool)
| JInt (z : Z)
| JFloat (q : Q)
| JString (s : string)
| JArray (items : list json)
| JObject (members : list (string * json)).

Definition empty_dict : json := JObject [].

(** [type(v).__name__]. *)
Definition type_name (v : json) : string :=
  match v with
  | JNull => "NoneType"
  | JBool _ => "bool"
  | JInt _ => "int"
  | JFloat _ => "float"
  | JString _ => "str"
  | JArray _ => "list"
  | JObject _ => "dict"
  end.

(** The value of [key] in the dict parsed from an object: of members with
    the same name the last one counts. *)
Fixpoint lookup (key : string) (members : list (string * json)) : option json :=
  match members with
  | [] => None
  | (k, v) :: rest =>
      match lookup key rest with
      | Some v' => Some v'
      | None => if String.eqb k key then Some v else None
      end
  end.

(** [d.get(key, default)] for the dict of an object. *)
Definition member (key : string) (members : list (string * json)) (default : json)
  : json :=
  match lookup key members with
  | Some v => v
  | None => default
  end.

(** [len(v)] for the values that have a length: the code points of a
    string, the items of a list, the keys of a dict. *)
Definition size (v : json) : option Z :=
  match v with
  | JString s => Some (Py.len s)
  | JArray items => Some (Z.of_nat (List.length items))
  | JObject members => Some (Z.of_nat (List.length (Py.distinct (map fst members))))
  | JNull | JBool _ | JInt _ | JFloat _ => None
  end.

(** [bool(v)]: a value with a length is true when its length is not zero. *)
Definition truthy (v : json) : bool :=
  match v with
  | JNull => false
  | JBool b => b
  | JInt z => negb (z =? 0)%Z
  | JFloat q => negb (Qeq_bool q 0)
  | JString _ | JArray _ | JObject _ =>
      match size v with
      | Some n => negb (n =? 0)%Z
      | None => false
      end
  end.

(** The [AttributeError] of [d.get] on a value that is not a dict, and the
    [TypeError] of [len(v)] on a value without a length. *)
Definition no_get (d : json) : exn :=
  mkExn AttributeError ("'" ++ type_name d ++ "' object has no attribute 'get'").

Definition no_len (v : json) : exn :=
  mkExn TypeError ("object of type '" ++ type_name v ++ "' has no len()").

(** An HTTP response.  [parsed = None] when the body is not valid JSON, so
    that [response.json()] raises; [json_error] is then the text of the
    decoder's exception, which depends on the body. *)
Record response := mkResponse {
  status_code : Z;
  text : string;
  parsed : option json;
  json_error : string
}.

(** The service's reaction to one request: a response, or the exception the
    HTTP library raises (refused connection, timeout, ...). *)
Inductive reply :=
| Answers (r : response)
| Fails (e : exn).

(** What the program does that can be seen from outside. *)
Inductive event :=
| Request (method url : string) (payload : list (string * string))
| Sleep (seconds : Q).

(** [net n] is the latency and the reply of the [n]-th request of the run;
    [sent] counts the requests made so far and [log] records them, together
    with every sleep, oldest first.  The next three fields are what the
    [docker] commands of the asynchronous tester report.  The last two are
    texts of the libraries that the testers pass on and do not determine:
    [future_repr e] is what tenacity prints for the finished attempt that
    raised [e] (it holds an address in memory), [validation_text v] the text
    of pydantic's [ValidationError] for a [model_info] that is not a dict. *)
Record world := mkWorld {
  clock : Q;
  net : nat -> Q * reply;
  sent : nat;
  log : list event;
  docker_installed : bool;
  container_running : bool;
  available_models : list string;
  future_repr : exn -> string;
  validation_text : json -> string
}.

Inductive outcome (A : Type) :=
| Ok (a : A)
| Raise (e : exn).
Arguments Ok {A} a.
Arguments Raise {A} e.

(** Computations that read and change the world and may raise. *)
Definition M (A : Type) : Type := world -> outcome A * world.

Definition ret {A} (a : A) : M A := fun w => (Ok a, w).

Definition bind {A B} (m : M A) (k : A -> M B) : M B :=
  fun w =>
    match m w with
    | (Ok a, w') => k a w'
    | (Raise e, w') => (Raise e, w')
    end.

Definition raise {A} (e : exn) : M A := fun w => (Raise e, w).

(** [try: m  except ...: handler]; [handler e = None] when no [except]
    clause matches [e]. *)
Definition try_except {A} (m : M A) (handler : exn -> option (M A)) : M A :=
  fun w =>
    match m w with
    | (Ok a, w') => (Ok a, w')
    | (Raise e, w') =>
        match handler e with
        | Some h => h w'
        | None => (Raise e, w')
        end
    end.

(** [time.perf_counter()] (and [datetime.now()]). *)
Definition perf_counter : M Q := fun w => (Ok (clock w), w).

Definition advance (d : Q) (ev : event) (n : nat) (w : world) : world :=
  {| clock := clock w + d;
     net := net w;
     sent := n + sent w;
     log := log w ++ [ev];
     docker_installed := docker_installed w;
     container_running := container_running w;
     available_models := available_models w;
     future_repr := future_repr w;
     validation_text := validation_text w |}.

(** [time.sleep(s)]: a [ValueError] for a negative [s]. *)
Definition sleep (s : Q) : M unit :=
  fun w =>
    if Py.Qltb s 0
    then (Raise (mkExn ValueError "sleep length must be non-negative"), w)
    else (Ok tt, advance s (Sleep s) 0 w).

(** [await asyncio.sleep(s)]: returns at once when [s <= 0]. *)
Definition async_sleep (s : Q) : M unit :=
  fun w => (Ok tt, advance (if Py.Qltb 0 s then s else 0) (Sleep s) 0 w).

(** One HTTP exchange: [session.request(...)], [client.get(...)],
    [client.post(...)]. *)
Definition send (method url : string) (payload : list (string * string))
  : M response :=
  fun w =>
    let '(latency, rep) := net w (sent w) in
    let w' := advance latency (Request method url payload) 1 w in
    match rep with
    | Answers r => (Ok r, w')
    | Fails e => (Raise e, w')
    end.

(** [d.get(key, default)]: an [AttributeError] when [d] is not a dict. *)
Definition dict_get (d : json) (key : string) (default : json) : M json :=
  match d with
  | JObject members => ret (member key members default)
  | _ => raise (no_get d)
  end.

(** [len(v)]: a [TypeError] when [v] has no length. *)
Definition len (v : json) : M Z :=
  match size v with
  | Some n => ret n
  | None => raise (no_len v)
  end.

(** A loop that threads a local variable through its iterations. *)
Fixpoint for_each {A S} (l : list A) (body : S -> A -> M S) (s : S) : M S :=
  match l with
  | [] => ret s
  | x :: rest => bind (body s x) (for_each rest body)
  end.

End World.

Declare Scope monad_scope.
Delimit Scope monad_scope with monad.
Notation "x <- m ;; k" := (World.bind m (fun x => k))
  (at level 61, m at next level, right associativity) : monad_scope.
Notation "m ;;; k" := (World.bind m (fun _ => k))
  (at level 61, right associativity) : monad_scope.

(* ================================================================== *)
(** * Variant_base/test_ollama_speed_pro.py *)
(* ================================================================== *)

Module Base.
Import World.
Local Open Scope string_scope.
Local Open Scope monad_scope.

Definition DEFAULT_OLLAMA_URL := "http://localhost:11434".
Definition DEFAULT_TIMEOUT : Z := 120.
Definition DEFAULT_RETRIES : Z := 3.
Definition DEFAULT_RETRY_DELAY : Z := 5.
Definition DEFAULT_TESTS_PER_MODEL : Z := 5.
Definition DEFAULT_INTERVAL_BETWEEN_TESTS : Z := 2.

Record TestConfig := mkTestConfig {
  ollama_url : string;
  timeout : Z;
  max_retries : Z;
  retry_delay : Z;
  tests_per_model : Z;
  interval_between_tests : Z;
  models : option (list string);
  output_dir : string
}.

Definition default_config : TestConfig :=
  {| ollama_url := DEFAULT_OLLAMA_URL;
     timeout := DEFAULT_TIMEOUT;
     max_retries := DEFAULT_RETRIES;
     retry_delay := DEFAULT_RETRY_DELAY;
     tests_per_model := DEFAULT_TESTS_PER_MODEL;
     interval_between_tests := DEFAULT_INTERVAL_BETWEEN_TESTS;
     models := None;
     output_dir := "." |}.

Record EmbeddingResult := mkEmbeddingResult {
  success : bool;
  duration : Q;
  text_length : option Z;
  embedding_dim : option Z;
  tokens_per_second : option Q;
  error : option string;
  model : option string;
  text : option string
}.

Record ModelTestResult := mkModelTestResult {
  mr_model : string;
  status : string;
  total_tests : Z;
  successful_tests : Z;
  avg_duration : option Q;
  min_duration : option Q;
  max_duration : option Q;
  std_duration : option Q;
  avg_embedding_dim : option Q;
  avg_tokens_per_second : option Q;
  model_info : option json;
  mr_error : option string;
  individual_results : list EmbeddingResult
}.

(** One row of a ranking (a [dict] in the source). *)
Record RankEntry := mkRankEntry {
  rank : Z;
  re_model : string;
  re_avg_duration : option Q;
  re_embedding_dim : option Q;
  re_tokens_per_second : option Q
}.

Record TestSummary := mkTestSummary {
  total_models : Z;
  successful_models : Z;
  failed_models : Z;
  ranking_by_speed : list RankEntry;
  ranking_by_quality : list RankEntry
}.

Record TestReport := mkTestReport {
  timestamp : Q;
  rp_ollama_url : string;
  config : TestConfig;
  results : list ModelTestResult;
  summary : TestSummary
}.

(** ** OllamaClient *)

Definition base_url (cfg : TestConfig) : string :=
  Py.rstrip_slash (ollama_url cfg).

(** [response.raise_for_status()]: an [HTTPError], which is a
    [RequestException], for a status in 400..599. *)
Definition raise_for_status (url : string) (r : response) : M response :=
  if (400 <=? status_code r)%Z && (status_code r <? 600)%Z
  then raise (mkExn RequestException
                (Py.str_of_int (status_code r) ++
                 (if (status_code r <? 500)%Z then " Client Error" else " Server Error")
                 ++ " for url: " ++ url))
  else ret r.

(** The body of [_do_request]. *)
Definition _do_request (method url : string) (payload : list (string * string))
  : M response :=
  r <- send method url payload ;;
  raise_for_status url r.

(** [retry_if_exception_type((requests.RequestException, TimeoutError))]. *)
Definition retryable (e : exn) : bool :=
  is_a RequestException e || is_a BuiltinTimeoutError e.

(** [wait_exponential(multiplier=1, min=2, max=10)] after the attempt of the
    given number (counted from 1). *)
Definition wait_exponential (attempt_number : Z) : Q :=
  Qmax 2 (Qmin (inject_Z (2 ^ (attempt_number - 1))) 10).

(** A tenacity [RetryError]: its text is the class name and, in brackets,
    what the finished last attempt prints as. *)
Definition retry_error (w : world) (last : exn) : exn :=
  mkExn RetryError ("RetryError[" ++ future_repr w last ++ "]").

(** The [@retry(stop=stop_after_attempt(max_retries), ...)] wrapper around
    [call]: [more] is the number of attempts still allowed after this one.
    The first attempt is always made; a retryable failure of the last
    allowed attempt becomes a [RetryError]; any other exception passes.
    Between two attempts tenacity calls [time.sleep]. *)
Fixpoint retrying (more : nat) (attempt_number : Z) (call : M response)
  : M response :=
  try_except call
    (fun e =>
       if retryable e then
         Some match more with
              | O => fun w => raise (retry_error w e) w
              | S more' =>
                  sleep (wait_exponential attempt_number) ;;;
                  retrying more' (attempt_number + 1) call
              end
       else None).

Definition _make_request (cfg : TestConfig) (method endpoint : string)
  (payload : list (string * string)) : M response :=
  let url := base_url cfg ++ endpoint in
  try_except
    (retrying (Z.to_nat (max_retries cfg - 1)) 1 (_do_request method url payload))
    (fun e =>
       if is_a RetryError e
       then Some (raise (mkExn OllamaConnectionError
                           ("Failed to connect to Ollama: " ++ str e)))
       else None).

(** [response.json()]: a [requests.JSONDecodeError], which is a
    [RequestException], when the body is not JSON. *)
Definition response_json (r : response) : M json :=
  match parsed r with
  | Some d => ret d
  | None => raise (mkExn RequestException (json_error r))
  end.

Definition health_check (cfg : TestConfig) : M bool :=
  try_except
    (response <- _make_request cfg "GET" "/api/tags" [] ;;
     ret (status_code response =? 200)%Z)
    (fun e => if is_a RequestException e then Some (ret false) else None).

Definition get_model_info (cfg : TestConfig) (model_name : string) : M json :=
  response <- _make_request cfg "POST" "/api/show" [("name", model_name)] ;;
  response_json response.

Definition get_embedding (cfg : TestConfig) (model prompt : string) : M json :=
  response <- _make_request cfg "POST" "/api/embeddings"
                [("model", model); ("prompt", prompt)] ;;
  response_json response.

(** ** EmbeddingTester *)

Definition DEFAULT_TEST_TEXTS : list string :=
  [ "Привет, мир! Как дела?";
    "Это тестовый текст для проверки embedding моделей.";
    "Machine learning и искусственный интеллект развиваются очень быстро.";
    "Python - популярный язык программирования для научных вычислений.";
    "Docker контейнеризация позволяет упростить развертывание приложений.";
    "Open source программное обеспечение доступно для всех.";
    "Нейронные сети используются в различных областях ИИ.";
    "Векторные базы данных эффективны для поиска по сходству.";
    "Квантизация моделей снижает размер и увеличивает скорость.";
    "Embedding модели преобразуют текст в числовые векторы." ].

Definition ALL_MODELS : list string :=
  [ "embeddinggemma:300m-qat-q8_0";
    "qwen3-embedding:0.6b-fp16";
    "qwen3-embedding:0.6b-q8_0";
    "embeddinggemma:300m-qat-q4_0";
    "all-minilm:22m-l6-v2-fp16";
    "bge-m3:567m-fp16";
    "embeddinggemma:300m-bf16";
    "nomic-embed-text:137m-v1.5-fp16";
    "qllama/multilingual-e5-small:f16";
    "all-minilm:l6-v2" ].

(** The dictionary [_calculate_stats] returns. *)
Record stats := mkStats { mean : Q; min : Q; max : Q; std : Q }.

Section Tester.

(** [statistics.stdev], a square root and so not a rational function; the
    testers call it on two values or more only. *)
Variable stdev : list Q -> Q.

Definition _calculate_stats (values : list Q) : stats :=
  match values with
  | [] => {| mean := 0; min := 0; max := 0; std := 0 |}
  | _ =>
      {| mean := Stats.mean values;
         min := Stats.minimum values;
         max := Stats.maximum values;
         std := if (1 <? List.length values)%nat then stdev values else 0 |}
  end.

(** [text[:50] + "..." if len(text) > 50 else text]. *)
Definition shorten (text : string) : string :=
  if (50 <? Py.len text)%Z then Py.take 50 text ++ "..." else text.

Definition failed_result (duration : Q) (error model text : string)
  : EmbeddingResult :=
  {| success := false;
     duration := duration;
     text_length := None;
     embedding_dim := None;
     tokens_per_second := None;
     error := Some error;
     model := Some model;
     text := Some (shorten text) |}.

Definition test_single_embedding (cfg : TestConfig) (model text : string)
  : M EmbeddingResult :=
  start_time <- perf_counter ;;
  try_except
    (response <- get_embedding cfg model text ;;
     now <- perf_counter ;;
     let duration := now - start_time in
     embedding <- dict_get response "embedding" (JArray []) ;;
     embedding_dim <- (if truthy embedding then len embedding else ret 0%Z) ;;
     let tokens_per_second :=
       if (0 <? embedding_dim)%Z && Py.Qltb 0 duration
       then inject_Z embedding_dim / duration
       else 0 in
     ret {| success := true;
            duration := duration;
            text_length := Some (Py.len text);
            embedding_dim := Some embedding_dim;
            tokens_per_second := Some tokens_per_second;
            error := None;
            model := Some model;
            text := Some (shorten text) |})
    (fun e =>
       if is_a RequestException e then
         Some (now <- perf_counter ;;
               ret (failed_result (now - start_time) (str e) model text))
       else if is_a BuiltinTimeoutError e then
         Some (now <- perf_counter ;;
               ret (failed_result (now - start_time)
                      ("Timeout after " ++ Py.str_of_int (timeout cfg) ++ "s")
                      model text))
       else None).

(** The values of an optional field that Python counts as true. *)
Definition truthy_dims (l : list EmbeddingResult) : list Z :=
  flat_map (fun r => match embedding_dim r with
                     | Some d => if (d =? 0)%Z then [] else [d]
                     | None => []
                     end) l.

Definition truthy_tps (l : list EmbeddingResult) : list Q :=
  flat_map (fun r => match tokens_per_second r with
                     | Some t => if Qeq_bool t 0 then [] else [t]
                     | None => []
                     end) l.

(** The result of [test_model] when no measurement succeeded. *)
Definition all_failed_result (model : string) (num_tests : Z)
  (results : list EmbeddingResult) : ModelTestResult :=
  {| mr_model := model;
     status := "FAILED";
     total_tests := num_tests;
     successful_tests := 0;
     avg_duration := None;
     min_duration := None;
     max_duration := None;
     std_duration := None;
     avg_embedding_dim := None;
     avg_tokens_per_second := None;
     model_info := None;
     mr_error := Some "All tests failed";
     individual_results := results |}.

(** The result of [test_model] when some measurement succeeded: the
    statistics over the successful ones. *)
Definition success_result (model : string) (num_tests : Z)
  (results : list EmbeddingResult) (model_info : option json) : ModelTestResult :=
  let successful_results := filter success results in
  let durations := map duration successful_results in
  let embedding_dims := map inject_Z (truthy_dims successful_results) in
  let tokens_per_sec := truthy_tps successful_results in
  let duration_stats := _calculate_stats durations in
  let dim_stats :=
    match embedding_dims with
    | [] => None
    | _ => Some (_calculate_stats embedding_dims)
    end in
  let tps_stats :=
    match tokens_per_sec with
    | [] => None
    | _ => Some (_calculate_stats tokens_per_sec)
    end in
  {| mr_model := model;
     status := "SUCCESS";
     total_tests := num_tests;
     successful_tests := Z.of_nat (List.length successful_results);
     avg_duration := Some (mean duration_stats);
     min_duration := Some (min duration_stats);
     max_duration := Some (max duration_stats);
     std_duration := Some (std duration_stats);
     avg_embedding_dim := option_map mean dim_stats;
     avg_tokens_per_second := option_map mean tps_stats;
     model_info := model_info;
     mr_error := None;
     individual_results := results |}.

(** What pydantic makes of the argument [model_info=...] for the field
    [model_info: dict[str, Any] | None]: a dict and [None] pass, anything
    else is a [ValidationError]. *)
Definition validate_model_info (v : json) : M (option json) :=
  match v with
  | JObject _ => ret (Some v)
  | JNull => ret None
  | _ => fun w => raise (mkExn ValueError (validation_text w v)) w
  end.

(** [num_tests or self.config.tests_per_model]. *)
Definition effective_num_tests (cfg : TestConfig) (num_tests : option Z) : Z :=
  match num_tests with
  | Some n => if (n =? 0)%Z then tests_per_model cfg else n
  | None => tests_per_model cfg
  end.

(** The loop of [test_model] over its [num_tests] samples. *)
Definition timed_tests (cfg : TestConfig) (model : string) (num_tests : Z)
  : M (list EmbeddingResult) :=
  for_each (Py.range num_tests)
    (fun results i =>
       let text :=
         nth (Z.to_nat (i mod Z.of_nat (List.length DEFAULT_TEST_TEXTS)))
             DEFAULT_TEST_TEXTS "" in
       result <- test_single_embedding cfg model text ;;
       (if (i <? num_tests - 1)%Z
        then sleep (inject_Z (interval_between_tests cfg))
        else ret tt) ;;;
       ret (results ++ [result])%list)
    [].

Definition test_model (cfg : TestConfig) (model : string) (num_tests : option Z)
  : M ModelTestResult :=
  let num_tests := effective_num_tests cfg num_tests in
  results <- timed_tests cfg model num_tests ;;
  match filter success results with
  | [] => ret (all_failed_result model num_tests results)
  | _ =>
      model_info <-
        try_except (get_model_info cfg model)
          (fun e => if is_a RequestException e then Some (ret empty_dict)
                    else None) ;;
      model_info <- validate_model_info model_info ;;
      ret (success_result model num_tests results model_info)
  end.

Definition make_entry (i : Z) (r : ModelTestResult) : RankEntry :=
  {| rank := i;
     re_model := mr_model r;
     re_avg_duration := avg_duration r;
     re_embedding_dim := avg_embedding_dim r;
     re_tokens_per_second := avg_tokens_per_second r |}.

(** The sort keys [x.avg_duration or float("inf")] and
    [x.avg_embedding_dim or 0]. *)
Definition speed_key (r : ModelTestResult) : Py.ext := Py.or_inf (avg_duration r).

Definition quality_key (r : ModelTestResult) : Q :=
  match avg_embedding_dim r with
  | Some d => d
  | None => 0
  end.

Definition is_success (r : ModelTestResult) : bool := String.eqb (status r) "SUCCESS".

Definition _create_summary (results : list ModelTestResult) : TestSummary :=
  let successful := filter is_success results in
  let ranking_by_speed :=
    match successful with
    | [] => []
    | _ =>
        let sorted_by_speed := Py.sorted Py.ext_ltb speed_key successful in
        map (fun ir => make_entry (fst ir) (snd ir)) (Py.enumerate 1 sorted_by_speed)
    end in
  let ranking_by_quality :=
    match successful with
    | [] => []
    | _ =>
        let sorted_by_quality := Py.sorted_reverse Py.Qltb quality_key successful in
        map (fun ir => make_entry (fst ir) (snd ir)) (Py.enumerate 1 sorted_by_quality)
    end in
  {| total_models := Z.of_nat (List.length results);
     successful_models := Z.of_nat (List.length successful);
     failed_models := Z.of_nat (List.length results) - Z.of_nat (List.length successful);
     ranking_by_speed := ranking_by_speed;
     ranking_by_quality := ranking_by_quality |}.

(** The result the orchestrator files for a model whose test raised. *)
Definition error_result (cfg : TestConfig) (model : string) (e : exn)
  : ModelTestResult :=
  {| mr_model := model;
     status := "ERROR";
     total_tests := tests_per_model cfg;
     successful_tests := 0;
     avg_duration := None;
     min_duration := None;
     max_duration := None;
     std_duration := None;
     avg_embedding_dim := None;
     avg_tokens_per_second := None;
     model_info := None;
     mr_error := Some (str e);
     individual_results := [] |}.

(** [run_tests], with the method [self.test_model] it calls for each model
    taken as an argument: what the loop does with a result and with an
    exception does not depend on which runner is bound to that name. *)
Definition run_tests_with (runner : string -> M ModelTestResult)
  (cfg : TestConfig) (models : option (list string)) : M TestReport :=
  let models := Py.list_or models (Py.list_or (Base.models cfg) ALL_MODELS) in
  healthy <- health_check cfg ;;
  if negb healthy then
    raise (mkExn OllamaConnectionError
             ("Ollama is not available at " ++ ollama_url cfg))
  else
    results <-
      for_each models
        (fun results model =>
           try_except
             (result <- runner model ;;
              ret (results ++ [result])%list)
             (fun e => Some (ret (results ++ [error_result cfg model e])%list)))
        [] ;;
    let summary := _create_summary results in
    now <- perf_counter ;;
    ret {| timestamp := now;
           rp_ollama_url := ollama_url cfg;
           config := cfg;
           results := results;
           summary := summary |}.

Definition run_tests (cfg : TestConfig) (models : option (list string))
  : M TestReport :=
  run_tests_with (fun model => test_model cfg model None) cfg models.

End Tester.

End Base.

(* ================================================================== *)
(** * Variant_reserv/test_ollama_embeddings.py *)
(* ================================================================== *)

Module Reserv.
Import World.
Local Open Scope string_scope.
Local Open Scope monad_scope.

Definition OLLAMA_URL := "http://localhost:11434".
Definition DOCKER_CONTAINER_NAME := "ollama".
Definition DEFAULT_TIMEOUT : Z := 180.
Definition DEFAULT_RETRIES : Z := 3.
Definition DEFAULT_TESTS_PER_MODEL : Z := 5.
Definition DEFAULT_WARMUP_REQUESTS : Z := 1.
Definition INTERVAL_BETWEEN_TESTS : Z := 3.

Definition DEFAULT_MODELS : list string := Base.ALL_MODELS.

Definition TEST_TEXTS : list string := Base.DEFAULT_TEST_TEXTS.

Inductive TestStatus := SUCCESS | FAILED | ERROR | TIMEOUT | SKIPPED.

Definition TestStatus_eqb (a b : TestStatus) : bool :=
  match a, b with
  | SUCCESS, SUCCESS | FAILED, FAILED | ERROR, ERROR
  | TIMEOUT, TIMEOUT | SKIPPED, SKIPPED => true
  | _, _ => false
  end.

Record TestConfig := mkTestConfig {
  ollama_url : string;
  timeout : Z;
  max_retries : Z;
  tests_per_model : Z;
  warmup_requests : Z;
  interval_between_tests : Z;
  models : option (list string);
  output_dir : string;
  check_docker : bool;
  save_json : bool;
  save_csv : bool;
  save_markdown : bool;
  save_html : bool
}.

Definition default_config : TestConfig :=
  {| ollama_url := OLLAMA_URL;
     timeout := DEFAULT_TIMEOUT;
     max_retries := DEFAULT_RETRIES;
     tests_per_model := DEFAULT_TESTS_PER_MODEL;
     warmup_requests := DEFAULT_WARMUP_REQUESTS;
     interval_between_tests := INTERVAL_BETWEEN_TESTS;
     models := None;
     output_dir := ".";
     check_docker := true;
     save_json := true;
     save_csv := true;
     save_markdown := true;
     save_html := true |}.

Record EmbeddingMetrics := mkEmbeddingMetrics {
  success : bool;
  duration : Q;
  text_length : Z;
  embedding_dim : option Z;
  tokens_per_second : option Q;
  error_message : option string;
  timestamp : Q
}.

Record ModelTestResult := mkModelTestResult {
  model_name : string;
  status : TestStatus;
  total_tests : Z;
  successful_tests : Z;
  failed_tests : Z;
  avg_duration : option Q;
  min_duration : option Q;
  max_duration : option Q;
  median_duration : option Q;
  std_duration : option Q;
  avg_embedding_dim : option Z;
  avg_tokens_per_second : option Q;
  model_size : option string;
  error_summary : option string;
  individual_metrics : list EmbeddingMetrics
}.

(** What [DockerManager.get_docker_status] returns. *)
Record DockerStatus := mkDockerStatus {
  ds_docker_installed : bool;
  ds_container_running : bool;
  ds_available_models : list string;
  ds_timestamp : Q
}.

(** One row of a ranking (a [dict] in the source). *)
Record RankEntry := mkRankEntry {
  rank : Z;
  re_model : string;
  re_avg_duration : option Q;
  re_embedding_dim : option Z
}.

(** The summary dictionary. *)
Record Summary := mkSummary {
  total_models : Z;
  successful_models : Z;
  failed_models : Z;
  fastest_model : option string;
  highest_quality_model : option string;
  ranking_by_speed : list RankEntry;
  ranking_by_quality : list RankEntry
}.

Record TestReport := mkTestReport {
  rp_timestamp : Q;
  config : TestConfig;
  docker_status : option DockerStatus;
  results : list ModelTestResult;
  summary : Summary;
  duration_seconds : Q
}.

(** ** DockerManager: the answers of the [docker] commands are the world's. *)

Definition get_docker_status : M DockerStatus :=
  fun w =>
    (Ok {| ds_docker_installed := docker_installed w;
           ds_container_running := container_running w;
           ds_available_models := available_models w;
           ds_timestamp := clock w |}, w).

(** ** OllamaClient *)

Definition base_url (cfg : TestConfig) : string :=
  Py.rstrip_slash (ollama_url cfg).

(** [except httpx.HTTPError] also catches [httpx.TimeoutException]. *)
Definition is_httpx_error (e : exn) : bool :=
  is_a HttpxHTTPError e || is_a HttpxTimeoutException e.

Definition health_check (cfg : TestConfig) : M bool :=
  try_except
    (response <- send "GET" (base_url cfg ++ "/api/tags") [] ;;
     ret (status_code response =? 200)%Z)
    (fun e => if is_httpx_error e then Some (ret false) else None).

(** [response.json()]: a [json.JSONDecodeError] (a [ValueError]) when the
    body is not JSON. *)
Definition response_json (r : response) : M json :=
  match parsed r with
  | Some d => ret d
  | None => raise (mkExn ValueError (json_error r))
  end.

(** The text [last_error] gets in each [except] clause of [get_embedding]. *)
Definition describe (cfg : TestConfig) (e : exn) : string :=
  if is_a HttpxTimeoutException e then
    "Timeout after " ++ Py.str_of_int (timeout cfg) ++ "s"
  else if is_a HttpxHTTPError e then "HTTP Error: " ++ str e
  else "Unexpected error: " ++ str e.

(** The [for attempt in range(retries)] loop of [get_embedding] over the
    attempts still to make, and the two statements after it.  An attempt
    either returns from the function ([inl]) or leaves a new [last_error]
    ([inr]).  The embedding returned is whatever the body holds under
    ["embedding"]; [JNull] is Python's [None]. *)
Fixpoint attempts (cfg : TestConfig) (model prompt : string) (retries : Z)
  (start_time : Q) (todo : list Z) (last_error : option string)
  : M (json * Q * option string) :=
  match todo with
  | [] =>
      now <- perf_counter ;;
      ret (JNull, now - start_time, last_error)
  | attempt :: rest =>
      step <-
        try_except
          (response <- send "POST" (base_url cfg ++ "/api/embeddings")
                         [("model", model); ("prompt", prompt)] ;;
           now <- perf_counter ;;
           let duration := now - start_time in
           if (status_code response =? 200)%Z then
             data <- response_json response ;;
             embedding <- dict_get data "embedding" (JArray []) ;;
             ret (inl (embedding, duration, @None string))
           else
             ret (inr ("HTTP " ++ Py.str_of_int (status_code response) ++ ": "
                       ++ Py.take 200 (text response))))
          (fun e => Some (ret (inr (describe cfg e)))) ;;
      match step with
      | inl result => ret result
      | inr message =>
          (if (attempt <? retries - 1)%Z
           then async_sleep (inject_Z (2 ^ attempt))
           else ret tt) ;;;
          attempts cfg model prompt retries start_time rest (Some message)
      end
  end.

Definition get_embedding (cfg : TestConfig) (model prompt : string) (retries : Z)
  : M (json * Q * option string) :=
  start_time <- perf_counter ;;
  attempts cfg model prompt retries start_time (Py.range retries) None.

(** ** EmbeddingTester *)

Section Tester.

(** [statistics.stdev]; called on two values or more only. *)
Variable stdev : list Q -> Q.

Definition test_single_embedding (cfg : TestConfig) (model text : string)
  : M EmbeddingMetrics :=
  reply <- get_embedding cfg model text (max_retries cfg) ;;
  let '(embedding, duration, error) := reply in
  if truthy embedding then
    embedding_dim <- len embedding ;;
    let tokens_per_second :=
      if Py.Qltb 0 duration then inject_Z embedding_dim / duration else 0 in
    now <- perf_counter ;;
    ret {| success := true;
           duration := duration;
           text_length := Py.len text;
           embedding_dim := Some embedding_dim;
           tokens_per_second := Some tokens_per_second;
           error_message := None;
           timestamp := now |}
  else
    now <- perf_counter ;;
    ret {| success := false;
           duration := duration;
           text_length := Py.len text;
           embedding_dim := None;
           tokens_per_second := None;
           error_message := error;
           timestamp := now |}.

(** The warm-up requests of [test_model]. *)
Definition warmup (cfg : TestConfig) (model : string) : M unit :=
  if (0 <? warmup_requests cfg)%Z then
    for_each (Py.range (warmup_requests cfg))
      (fun _ _ =>
         get_embedding cfg model (nth 0 TEST_TEXTS "") DEFAULT_RETRIES ;;;
         async_sleep 1)
      tt
  else ret tt.

(** The timed loop of [test_model]. *)
Definition timed_tests (cfg : TestConfig) (model : string)
  : M (list EmbeddingMetrics) :=
  for_each (Py.range (tests_per_model cfg))
    (fun metrics_list i =>
       let text :=
         nth (Z.to_nat (i mod Z.of_nat (List.length TEST_TEXTS))) TEST_TEXTS "" in
       metrics <- test_single_embedding cfg model text ;;
       (if (i <? tests_per_model cfg - 1)%Z
        then async_sleep (inject_Z (interval_between_tests cfg))
        else ret tt) ;;;
       ret (metrics_list ++ [metrics])%list)
    [].

Definition truthy_dims (l : list EmbeddingMetrics) : list Z :=
  flat_map (fun m => match embedding_dim m with
                     | Some d => if (d =? 0)%Z then [] else [d]
                     | None => []
                     end) l.

Definition truthy_tps (l : list EmbeddingMetrics) : list Q :=
  flat_map (fun m => match tokens_per_second m with
                     | Some t => if Qeq_bool t 0 then [] else [t]
                     | None => []
                     end) l.

Definition truthy_messages (l : list EmbeddingMetrics) : list string :=
  flat_map (fun m => match error_message m with
                     | Some "" => []
                     | Some e => [e]
                     | None => []
                     end) l.

(** [int(mean(dims))] for a non-empty list of integers. *)
Definition int_mean (dims : list Z) : Z :=
  Z.quot (fold_right Z.add 0%Z dims) (Z.of_nat (List.length dims)).

(** The part of [test_model] after the timed loop. *)
Definition aggregate (model : string) (metrics_list : list EmbeddingMetrics)
  : ModelTestResult :=
  let successful := filter success metrics_list in
  let failed := filter (fun m => negb (success m)) metrics_list in
  match successful with
  | [] =>
      let error_messages := truthy_messages failed in
      {| model_name := model;
         status := FAILED;
         total_tests := Z.of_nat (List.length metrics_list);
         successful_tests := 0;
         failed_tests := Z.of_nat (List.length failed);
         avg_duration := None;
         min_duration := None;
         max_duration := None;
         median_duration := None;
         std_duration := None;
         avg_embedding_dim := None;
         avg_tokens_per_second := None;
         model_size := None;
         error_summary :=
           Some match error_messages with
                | [] => "All tests failed"
                | _ => Py.join "; " (Py.distinct error_messages)
                end;
         individual_metrics := metrics_list |}
  | _ =>
      let durations := map duration successful in
      let embedding_dims := truthy_dims successful in
      let tokens_per_sec := truthy_tps successful in
      {| model_name := model;
         status := SUCCESS;
         total_tests := Z.of_nat (List.length metrics_list);
         successful_tests := Z.of_nat (List.length successful);
         failed_tests := Z.of_nat (List.length failed);
         avg_duration := Some (Stats.mean durations);
         min_duration := Some (Stats.minimum durations);
         max_duration := Some (Stats.maximum durations);
         median_duration := Some (Stats.median durations);
         std_duration :=
           Some (if (1 <? List.length durations)%nat then stdev durations else 0);
         avg_embedding_dim :=
           match embedding_dims with
           | [] => None
           | _ => Some (int_mean embedding_dims)
           end;
         avg_tokens_per_second :=
           match tokens_per_sec with
           | [] => None
           | _ => Some (Stats.mean tokens_per_sec)
           end;
         model_size := None;
         error_summary := None;
         individual_metrics := metrics_list |}
  end.

Definition test_model (cfg : TestConfig) (model : string) : M ModelTestResult :=
  warmup cfg model ;;;
  metrics_list <- timed_tests cfg model ;;
  ret (aggregate model metrics_list).

Definition speed_key (r : ModelTestResult) : Py.ext := Py.or_inf (avg_duration r).

Definition quality_key (r : ModelTestResult) : Z :=
  match avg_embedding_dim r with
  | Some d => d
  | None => 0%Z
  end.

Definition is_success (r : ModelTestResult) : bool :=
  TestStatus_eqb (status r) SUCCESS.

Definition make_entry (i : Z) (r : ModelTestResult) : RankEntry :=
  {| rank := i + 1;
     re_model := model_name r;
     re_avg_duration := avg_duration r;
     re_embedding_dim := avg_embedding_dim r |}.

Definition _create_summary (results : list ModelTestResult) : Summary :=
  let successful := filter is_success results in
  let ranking_by_speed := Py.sorted Py.ext_ltb speed_key successful in
  let ranking_by_quality := Py.sorted_reverse Z.ltb quality_key successful in
  {| total_models := Z.of_nat (List.length results);
     successful_models := Z.of_nat (List.length successful);
     failed_models :=
       Z.of_nat (List.length (filter (fun r => negb (is_success r)) results));
     fastest_model := option_map model_name (hd_error ranking_by_speed);
     highest_quality_model := option_map model_name (hd_error ranking_by_quality);
     ranking_by_speed :=
       map (fun ir => make_entry (fst ir) (snd ir)) (Py.enumerate 0 ranking_by_speed);
     ranking_by_quality :=
       map (fun ir => make_entry (fst ir) (snd ir)) (Py.enumerate 0 ranking_by_quality) |}.

(** The result the orchestrator files for a model whose test raised. *)
Definition error_result (cfg : TestConfig) (model : string) (e : exn)
  : ModelTestResult :=
  {| model_name := model;
     status := ERROR;
     total_tests := tests_per_model cfg;
     successful_tests := 0;
     failed_tests := tests_per_model cfg;
     avg_duration := None;
     min_duration := None;
     max_duration := None;
     median_duration := None;
     std_duration := None;
     avg_embedding_dim := None;
     avg_tokens_per_second := None;
     model_size := None;
     error_summary := Some (str e);
     individual_metrics := [] |}.

(** The Docker checks at the start of [run_tests]. *)
Definition docker_check (cfg : TestConfig) : M (option DockerStatus) :=
  if check_docker cfg then
    docker_status <- get_docker_status ;;
    if negb (ds_docker_installed docker_status) then
      raise (mkExn RuntimeError "Docker is not installed")
    else if negb (ds_container_running docker_status) then
      raise (mkExn RuntimeError
               ("Ollama container '" ++ DOCKER_CONTAINER_NAME ++ "' is not running"))
    else ret (Some docker_status)
  else ret None.

(** [run_tests], with the method [self.test_model] it calls for each model
    taken as an argument (see [Base.run_tests_with]). *)
Definition run_tests_with (runner : string -> M ModelTestResult)
  (cfg : TestConfig) : M TestReport :=
  start_time <- perf_counter ;;
  docker_status <- docker_check cfg ;;
  let models_to_test := Py.list_or (models cfg) DEFAULT_MODELS in
  healthy <- health_check cfg ;;
  if negb healthy then
    raise (mkExn RuntimeError ("Cannot connect to Ollama at " ++ ollama_url cfg))
  else
    results <-
      for_each models_to_test
        (fun results model =>
           try_except
             (result <- runner model ;;
              ret (results ++ [result])%list)
             (fun e => Some (ret (results ++ [error_result cfg model e])%list)))
        [] ;;
    let summary := _create_summary results in
    now <- perf_counter ;;
    let duration := now - start_time in
    ret {| rp_timestamp := now;
           config := cfg;
           docker_status := docker_status;
           results := results;
           summary := summary;
           duration_seconds := duration |}.

Definition run_tests (cfg : TestConfig) : M TestReport :=
  run_tests_with (test_model cfg) cfg.

End Tester.

End Reserv.

(* ================================================================== *)
(** * Vocabulary of the statements *)
(* ================================================================== *)

Module Spec.
Import World.

(** [a] is not ranked after [b]: the sort never sees [b < a]. *)
Definition ext_le (a b : Py.ext) : Prop := Py.ext_ltb b a = false.

(** [a] ties with [k]: neither key is smaller than the other. *)
Definition ties {K} (ltb : K -> K -> bool) (k a : K) : bool :=
  negb (ltb k a) && negb (ltb a k).

(** The ranks [1; 2; ...; n]. *)
Definition ranks_upto (n : nat) : list Z := map Z.of_nat (seq 1 n).

(** A row of a ranking without its rank, and the row a result contributes. *)
Definition base_row (e : Base.RankEntry) : string * option Q * option Q * option Q :=
  (Base.re_model e, Base.re_avg_duration e, Base.re_embedding_dim e,
   Base.re_tokens_per_second e).

Definition base_row_of (r : Base.ModelTestResult)
  : string * option Q * option Q * option Q :=
  (Base.mr_model r, Base.avg_duration r, Base.avg_embedding_dim r,
   Base.avg_tokens_per_second r).

Definition reserv_row (e : Reserv.RankEntry) : string * option Q * option Z :=
  (Reserv.re_model e, Reserv.re_avg_duration e, Reserv.re_embedding_dim e).

Definition reserv_row_of (r : Reserv.ModelTestResult) : string * option Q * option Z :=
  (Reserv.model_name r, Reserv.avg_duration r, Reserv.avg_embedding_dim r).

(** The sort key of a row: its mean duration, [or float("inf")]. *)
Definition base_row_key (row : string * option Q * option Q * option Q) : Py.ext :=
  Py.or_inf (snd (fst (fst row))).

Definition reserv_row_key (row : string * option Q * option Z) : Py.ext :=
  Py.or_inf (snd (fst row)).

(** A mean duration that is there and is not zero. *)
Definition positive_mean (o : option Q) : Prop :=
  exists q, o = Some q /\ ~ q == 0.

(** Two optional mean durations in non-decreasing order. *)
Definition mean_le (a b : option Q) : Prop :=
  exists x y, a = Some x /\ b = Some y /\ x <= y.

(** ** Invariants of a Model Result *)

(** Asynchronous tester: the counters add up. *)
Definition counts_add_up (r : Reserv.ModelTestResult) : Prop :=
  (Reserv.successful_tests r + Reserv.failed_tests r)%Z = Reserv.total_tests r.

(** Synchronous tester, whose Model Result has no [failed_tests] field: the
    failed measurements are those kept in the result with [success = False]. *)
Definition base_failed_tests (r : Base.ModelTestResult) : Z :=
  Z.of_nat (List.length (filter (fun m => negb (Base.success m))
                           (Base.individual_results r))).

Definition base_counts_add_up (r : Base.ModelTestResult) : Prop :=
  (Base.successful_tests r + base_failed_tests r)%Z = Base.total_tests r.

(** The result the synchronous orchestrator files for a runner that raised:
    no success, no measurement kept, and the configured number of tests as
    total. *)
Definition base_error_counts (cfg : Base.TestConfig) (r : Base.ModelTestResult)
  : Prop :=
  Base.status r = "ERROR"%string /\ Base.successful_tests r = 0%Z
  /\ base_failed_tests r = 0%Z /\ Base.total_tests r = Base.tests_per_model cfg.

(** Asynchronous tester: every statistic is there / none is. *)
Definition reserv_stats_present (r : Reserv.ModelTestResult) : Prop :=
  Reserv.avg_duration r <> None /\ Reserv.min_duration r <> None /\
  Reserv.max_duration r <> None /\ Reserv.median_duration r <> None /\
  Reserv.std_duration r <> None /\ Reserv.avg_embedding_dim r <> None.

Definition reserv_stats_absent (r : Reserv.ModelTestResult) : Prop :=
  Reserv.avg_duration r = None /\ Reserv.min_duration r = None /\
  Reserv.max_duration r = None /\ Reserv.median_duration r = None /\
  Reserv.std_duration r = None /\ Reserv.avg_embedding_dim r = None.

Definition reserv_stats_iff (r : Reserv.ModelTestResult) : Prop :=
  (0 < Reserv.successful_tests r)%Z /\ reserv_stats_present r
  \/ Reserv.successful_tests r = 0%Z /\ reserv_stats_absent r.

(** Synchronous tester: the duration statistics are there / no statistic is. *)
Definition base_durations_present (r : Base.ModelTestResult) : Prop :=
  Base.avg_duration r <> None /\ Base.min_duration r <> None /\
  Base.max_duration r <> None /\ Base.std_duration r <> None.

Definition base_stats_absent (r : Base.ModelTestResult) : Prop :=
  Base.avg_duration r = None /\ Base.min_duration r = None /\
  Base.max_duration r = None /\ Base.std_duration r = None /\
  Base.avg_embedding_dim r = None.

(** Some successful measurement of the result reported a dimensionality
    other than zero. *)
Definition reported_a_dimension (r : Base.ModelTestResult) : Prop :=
  exists m, In m (Base.individual_results r) /\ Base.success m = true /\
            Py.truthy_Z (Base.embedding_dim m) = true.

Definition base_stats_iff (r : Base.ModelTestResult) : Prop :=
  (0 < Base.successful_tests r)%Z /\ base_durations_present r /\
  (Base.avg_embedding_dim r <> None <-> reported_a_dimension r)
  \/ Base.successful_tests r = 0%Z /\ base_stats_absent r.

(** ** What the orchestrator files for the models of a run *)

(** [filed_in_order runner error_result models w results w'] is the loop of
    [run_tests] over [models], started in the world [w]: the runner is
    called for each model in turn, in the world the call before it left;
    what it returns is filed, and when it raises [e] the result
    [error_result model e] is filed and the loop goes on.  [results] are the
    results filed and [w'] is the world after the last call. *)
Section Filing.
Context {R : Type} (runner : string -> M R) (error_result : string -> exn -> R).

Inductive filed_in_order : list string -> world -> list R -> world -> Prop :=
| filed_none (w : world) : filed_in_order [] w [] w
| filed_result (model : string) (rest : list string) (w w1 w' : world)
    (r : R) (rs : list R) :
    runner model w = (Ok r, w1) ->
    filed_in_order rest w1 rs w' ->
    filed_in_order (model :: rest) w (r :: rs) w'
| filed_error (model : string) (rest : list string) (w w1 w' : world)
    (e : exn) (rs : list R) :
    runner model w = (Raise e, w1) ->
    filed_in_order rest w1 rs w' ->
    filed_in_order (model :: rest) w (error_result model e :: rs) w'.

End Filing.

(** The result filed for a runner that raised [e] on [model]: status ERROR,
    no success, [str(e)] as error, no statistics and no measurement. *)
Definition base_errored (model : string) (e : exn) (r : Base.ModelTestResult)
  : Prop :=
  Base.mr_model r = model /\ Base.status r = "ERROR"%string
  /\ Base.successful_tests r = 0%Z /\ Base.mr_error r = Some (str e)
  /\ Base.avg_duration r = None /\ Base.individual_results r = [].

Definition reserv_errored (model : string) (e : exn) (r : Reserv.ModelTestResult)
  : Prop :=
  Reserv.model_name r = model /\ Reserv.status r = Reserv.ERROR
  /\ Reserv.successful_tests r = 0%Z /\ Reserv.error_summary r = Some (str e)
  /\ Reserv.avg_duration r = None /\ Reserv.individual_metrics r = [].

(** ** The service *)

(** The HTTP library of the synchronous tester fails with its own
    exceptions only: every failure of a request is a
    [requests.RequestException] or a [TimeoutError]. *)
Definition requests_only (w : world) : Prop :=
  forall n, match snd (net w n) with
            | Fails e => Base.retryable e = true
            | Answers _ => True
            end.

(** The configured models of a run, after the defaults. *)
Definition base_models (cfg : Base.TestConfig) (models : option (list string))
  : list string :=
  Py.list_or models (Py.list_or (Base.models cfg) Base.ALL_MODELS).

Definition reserv_models (cfg : Reserv.TestConfig) : list string :=
  Py.list_or (Reserv.models cfg) Reserv.DEFAULT_MODELS.

(** The service is down for good: every request fails with a
    [requests.RequestException] or a [TimeoutError]. *)
Definition always_fails (w : world) : Prop :=
  forall n, exists e, snd (net w n) = Fails e /\ Base.retryable e = true.

(** [e] is an exception of the HTTP library, raised on a request of the run
    numbered from [first] up to (not including) [next]. *)
Definition raised_by_service (w : world) (first next : nat) (e : exn) : Prop :=
  exists n, (first <= n < next)%nat /\ snd (net w n) = Fails e.

(** A successful measurement of the asynchronous tester carries a
    dimensionality other than zero. *)
Definition measured_dimension (m : Reserv.EmbeddingMetrics) : Prop :=
  Reserv.success m = true -> Py.truthy_Z (Reserv.embedding_dim m) = true.

(** ** Time spent by a probe *)

(** The latencies of the [n] requests from number [first] on. *)
Fixpoint latency_sum (net : nat -> Q * reply) (first n : nat) : Q :=
  match n with
  | O => 0
  | S n' => fst (net first) + latency_sum net (S first) n'
  end.

(** The sleeps [2 ** a], [2 ** (a+1)], ..., [m] of them. *)
Fixpoint backoff_from (a : Z) (m : nat) : Q :=
  match m with
  | O => 0
  | S m' => inject_Z (2 ^ a) + backoff_from (a + 1) m'
  end.

Definition backoff_sum (m : nat) : Q := backoff_from 0 m.

(** ** What a probe and the warm-up leave in the log *)

(** The request of the asynchronous tester for an embedding. *)
Definition embedding_request (cfg : Reserv.TestConfig) (model prompt : string)
  : event :=
  Request "POST" (Reserv.base_url cfg ++ "/api/embeddings")
    [("model"%string, model); ("prompt"%string, prompt)].

(** The events of one probe of [get_embedding] from attempt [a] on: a
    request, or a request, the back-off sleep [2 ** a] and the events of the
    attempts that follow. *)
Inductive probe_events (cfg : Reserv.TestConfig) (model prompt : string)
  : Z -> list event -> Prop :=
| probe_last (a : Z) :
    probe_events cfg model prompt a [embedding_request cfg model prompt]
| probe_retry (a : Z) (evs : list event) :
    probe_events cfg model prompt (a + 1) evs ->
    probe_events cfg model prompt a
      (embedding_request cfg model prompt :: Sleep (inject_Z (2 ^ a)) :: evs).

(** The events of [n] warm-up probes: each is a probe of the first test
    text, followed by a sleep of one second. *)
Inductive warmup_events (cfg : Reserv.TestConfig) (model : string)
  : nat -> list event -> Prop :=
| warmup_done : warmup_events cfg model O []
| warmup_probe (n : nat) (probe rest : list event) :
    probe_events cfg model (nth 0 Reserv.TEST_TEXTS ""%string) 0 probe ->
    warmup_events cfg model n rest ->
    warmup_events cfg model (S n) (probe ++ Sleep 1 :: rest).


(** ** The ranking by dimensionality and the counts of a summary *)

(** [x or 0] for the optional mean dimensionality of either tester. *)
Definition dim_or_zero (o : option Q) : Q :=
  match o with Some d => d | None => 0 end.

Definition int_dim_or_zero (o : option Z) : Z :=
  match o with Some d => d | None => 0%Z end.

(** ** The requests of the synchronous client *)

(** A status for which [raise_for_status] raises. *)
Definition error_status (status : Z) : bool :=
  (400 <=? status)%Z && (status <? 600)%Z.

(** An event of one call of [_make_request]: the request of the call, or a
    sleep of two to ten seconds. *)
Definition client_event (method url : string) (payload : list (string * string))
  (ev : event) : Prop :=
  match ev with
  | Request m u p => m = method /\ u = url /\ p = payload
  | Sleep seconds => 2 <= seconds /\ seconds <= 10
  end.

(** The attempts [stop_after_attempt(max_retries)] allows: one at least. *)
Definition attempts_allowed (cfg : Base.TestConfig) : nat :=
  S (Z.to_nat (Base.max_retries cfg - 1)).

(** ** Status and measurements of a Model Result *)

(** A result of the asynchronous runner: SUCCESS with successes and no
    error summary, or FAILED with none and an error summary that is not
    empty. *)
Definition reserv_status_ok (r : Reserv.ModelTestResult) : Prop :=
  (Reserv.status r = Reserv.SUCCESS /\ (0 < Reserv.successful_tests r)%Z
   /\ Reserv.error_summary r = None)
  \/ (Reserv.status r = Reserv.FAILED /\ Reserv.successful_tests r = 0%Z
      /\ exists message, Reserv.error_summary r = Some message
                         /\ message <> ""%string).

(** A result of the synchronous runner: SUCCESS with successes and no
    error, or FAILED with no success, no model information and the error
    "All tests failed". *)
Definition base_status_ok (r : Base.ModelTestResult) : Prop :=
  (Base.status r = "SUCCESS"%string /\ (0 < Base.successful_tests r)%Z
   /\ Base.mr_error r = None)
  \/ (Base.status r = "FAILED"%string /\ Base.successful_tests r = 0%Z
      /\ Base.mr_error r = Some "All tests failed"%string
      /\ Base.model_info r = None).

(** A measurement of the asynchronous prober: a success has a positive
    dimensionality, a throughput and no error message; a failure has neither
    dimensionality nor throughput. *)
Definition reserv_measurement_ok (m : Reserv.EmbeddingMetrics) : Prop :=
  if Reserv.success m
  then (exists d, Reserv.embedding_dim m = Some d /\ (0 < d)%Z)
       /\ Reserv.tokens_per_second m <> None
       /\ Reserv.error_message m = None
  else Reserv.embedding_dim m = None /\ Reserv.tokens_per_second m = None.

(** A measurement of the synchronous prober for [model]: a success has a
    dimensionality that is not negative, a throughput (zero when the
    dimensionality is) and no error; a failure has an error and neither
    dimensionality nor throughput nor text length. *)
Definition base_measurement_ok (model : string) (m : Base.EmbeddingResult) : Prop :=
  Base.model m = Some model
  /\ if Base.success m
     then Base.error m = None /\ Base.text_length m <> None
          /\ exists d t, Base.embedding_dim m = Some d /\ (0 <= d)%Z
                         /\ Base.tokens_per_second m = Some t
                         /\ (d = 0%Z -> t = 0)
     else Base.error m <> None /\ Base.text_length m = None
          /\ Base.embedding_dim m = None /\ Base.tokens_per_second m = None.

(** ** The attempts of the asynchronous client *)

(** What an attempt of [get_embedding] makes of the service's reply: [None]
    when the function returns from this attempt (a 200 answer whose body is
    a JSON object), else the text [last_error] gets. *)
Definition attempt_error (cfg : Reserv.TestConfig) (rep : reply) : option string :=
  match rep with
  | Answers r =>
      if (status_code r =? 200)%Z then
        match parsed r with
        | Some (JObject _) => None
        | Some d => Some (Reserv.describe cfg (no_get d))
        | None => Some (Reserv.describe cfg (mkExn ValueError (json_error r)))
        end
      else Some ("HTTP " ++ Py.str_of_int (status_code r) ++ ": "
                 ++ Py.take 200 (text r))%string
  | Fails e => Some (Reserv.describe cfg e)
  end.

(** The embedding an attempt gets from the reply: what the body holds under
    ["embedding"] (an empty list when it holds nothing), and [None] for a
    reply from which the function does not return. *)
Definition attempt_value (rep : reply) : json :=
  match rep with
  | Answers r =>
      if (status_code r =? 200)%Z then
        match parsed r with
        | Some (JObject members) => member "embedding" members (JArray [])
        | _ => JNull
        end
      else JNull
  | Fails _ => JNull
  end.

(** The number of requests of a probe that is allowed [k] attempts and
    whose first request is number [first] of the run: the attempts up to
    and including the first from which the function returns, all [k] when
    there is none. *)
Fixpoint attempts_made (cfg : Reserv.TestConfig) (net : nat -> Q * reply)
  (first k : nat) : nat :=
  match k with
  | O => O
  | S k' =>
      match attempt_error cfg (snd (net first)) with
      | None => 1
      | Some _ => S (attempts_made cfg net (S first) k')
      end
  end.

(** The events of a probe of [n] requests whose first attempt has number
    [a]: the same request [n] times, with the sleep [2 ** a], [2 ** (a+1)],
    ... after each of them but the last. *)
Fixpoint probe_log (cfg : Reserv.TestConfig) (model prompt : string) (a : Z)
  (n : nat) : list event :=
  match n with
  | O => []
  | S n' =>
      embedding_request cfg model prompt
      :: match n' with
         | O => []
         | S _ => Sleep (inject_Z (2 ^ a)) :: probe_log cfg model prompt (a + 1) n'
         end
  end.

(** Whenever the service sends an embedding that Python counts as true, it
    has a length: it is a list, as the service's contract has it, or a
    string or an object. *)
Definition embeddings_have_length (w : world) : Prop :=
  forall n, truthy (attempt_value (snd (net w n))) = true ->
            size (attempt_value (snd (net w n))) <> None.

(** The duration statistics of a result agree with the measurements it keeps:
    the smallest and the largest are durations of successful measurements
    and the mean (and the median, where the result has one) lies between
    them; a result without statistics keeps no successful measurement. *)
Definition base_durations_ordered (r : Base.ModelTestResult) : Prop :=
  let durations :=
    map Base.duration (filter Base.success (Base.individual_results r)) in
  match Base.min_duration r, Base.avg_duration r, Base.max_duration r with
  | Some lo, Some avg, Some hi =>
      lo <= avg /\ avg <= hi /\ In lo durations /\ In hi durations
  | None, None, None => durations = []
  | _, _, _ => False
  end.

Definition reserv_durations_ordered (r : Reserv.ModelTestResult) : Prop :=
  let durations :=
    map Reserv.duration (filter Reserv.success (Reserv.individual_metrics r)) in
  match Reserv.min_duration r, Reserv.avg_duration r,
        Reserv.median_duration r, Reserv.max_duration r with
  | Some lo, Some avg, Some med, Some hi =>
      lo <= avg /\ avg <= hi /\ lo <= med /\ med <= hi
      /\ In lo durations /\ In hi durations
  | None, None, None, None => durations = []
  | _, _, _, _ => False
  end.

(** ** What the timed loop leaves in the log *)

(** The text of sample [i]: the test texts taken in turn. *)
Definition sample_text (i : nat) : string :=
  nth (i mod List.length Reserv.TEST_TEXTS) Reserv.TEST_TEXTS ""%string.

(** The events of the samples [i], [i + 1], ..., [k] of them: the probe of
    each sample's text, and between two samples (so not after the last) a
    sleep of [interval_between_tests] seconds. *)
Inductive timed_events (cfg : Reserv.TestConfig) (model : string)
  : nat -> nat -> list event -> Prop :=
| timed_none (i : nat) : timed_events cfg model i 0 []
| timed_last (i : nat) (probe : list event) :
    probe_events cfg model (sample_text i) 0 probe ->
    timed_events cfg model i 1 probe
| timed_more (i k : nat) (probe rest : list event) :
    probe_events cfg model (sample_text i) 0 probe ->
    timed_events cfg model (S i) (S k) rest ->
    timed_events cfg model i (S (S k))
      (probe ++ Sleep (inject_Z (Reserv.interval_between_tests cfg)) :: rest).

End Spec.

(* ================================================================== *)
(** * Scenarios: concrete services, configurations and results *)
(* ================================================================== *)

Module Scenario.
Import World.
Local Open Scope string_scope.

(** A run that starts against the service [net], with Docker as given. *)
Definition start (net : nat -> Q * reply) (docker container : bool) : world :=
  {| clock := 0;
     net := net;
     sent := 0;
     log := [];
     docker_installed := docker;
     container_running := container;
     available_models := [];
     future_repr :=
       fun _ => "<Future at 0x7f3a5c1d2e90 state=finished raised ConnectionError>";
     validation_text := fun _ => "1 validation error for ModelTestResult" |}.

(** A fresh run against the service [net], with Docker up. *)
Definition fresh (net : nat -> Q * reply) : world := start net true true.

(** A succeeded result of the synchronous tester with the given mean
    duration. *)
Definition succeeded (name : string) (mean : Q) : Base.ModelTestResult :=
  {| Base.mr_model := name;
     Base.status := "SUCCESS";
     Base.total_tests := 1;
     Base.successful_tests := 1;
     Base.avg_duration := Some mean;
     Base.min_duration := Some mean;
     Base.max_duration := Some mean;
     Base.std_duration := Some 0;
     Base.avg_embedding_dim := Some 384;
     Base.avg_tokens_per_second := None;
     Base.model_info := Some empty_dict;
     Base.mr_error := None;
     Base.individual_results := [] |}.

(** One model with a mean duration of one second, then one whose mean
    duration is zero. *)
Definition slow_then_instant : list Base.ModelTestResult :=
  [succeeded "slow" 1; succeeded "instant" 0].

(** Nothing here depends on what [statistics.stdev] computes; this stands
    in for it where a run is evaluated.  It is never zero, so a deviation of
    zero in a result is the tester's own. *)
Definition stdev_stand_in : list Q -> Q := fun _ => 1.

Definition refused : reply :=
  Fails (mkExn RequestException "Connection refused").

Definition httpx_refused : reply :=
  Fails (mkExn HttpxHTTPError "All connection attempts failed").

(** An answer whose body is a JSON object with the vector [v] under
    ["embedding"], or with no member at all. *)
Definition body (v : option (list Q)) : json :=
  match v with
  | Some l => JObject [("embedding", JArray (map JFloat l))]
  | None => JObject []
  end.

Definition answer (status : Z) (v : option (list Q)) : reply :=
  Answers {| status_code := status;
             text := "{}";
             parsed := Some (body v);
             json_error := "" |}.

(** The service is down: every request is refused after half a second. *)
Definition down : world := fresh (fun _ => (1 # 2, refused)).
Definition httpx_down : world := fresh (fun _ => (1 # 2, httpx_refused)).

(** The service answers the liveness probe and then goes down. *)
Definition up_then_down : world :=
  fresh (fun n => match n with
                  | O => (1 # 10, answer 200 None)
                  | _ => (1 # 2, refused)
                  end).

Definition two_models : option (list string) := Some ["a"; "b"].

(** The service is up: every request is answered in a quarter of a second
    with a three-dimensional vector. *)
Definition healthy : world :=
  fresh (fun _ => (1 # 4, answer 200 (Some [1; 2; 3]))).

(** The service is up but answers every request with an empty vector. *)
Definition empty_vectors : world :=
  fresh (fun _ => (1 # 2, answer 200 (Some []))).

(** A short asynchronous run: one model, the given number of samples. *)
Definition short_run (samples : Z) : Reserv.TestConfig :=
  {| Reserv.ollama_url := Reserv.OLLAMA_URL;
     Reserv.timeout := Reserv.DEFAULT_TIMEOUT;
     Reserv.max_retries := Reserv.DEFAULT_RETRIES;
     Reserv.tests_per_model := samples;
     Reserv.warmup_requests := 2;
     Reserv.interval_between_tests := Reserv.INTERVAL_BETWEEN_TESTS;
     Reserv.models := Some ["all-minilm:l6-v2"];
     Reserv.output_dir := ".";
     Reserv.check_docker := true;
     Reserv.save_json := true;
     Reserv.save_csv := true;
     Reserv.save_markdown := true;
     Reserv.save_html := true |}.

(** The service fails twice and answers the third request; every exchange
    takes half a second. *)
Definition third_time_lucky : world :=
  fresh (fun n => match n with
                  | 2%nat => (1 # 2, answer 200 (Some [1; 2]))
                  | _ => (1 # 2, httpx_refused)
                  end).

(** Scenario D of the design: X has a mean duration of two seconds, Y of
    one. *)
Definition scenario_D : list Base.ModelTestResult :=
  [succeeded "X" 2; succeeded "Y" 1].

(** The service refuses the first request and answers the second with an
    empty vector. *)
Definition empty_on_second_attempt : world :=
  fresh (fun n => match n with
                  | O => (1 # 2, httpx_refused)
                  | _ => (1 # 2, answer 200 (Some []))
                  end).

(** Docker is not installed / the container is stopped; the service itself
    would answer. *)
Definition without_docker : world :=
  start (fun _ => (1 # 4, answer 200 (Some [1; 2; 3]))) false false.

Definition container_stopped : world :=
  start (fun _ => (1 # 4, answer 200 (Some [1; 2; 3]))) true false.


(** The service times out on the first two requests and answers 503 from
    then on. *)
Definition timeouts_then_503 : world :=
  fresh (fun n => match n with
                  | O | 1%nat => (180 # 1, Fails (mkExn HttpxTimeoutException "timed out"))
                  | _ => (1 # 2, Answers {| status_code := 503;
                                            text := "overloaded";
                                            parsed := None;
                                            json_error :=
                                              "Expecting value: line 1 column 1 (char 0)" |})
                  end).

(** The service answers the liveness probe, is down for the three requests
    that follow, and is up from then on. *)
Definition down_for_the_first_model : world :=
  fresh (fun n => match n with
                  | O => (1 # 10, answer 200 None)
                  | 1%nat | 2%nat | 3%nat => (1 # 2, refused)
                  | _ => (1 # 4, answer 200 (Some [1; 2; 3]))
                  end).

(** The HTTP library fails with an exception that is none of its own. *)
Definition broken_library : world :=
  fresh (fun _ => (0, Fails (mkExn ValueError "Invalid URL"))).

(** The service is up and sends the number 7 where the vector should be. *)
Definition number_for_a_vector : world :=
  fresh (fun _ => (1 # 4,
                   Answers {| status_code := 200;
                              text := "{}";
                              parsed := Some (JObject [("embedding", JInt 7)]);
                              json_error := "" |})).

End Scenario.

(* ================================================================== *)
(** * Facts about the Python helpers *)
(* ================================================================== *)

Section SortedFacts.
Context {A K : Type} (ltb : K -> K -> bool) (key : A -> K).

(** [ltb] is the strict part of a total preorder. *)
Hypothesis not_lt_trans :
  forall a b c, ltb b a = false -> ltb c b = false -> ltb c a = false.
Hypothesis lt_asym : forall a b, ltb a b = true -> ltb b a = false.

Let ordered (x y : A) : Prop := ltb (key y) (key x) = false.

Lemma insert_perm (x : A) (l : list A) :
  Permutation (Py.insert ltb key x l) (x :: l).
Proof.
  induction l as [|y l IH]; simpl.
  - apply Permutation_refl.
  - destruct (ltb (key y) (key x)).
    + eapply perm_trans; [apply perm_skip, IH | apply perm_swap].
    + apply Permutation_refl.
Qed.

Lemma sorted_perm (l : list A) : Permutation (Py.sorted ltb key l) l.
Proof.
  induction l as [|x l IH]; simpl.
  - constructor.
  - eapply perm_trans; [apply insert_perm | apply perm_skip, IH].
Qed.

Lemma insert_Forall (P : A -> Prop) (x : A) (l : list A) :
  P x -> Forall P l -> Forall P (Py.insert ltb key x l).
Proof.
  intros Hx Hl. induction Hl as [|y l Hy Hl IH]; simpl.
  - constructor; [exact Hx | constructor].
  - destruct (ltb (key y) (key x)); repeat constructor; assumption.
Qed.

Lemma insert_sorted (x : A) (l : list A) :
  StronglySorted ordered l -> StronglySorted ordered (Py.insert ltb key x l).
Proof.
  induction 1 as [|y l Hs IH Hy]; simpl.
  - repeat constructor.
  - destruct (ltb (key y) (key x)) eqn:E.
    + constructor; [exact IH |].
      apply insert_Forall; [| exact Hy].
      unfold ordered. apply lt_asym. exact E.
    + constructor; [constructor; assumption |].
      constructor; [exact E |].
      eapply Forall_impl; [| exact Hy].
      intros z Hz. unfold ordered in *. eapply not_lt_trans; eassumption.
Qed.

Lemma sorted_sorted (l : list A) : StronglySorted ordered (Py.sorted ltb key l).
Proof.
  induction l as [|x l IH]; simpl.
  - constructor.
  - apply insert_sorted, IH.
Qed.

(** Stability: among the elements whose keys tie with [k], the sort keeps
    the order of the input. *)
Lemma insert_stable (k : K) (x : A) (l : list A) :
  filter (fun a => Spec.ties ltb k (key a)) (Py.insert ltb key x l) =
  filter (fun a => Spec.ties ltb k (key a)) (x :: l).
Proof.
  induction l as [|y l IH]; [reflexivity |].
  simpl Py.insert. destruct (ltb (key y) (key x)) eqn:E; [| reflexivity].
  change (filter (fun a => Spec.ties ltb k (key a)) (y :: Py.insert ltb key x l))
    with (if Spec.ties ltb k (key y)
          then y :: filter (fun a => Spec.ties ltb k (key a)) (Py.insert ltb key x l)
          else filter (fun a => Spec.ties ltb k (key a)) (Py.insert ltb key x l)).
  rewrite IH. simpl.
  destruct (Spec.ties ltb k (key x)) eqn:Tx, (Spec.ties ltb k (key y)) eqn:Ty;
    try reflexivity.
  exfalso. unfold Spec.ties in Tx, Ty.
  apply andb_prop in Tx, Ty. destruct Tx as [Tx1 Tx2], Ty as [Ty1 Ty2].
  apply negb_true_iff in Tx1, Tx2, Ty1, Ty2.
  (* key x <= k <= key y, so key y < key x is impossible *)
  assert (ltb (key y) (key x) = false)
    by (apply (not_lt_trans (key x) k (key y)); assumption).
  congruence.
Qed.

Lemma sorted_stable (k : K) (l : list A) :
  filter (fun a => Spec.ties ltb k (key a)) (Py.sorted ltb key l) =
  filter (fun a => Spec.ties ltb k (key a)) l.
Proof.
  induction l as [|x l IH]; [reflexivity |].
  simpl Py.sorted. rewrite insert_stable. simpl. rewrite IH. reflexivity.
Qed.
End SortedFacts.

Lemma enumerate_snd {A} (start : Z) (l : list A) :
  map snd (Py.enumerate start l) = l.
Proof.
  revert start. induction l as [|x l IH]; intros start; simpl; [reflexivity |].
  now rewrite IH.
Qed.

Lemma enumerate_fst {A} (start : Z) (l : list A) :
  map fst (Py.enumerate start l) =
  map (fun i => (start + Z.of_nat i)%Z) (seq 0 (List.length l)).
Proof.
  revert start. induction l as [|x l IH]; intros start; simpl; [reflexivity |].
  rewrite IH, <- seq_shift, map_map. f_equal; [lia |].
  apply map_ext. intros i. lia.
Qed.

Lemma ranks_upto_spec (n : nat) :
  map (fun i => (1 + Z.of_nat i)%Z) (seq 0 n) = Spec.ranks_upto n.
Proof.
  unfold Spec.ranks_upto. rewrite <- seq_shift, map_map.
  apply map_ext. intros i. lia.
Qed.

Lemma Qltb_false_iff (a b : Q) : Py.Qltb b a = false <-> a <= b.
Proof.
  unfold Py.Qltb. rewrite negb_false_iff. apply Qle_bool_iff.
Qed.

Lemma Qltb_true_iff (a b : Q) : Py.Qltb a b = true <-> a < b.
Proof.
  unfold Py.Qltb. rewrite negb_true_iff. split.
  - intros H. apply Qnot_le_lt. intros L. apply Qle_bool_iff in L. congruence.
  - intros H. destruct (Qle_bool b a) eqn:E; [| reflexivity].
    apply Qle_bool_iff in E. exfalso. exact (Qlt_not_le _ _ H E).
Qed.

Lemma ext_not_lt_trans (a b c : Py.ext) :
  Py.ext_ltb b a = false -> Py.ext_ltb c b = false -> Py.ext_ltb c a = false.
Proof.
  destruct a as [x|], b as [y|], c as [z|]; simpl; try congruence.
  rewrite !Qltb_false_iff. intros; eapply Qle_trans; eassumption.
Qed.

Lemma ext_lt_asym (a b : Py.ext) :
  Py.ext_ltb a b = true -> Py.ext_ltb b a = false.
Proof.
  destruct a as [x|], b as [y|]; simpl; try congruence.
  rewrite Qltb_true_iff, Qltb_false_iff. apply Qlt_le_weak.
Qed.

Lemma StronglySorted_map {A B} (R : B -> B -> Prop) (f : A -> B) (l : list A) :
  StronglySorted (fun a b => R (f a) (f b)) l -> StronglySorted R (map f l).
Proof.
  induction 1 as [|x l Hs IH Hx]; simpl; constructor; [exact IH |].
  apply Forall_map. exact Hx.
Qed.

Lemma StronglySorted_impl_in {A} (R R' : A -> A -> Prop) (l : list A) :
  (forall a b, In a l -> In b l -> R a b -> R' a b) ->
  StronglySorted R l -> StronglySorted R' l.
Proof.
  intros Himp Hs. induction Hs as [|x l Hs IH Hx]; constructor.
  - apply IH. intros a b Ha Hb. apply Himp; right; assumption.
  - rewrite Forall_forall in *. intros y Hy.
    apply Himp; [left; reflexivity | right; exact Hy | apply Hx, Hy].
Qed.

Lemma filter_map_comm {A B} (p : B -> bool) (f : A -> B) (l : list A) :
  filter p (map f l) = map f (filter (fun a => p (f a)) l).
Proof.
  induction l as [|x l IH]; simpl; [reflexivity |].
  destruct (p (f x)); simpl; now rewrite IH.
Qed.

(** Between two keys that come from positive means, the order of the keys is
    the order of the means. *)
Lemma ext_le_mean_le (a b : option Q) :
  Spec.positive_mean a -> Spec.positive_mean b ->
  Spec.ext_le (Py.or_inf a) (Py.or_inf b) -> Spec.mean_le a b.
Proof.
  intros [x [-> Hx]] [y [-> Hy]]. unfold Spec.ext_le, Py.or_inf.
  destruct (Qeq_bool x 0) eqn:Ex; [apply Qeq_bool_iff in Ex; contradiction |].
  destruct (Qeq_bool y 0) eqn:Ey; [apply Qeq_bool_iff in Ey; contradiction |].
  simpl. rewrite Qltb_false_iff. intros L. exists x, y. auto.
Qed.

(** ** The speed ranking of either tester, from the list it sorts. *)

Section Ranking.
Context {R E Row : Type}.
Variables (key : R -> Py.ext) (make_entry : Z -> R -> E) (start : Z).
Variables (row : E -> Row) (row_of : R -> Row) (row_key : Row -> Py.ext).
Variables (mean_of : E -> option Q) (rank : E -> Z).

Hypothesis row_entry : forall i r, row (make_entry i r) = row_of r.
Hypothesis row_key_of : forall r, row_key (row_of r) = key r.
Hypothesis mean_key : forall e, Py.or_inf (mean_of e) = row_key (row e).
Hypothesis rank_entry : forall i r, rank (make_entry i r) = (i + (1 - start))%Z.

Let ranking (l : list R) : list E :=
  map (fun ir => make_entry (fst ir) (snd ir))
      (Py.enumerate start (Py.sorted Py.ext_ltb key l)).

Lemma ranking_rows (l : list R) :
  map row (ranking l) = map row_of (Py.sorted Py.ext_ltb key l).
Proof.
  unfold ranking. rewrite map_map.
  rewrite <- (enumerate_snd start (Py.sorted Py.ext_ltb key l)) at 2.
  rewrite map_map. apply map_ext. intros [i r]. apply row_entry.
Qed.

Lemma ranking_perm (l : list R) :
  Permutation (map row (ranking l)) (map row_of l).
Proof.
  rewrite ranking_rows. apply Permutation_map, sorted_perm.
Qed.

Lemma ranking_keys (l : list R) :
  map (fun e => Py.or_inf (mean_of e)) (ranking l) =
  map key (Py.sorted Py.ext_ltb key l).
Proof.
  transitivity (map row_key (map row (ranking l))).
  - rewrite map_map. apply map_ext. intros e. apply mean_key.
  - rewrite ranking_rows, map_map. apply map_ext. intros r. apply row_key_of.
Qed.

Lemma ranking_sorted (l : list R) :
  StronglySorted Spec.ext_le (map (fun e => Py.or_inf (mean_of e)) (ranking l)).
Proof.
  rewrite ranking_keys. apply StronglySorted_map.
  apply (sorted_sorted Py.ext_ltb key ext_not_lt_trans ext_lt_asym).
Qed.

Lemma ranking_stable (k : Py.ext) (l : list R) :
  filter (fun x => Spec.ties Py.ext_ltb k (row_key x)) (map row (ranking l)) =
  filter (fun x => Spec.ties Py.ext_ltb k (row_key x)) (map row_of l).
Proof.
  rewrite ranking_rows, !filter_map_comm. f_equal.
  rewrite (filter_ext _ (fun a => Spec.ties Py.ext_ltb k (key a)))
    by (intros a; now rewrite row_key_of).
  rewrite (filter_ext (fun a => Spec.ties Py.ext_ltb k (row_key (row_of a)))
             (fun a => Spec.ties Py.ext_ltb k (key a)))
    by (intros a; now rewrite row_key_of).
  apply (sorted_stable Py.ext_ltb key ext_not_lt_trans).
Qed.

Lemma ranking_ranks (l : list R) :
  map rank (ranking l) = Spec.ranks_upto (List.length l).
Proof.
  unfold ranking. rewrite map_map.
  transitivity (map (fun i => (i + (1 - start))%Z)
                  (map fst (Py.enumerate start (Py.sorted Py.ext_ltb key l)))).
  - rewrite map_map. apply map_ext. intros [i r]. apply rank_entry.
  - rewrite enumerate_fst, map_map.
    rewrite (Permutation_length (sorted_perm Py.ext_ltb key l)).
    rewrite <- ranks_upto_spec. apply map_ext. intros i. lia.
Qed.

Variable mean_r : R -> option Q.
Hypothesis key_mean : forall r, key r = Py.or_inf (mean_r r).
Hypothesis mean_entry : forall i r, mean_of (make_entry i r) = mean_r r.

Lemma ranking_means_sorted (l : list R) :
  Forall (fun r => Spec.positive_mean (mean_r r)) l ->
  StronglySorted Spec.mean_le (map mean_of (ranking l)).
Proof.
  intros Hpos.
  assert (Hmap : map mean_of (ranking l) = map mean_r (Py.sorted Py.ext_ltb key l)).
  { unfold ranking. rewrite map_map.
    rewrite <- (enumerate_snd start (Py.sorted Py.ext_ltb key l)) at 2.
    rewrite map_map. apply map_ext. intros [i r]. apply mean_entry. }
  rewrite Hmap. apply StronglySorted_map.
  eapply StronglySorted_impl_in;
    [| apply (sorted_sorted Py.ext_ltb key ext_not_lt_trans ext_lt_asym)].
  intros a b Ha Hb Hab. rewrite Forall_forall in Hpos.
  pose proof (sorted_perm Py.ext_ltb key l) as P.
  apply ext_le_mean_le.
  - apply Hpos. eapply Permutation_in; eassumption.
  - apply Hpos. eapply Permutation_in; eassumption.
  - unfold Spec.ext_le. rewrite <- !key_mean. exact Hab.
Qed.
End Ranking.

(* ================================================================== *)
(** * The summary's ranking by speed *)
(* ================================================================== *)

Lemma base_speed_ranking (results : list Base.ModelTestResult) :
  Base.ranking_by_speed (Base._create_summary results) =
  map (fun ir => Base.make_entry (fst ir) (snd ir))
      (Py.enumerate 1 (Py.sorted Py.ext_ltb Base.speed_key
                         (filter Base.is_success results))).
Proof.
  unfold Base._create_summary. simpl.
  destruct (filter Base.is_success results); reflexivity.
Qed.

Lemma reserv_speed_ranking (results : list Reserv.ModelTestResult) :
  Reserv.ranking_by_speed (Reserv._create_summary results) =
  map (fun ir => Reserv.make_entry (fst ir) (snd ir))
      (Py.enumerate 0 (Py.sorted Py.ext_ltb Reserv.speed_key
                         (filter Reserv.is_success results))).
Proof. reflexivity. Qed.

(** C6, as the code has it.  In both testers the ranking by speed holds
    exactly the results with status SUCCESS, each once; it is sorted
    non-decreasing by the sort key [avg_duration or float("inf")]; results
    whose keys tie keep the order of the input; the ranks are 1, 2, ..., n;
    and when every succeeded result has a mean duration that is present and
    not zero, the ranking is non-decreasing by mean duration itself. *)
Theorem ranking_by_speed_is_stable_sort_by_key :
  (forall results : list Base.ModelTestResult,
     let ranking := Base.ranking_by_speed (Base._create_summary results) in
     let succeeded := filter Base.is_success results in
     Permutation (map Spec.base_row ranking) (map Spec.base_row_of succeeded)
     /\ StronglySorted Spec.ext_le
          (map (fun e => Py.or_inf (Base.re_avg_duration e)) ranking)
     /\ (forall k,
           filter (fun x => Spec.ties Py.ext_ltb k (Spec.base_row_key x))
                  (map Spec.base_row ranking) =
           filter (fun x => Spec.ties Py.ext_ltb k (Spec.base_row_key x))
                  (map Spec.base_row_of succeeded))
     /\ map Base.rank ranking = Spec.ranks_upto (List.length succeeded)
     /\ (Forall (fun r => Spec.positive_mean (Base.avg_duration r)) succeeded ->
         StronglySorted Spec.mean_le (map Base.re_avg_duration ranking)))
  /\
  (forall results : list Reserv.ModelTestResult,
     let ranking := Reserv.ranking_by_speed (Reserv._create_summary results) in
     let succeeded := filter Reserv.is_success results in
     Permutation (map Spec.reserv_row ranking) (map Spec.reserv_row_of succeeded)
     /\ StronglySorted Spec.ext_le
          (map (fun e => Py.or_inf (Reserv.re_avg_duration e)) ranking)
     /\ (forall k,
           filter (fun x => Spec.ties Py.ext_ltb k (Spec.reserv_row_key x))
                  (map Spec.reserv_row ranking) =
           filter (fun x => Spec.ties Py.ext_ltb k (Spec.reserv_row_key x))
                  (map Spec.reserv_row_of succeeded))
     /\ map Reserv.rank ranking = Spec.ranks_upto (List.length succeeded)
     /\ (Forall (fun r => Spec.positive_mean (Reserv.avg_duration r)) succeeded ->
         StronglySorted Spec.mean_le (map Reserv.re_avg_duration ranking))).
Proof.
  split; intros results ranking succeeded; subst ranking succeeded.
  - rewrite base_speed_ranking.
    set (succeeded := filter Base.is_success results).
    repeat split.
    + apply (ranking_perm Base.speed_key Base.make_entry 1
               Spec.base_row Spec.base_row_of); reflexivity.
    + apply (ranking_sorted Base.speed_key Base.make_entry 1
               Spec.base_row Spec.base_row_of Spec.base_row_key); reflexivity.
    + intros k.
      apply (ranking_stable Base.speed_key Base.make_entry 1
               Spec.base_row Spec.base_row_of Spec.base_row_key); reflexivity.
    + apply (ranking_ranks Base.speed_key Base.make_entry 1).
      intros i r. simpl. lia.
    + apply (ranking_means_sorted Base.speed_key Base.make_entry 1
               Base.re_avg_duration Base.avg_duration); reflexivity.
  - rewrite reserv_speed_ranking.
    set (succeeded := filter Reserv.is_success results).
    repeat split.
    + apply (ranking_perm Reserv.speed_key Reserv.make_entry 0
               Spec.reserv_row Spec.reserv_row_of); reflexivity.
    + apply (ranking_sorted Reserv.speed_key Reserv.make_entry 0
               Spec.reserv_row Spec.reserv_row_of Spec.reserv_row_key); reflexivity.
    + intros k.
      apply (ranking_stable Reserv.speed_key Reserv.make_entry 0
               Spec.reserv_row Spec.reserv_row_of Spec.reserv_row_key); reflexivity.
    + apply (ranking_ranks Reserv.speed_key Reserv.make_entry 0).
      intros i r. simpl. lia.
    + apply (ranking_means_sorted Reserv.speed_key Reserv.make_entry 0
               Reserv.re_avg_duration Reserv.avg_duration); reflexivity.
Qed.

(** C6, as the claim states it, fails on a mean duration of zero: [0.0 or
    float("inf")] is [inf], so the succeeded model with mean 0 is ranked
    after the one with mean 1. *)
Lemma zero_mean_is_ranked_last :
  map (fun e => (Base.rank e, Base.re_model e, Base.re_avg_duration e))
      (Base.ranking_by_speed (Base._create_summary Scenario.slow_then_instant))
  = [(1%Z, "slow"%string, Some 1); (2%Z, "instant"%string, Some 0)].
Proof. reflexivity. Qed.


(* ================================================================== *)
(** * Facts about computations in [M] *)
(* ================================================================== *)

Section MonadFacts.
Import World.

Lemma bind_inv {A B} (m : M A) (k : A -> M B) (w w' : world) (r : outcome B) :
  bind m k w = (r, w') ->
  (exists a w1, m w = (Ok a, w1) /\ k a w1 = (r, w'))
  \/ (exists e, m w = (Raise e, w') /\ r = Raise e).
Proof.
  unfold bind. destruct (m w) as [[a|e] w1].
  - intros H. left. eauto.
  - intros H. injection H as <- <-. right. eauto.
Qed.

Lemma bind_ok_inv {A B} (m : M A) (k : A -> M B) (w w' : world) (b : B) :
  bind m k w = (Ok b, w') ->
  exists a w1, m w = (Ok a, w1) /\ k a w1 = (Ok b, w').
Proof.
  intros H. apply bind_inv in H. destruct H as [H | [e [_ H]]];
    [exact H | discriminate].
Qed.

Lemma bind_ok {A B} (m : M A) (k : A -> M B) (w w1 : world) (a : A) :
  m w = (Ok a, w1) -> bind m k w = k a w1.
Proof. unfold bind. now intros ->. Qed.

Lemma bind_raise {A B} (m : M A) (k : A -> M B) (w w1 : world) (e : exn) :
  m w = (Raise e, w1) -> bind m k w = (Raise e, w1).
Proof. unfold bind. now intros ->. Qed.

Lemma fst_ok {A} (m : M A) (w : world) (a : A) :
  fst (m w) = Ok a -> exists w', m w = (Ok a, w').
Proof. destruct (m w) as [o w']. simpl. intros ->. eauto. Qed.

Lemma for_each_invariant {A S} (P : S -> Prop) (body : S -> A -> M S) :
  (forall s x w s' w', P s -> body s x w = (Ok s', w') -> P s') ->
  forall l s w s' w', P s -> for_each l body s w = (Ok s', w') -> P s'.
Proof.
  intros Hbody. induction l as [|x l IH]; intros s w s' w' Hs; simpl.
  - unfold ret. intros H. injection H as <- _. exact Hs.
  - intros H. apply bind_ok_inv in H. destruct H as [s1 [w1 [E H]]].
    eapply IH; [| exact H]. eapply Hbody; eassumption.
Qed.

Lemma for_each_length {A B} (body : list B -> A -> M (list B)) :
  (forall s x w s' w', body s x w = (Ok s', w') ->
                       List.length s' = S (List.length s)) ->
  forall l s w s' w',
    for_each l body s w = (Ok s', w') ->
    List.length s' = (List.length s + List.length l)%nat.
Proof.
  intros Hbody. induction l as [|x l IH]; intros s w s' w'; simpl.
  - unfold ret. intros H. injection H as <- _. lia.
  - intros H. apply bind_ok_inv in H. destruct H as [s1 [w1 [E H]]].
    apply IH in H. apply Hbody in E. lia.
Qed.

(** What a loop raises, its body raised. *)
Lemma for_each_raises {A S} (P : exn -> Prop) (body : S -> A -> M S) :
  (forall s x w e w', body s x w = (Raise e, w') -> P e) ->
  forall l s w e w', for_each l body s w = (Raise e, w') -> P e.
Proof.
  intros Hbody. induction l as [|x l IH]; intros s w e w'; simpl.
  - discriminate.
  - intros H. apply bind_inv in H.
    destruct H as [[s1 [w1 [_ H]]] | [e0 [H E]]].
    + eapply IH. exact H.
    + injection E as ->. eapply Hbody. exact H.
Qed.


Lemma sleep_nonneg (s : Q) (w : world) :
  0 <= s -> sleep s w = (Ok tt, advance s (Sleep s) 0 w).
Proof.
  intros H. unfold sleep, Py.Qltb.
  replace (Qle_bool 0 s) with true; [reflexivity |].
  symmetry. apply Qle_bool_iff. exact H.
Qed.

Lemma async_sleep_positive (s : Q) (w : world) :
  0 < s -> async_sleep s w = (Ok tt, advance s (Sleep s) 0 w).
Proof.
  intros H. unfold async_sleep, Py.Qltb.
  replace (Qle_bool s 0) with false; [reflexivity |].
  symmetry. apply not_true_is_false. rewrite Qle_bool_iff.
  apply Qlt_not_le. exact H.
Qed.

Lemma power_of_two_positive (a : Z) : (0 <= a)%Z -> 0 < inject_Z (2 ^ a).
Proof.
  intros H. change 0 with (inject_Z 0). rewrite <- Zlt_Qlt.
  apply Z.pow_pos_nonneg; lia.
Qed.

Lemma filter_split_length {A} (f : A -> bool) (l : list A) :
  (List.length (filter f l) + List.length (filter (fun x => negb (f x)) l))%nat
  = List.length l.
Proof.
  induction l as [|x l IH]; simpl; [reflexivity |].
  destruct (f x); simpl; lia.
Qed.

(** ** The loop of [run_tests] *)

Section FilingFacts.
Context {R : Type} (runner : string -> M R) (error_result : string -> exn -> R).

(** The loop never raises and files, from the world it starts in, what
    [filed_in_order] says. *)
Lemma filing_loop (models : list string) :
  forall acc w,
    exists rs w',
      for_each models
        (fun results model =>
           try_except
             (bind (runner model) (fun result => ret (results ++ [result])))
             (fun e => Some (ret (results ++ [error_result model e]))))
        acc w = (Ok (acc ++ rs), w')
      /\ Spec.filed_in_order runner error_result models w rs w'.
Proof.
  induction models as [|model rest IH]; intros acc w; cbn [for_each].
  - exists [], w. rewrite app_nil_r. split; [reflexivity | constructor].
  - destruct (runner model w) as [[r|e] w1] eqn:E.
    + destruct (IH (acc ++ [r]) w1) as [rs [w' [L F]]].
      exists (r :: rs), w'. split.
      * erewrite (bind_ok _ _ _ _ (acc ++ [r])).
        -- rewrite L, <- app_assoc. reflexivity.
        -- unfold try_except, bind. rewrite E. reflexivity.
      * eapply Spec.filed_result; eassumption.
    + destruct (IH (acc ++ [error_result model e]) w1) as [rs [w' [L F]]].
      exists (error_result model e :: rs), w'. split.
      * erewrite (bind_ok _ _ _ _ (acc ++ [error_result model e])).
        -- rewrite L, <- app_assoc. reflexivity.
        -- unfold try_except, bind. rewrite E. reflexivity.
      * eapply Spec.filed_error; eassumption.
Qed.

Lemma filed_length models w rs w' :
  Spec.filed_in_order runner error_result models w rs w' ->
  List.length rs = List.length models.
Proof. induction 1; simpl; congruence. Qed.

(** What holds of every result of the runner and of every result filed for
    an exception holds of every result filed. *)
Lemma filed_Forall (P : R -> Prop) models w rs w' :
  Spec.filed_in_order runner error_result models w rs w' ->
  (forall m w r, fst (runner m w) = Ok r -> P r) ->
  (forall m e, P (error_result m e)) ->
  Forall P rs.
Proof.
  intros F Hr He. induction F as [w | m rest w w1 w' r rs E F IH
                                   | m rest w w1 w' e rs E F IH];
    constructor; try exact IH.
  - apply (Hr m w). rewrite E. reflexivity.
  - apply He.
Qed.

Lemma filed_names (name : R -> string) models w rs w' :
  Spec.filed_in_order runner error_result models w rs w' ->
  (forall m w r, fst (runner m w) = Ok r -> name r = m) ->
  (forall m e, name (error_result m e) = m) ->
  map name rs = models.
Proof.
  intros F Hr He. induction F as [w | m rest w w1 w' r rs E F IH
                                   | m rest w w1 w' e rs E F IH];
    simpl; [reflexivity | |]; f_equal; try exact IH.
  - apply (Hr m w). rewrite E. reflexivity.
  - apply He.
Qed.

End FilingFacts.

End MonadFacts.

Arguments bind_ok {A B m k w w1 a} _.
Arguments bind_raise {A B m k w w1 e} _.

(* ================================================================== *)
(** * The retrying client of the synchronous tester *)
(* ================================================================== *)

Section BaseCall.
Import World.

Lemma wait_exponential_bounds (attempt_number : Z) :
  2 <= Base.wait_exponential attempt_number
  /\ Base.wait_exponential attempt_number <= 10.
Proof.
  unfold Base.wait_exponential. split.
  - apply Q.le_max_l.
  - apply Q.max_lub; [discriminate | apply Q.le_min_r].
Qed.

Lemma wait_then (attempt_number : Z) (w : world) :
  sleep (Base.wait_exponential attempt_number) w
  = (Ok tt, advance (Base.wait_exponential attempt_number)
              (Sleep (Base.wait_exponential attempt_number)) 0 w).
Proof.
  apply sleep_nonneg.
  eapply Qle_trans; [| apply wait_exponential_bounds]. discriminate.
Qed.

Lemma is_a_class (c : exn_class) (e : exn) : is_a c e = true <-> class_of e = c.
Proof.
  unfold is_a. destruct (class_of e), c; simpl; split; congruence.
Qed.

(** One attempt: one request; an answer comes back only with a status
    outside 400..599; what is raised is the [HTTPError] of
    [raise_for_status] or the exception of the HTTP library. *)
Lemma do_request_spec method url payload (w : world) :
  net (snd (Base._do_request method url payload w)) = net w
  /\ sent (snd (Base._do_request method url payload w)) = S (sent w)
  /\ log (snd (Base._do_request method url payload w))
     = log w ++ [Request method url payload]
  /\ future_repr (snd (Base._do_request method url payload w)) = future_repr w
  /\ match fst (Base._do_request method url payload w) with
     | Ok r => snd (net w (sent w)) = Answers r
               /\ Spec.error_status (status_code r) = false
     | Raise e => Base.retryable e = true \/ snd (net w (sent w)) = Fails e
     end.
Proof.
  unfold Base._do_request, bind, send.
  destruct (net w (sent w)) as [latency [r|e]]; cbn [fst snd].
  - unfold Base.raise_for_status. fold (Spec.error_status (status_code r)).
    destruct (Spec.error_status (status_code r)) eqn:S;
      cbn [fst snd raise ret net sent log advance future_repr Nat.add];
      repeat split.
    + left. reflexivity.
    + exact S.
  - cbn [fst snd net sent log advance future_repr Nat.add]. repeat split.
    right. reflexivity.
Qed.

Lemma retrying_spec method url payload (more : nat) :
  forall attempt_number w,
    let call := Base._do_request method url payload in
    let out := fst (Base.retrying more attempt_number call w) in
    let w' := snd (Base.retrying more attempt_number call w) in
    net w' = net w
    /\ (sent w < sent w')%nat
    /\ (sent w' - sent w <= S more)%nat
    /\ (exists evs, log w' = log w ++ evs
                    /\ Forall (Spec.client_event method url payload) evs)
    /\ match out with
       | Ok r => snd (net w (pred (sent w'))) = Answers r
                 /\ Spec.error_status (status_code r) = false
       | Raise e => (class_of e = RetryError
                     /\ (sent w' - sent w = S more)%nat)
                    \/ (Base.retryable e = false
                        /\ snd (net w (pred (sent w'))) = Fails e)
       end.
Proof.
  induction more as [|more IH]; intros attempt_number w; cbv zeta;
    cbn [Base.retrying]; unfold try_except;
    destruct (do_request_spec method url payload w) as [N [S [L [_ O]]]];
    destruct (Base._do_request method url payload w) as [[r|e] w1];
    cbn [fst snd] in N, S, L, O |- *.
  - rewrite N, S, L. cbn [pred]. repeat split; try lia; try tauto.
    exists [Request method url payload]. split; [reflexivity |].
    repeat constructor.
  - destruct (Base.retryable e) eqn:R; cbn [fst snd raise].
    + rewrite N, S, L. repeat split; try lia.
      * exists [Request method url payload]. split; [reflexivity |].
        repeat constructor.
      * left. split; [reflexivity | lia].
    + rewrite N, S, L. repeat split; try lia.
      * exists [Request method url payload]. split; [reflexivity |].
        repeat constructor.
      * right. split; [exact R |]. cbn [pred].
        destruct O as [O | O]; [congruence | exact O].
  - rewrite N, S, L. cbn [pred]. repeat split; try lia; try tauto.
    exists [Request method url payload]. split; [reflexivity |].
    repeat constructor.
  - destruct (Base.retryable e) eqn:R; cbn [fst snd].
    + unfold bind. rewrite wait_then.
      match goal with
      | |- context [Base.retrying more ?n _ ?w2] =>
          specialize (IH n w2); cbv zeta in IH;
          destruct (Base.retrying more n (Base._do_request method url payload) w2)
            as [o w']
      end.
      cbn [fst snd net sent log advance Nat.add] in IH |- *.
      destruct IH as [N' [S' [B' [[evs [L' F']] O']]]].
      rewrite N', N. split; [reflexivity |].
      split; [lia |]. split; [lia |]. split.
      * exists (Request method url payload
                :: Sleep (Base.wait_exponential attempt_number) :: evs).
        rewrite L', L, <- !app_assoc. split; [reflexivity |].
        constructor; [repeat split |].
        constructor; [apply wait_exponential_bounds | exact F'].
      * destruct o as [r|e'].
        -- rewrite N in O'. exact O'.
        -- rewrite N in O'. destruct O' as [[C O'] | O'];
             [left; split; [exact C | lia] | right; exact O'].
    + cbn [fst snd]. rewrite N, S, L. repeat split; try lia.
      * exists [Request method url payload]. split; [reflexivity |].
        repeat constructor.
      * right. split; [exact R |]. cbn [pred].
        destruct O as [O | O]; [congruence | exact O].
Qed.

(** A call of [_make_request]: its budget, what it leaves in the log, and
    its outcome.  What it raises is the [OllamaConnectionError] made of a
    [RetryError], or an exception of the HTTP library that is not retried. *)
Lemma make_request_spec cfg method endpoint payload (w : world) :
  let out := fst (Base._make_request cfg method endpoint payload w) in
  let w' := snd (Base._make_request cfg method endpoint payload w) in
  net w' = net w
  /\ (sent w < sent w')%nat
  /\ (sent w' - sent w <= Spec.attempts_allowed cfg)%nat
  /\ (exists evs,
        log w' = log w ++ evs
        /\ Forall (Spec.client_event method (Base.base_url cfg ++ endpoint) payload)
             evs)
  /\ match out with
     | Ok r => snd (net w (pred (sent w'))) = Answers r
               /\ Spec.error_status (status_code r) = false
     | Raise e => Base.retryable e = false
                  /\ (class_of e = OllamaConnectionError
                      \/ Spec.raised_by_service w (sent w) (sent w') e)
     end.
Proof.
  cbv zeta. unfold Base._make_request, try_except.
  pose proof (retrying_spec method (Base.base_url cfg ++ endpoint) payload
                (Z.to_nat (Base.max_retries cfg - 1)) 1 w) as H.
  cbv zeta in H.
  destruct (Base.retrying _ _ _ w) as [[r|e] w1]; cbn [fst snd] in H |- *.
  - exact H.
  - destruct H as [N [S1 [B [L O]]]].
    destruct (is_a RetryError e) eqn:I; cbn [fst snd raise].
    + repeat split; try assumption. left. reflexivity.
    + repeat split; try assumption.
      * destruct O as [[O _] | [O _]]; [| exact O].
        apply is_a_class in O. congruence.
      * right. destruct O as [[O _] | [_ O]].
        -- apply is_a_class in O. congruence.
        -- exists (pred (sent w1)). split; [lia | exact O].
Qed.

(** With the service down for good the call uses every attempt it is
    allowed and ends in an [OllamaConnectionError]. *)
Lemma make_request_gives_up cfg method endpoint payload (w : world) :
  Spec.always_fails w ->
  sent (snd (Base._make_request cfg method endpoint payload w))
  = (sent w + Spec.attempts_allowed cfg)%nat
  /\ exists e, fst (Base._make_request cfg method endpoint payload w) = Raise e
               /\ class_of e = OllamaConnectionError.
Proof.
  intros AF. unfold Base._make_request, try_except.
  pose proof (retrying_spec method (Base.base_url cfg ++ endpoint) payload
                (Z.to_nat (Base.max_retries cfg - 1)) 1 w) as H.
  cbv zeta in H.
  destruct (Base.retrying _ _ _ w) as [[r|e] w1]; cbn [fst snd] in H |- *;
    destruct H as [N [S1 [B [L O]]]].
  - exfalso. destruct O as [O _].
    destruct (AF (pred (sent w1))) as [e [E _]]. congruence.
  - destruct O as [[C S'] | [R O]].
    + apply is_a_class in C. rewrite C. cbn [fst snd raise].
      split; [unfold Spec.attempts_allowed; lia |].
      eexists. split; reflexivity.
    + exfalso. destruct (AF (pred (sent w1))) as [e0 [E R0]].
      rewrite E in O. injection O as ->. congruence.
Qed.

(** When the HTTP library fails with its own exceptions only, the call
    raises nothing but [OllamaConnectionError]. *)
Lemma make_request_raises cfg method endpoint payload (w : world) (e : exn) :
  Spec.requests_only w ->
  fst (Base._make_request cfg method endpoint payload w) = Raise e ->
  class_of e = OllamaConnectionError.
Proof.
  intros RO H.
  destruct (make_request_spec cfg method endpoint payload w) as [_ [_ [_ [_ O]]]].
  rewrite H in O. destruct O as [R [C | [n [_ F]]]]; [exact C |].
  specialize (RO n). rewrite F in RO. congruence.
Qed.

End BaseCall.

(** X3.  Synchronous client.  A call of [_make_request] sends at least one
    request and at most [max(1, max_retries)]; everything it does is send
    that one request again and sleep, each sleep lasting between two and ten
    seconds; and with the service down for good it uses all the attempts it
    is allowed. *)
Theorem sync_call_stays_in_its_budget :
  forall cfg method endpoint payload w,
    let w' := snd (Base._make_request cfg method endpoint payload w) in
    (1 <= World.sent w' - World.sent w)%nat
    /\ (World.sent w' - World.sent w <= Spec.attempts_allowed cfg)%nat
    /\ (exists evs,
          World.log w' = World.log w ++ evs
          /\ Forall (Spec.client_event method (Base.base_url cfg ++ endpoint)
                       payload) evs)
    /\ (Spec.always_fails w ->
        World.sent w' = (World.sent w + Spec.attempts_allowed cfg)%nat).
Proof.
  intros cfg method endpoint payload w. cbv zeta.
  destruct (make_request_spec cfg method endpoint payload w)
    as [_ [S1 [B [L _]]]].
  split; [lia |]. split; [exact B |]. split; [exact L |].
  intros AF. apply make_request_gives_up. exact AF.
Qed.

(** X4.  Synchronous client.  What [_make_request] returns is the answer to
    the last request it sent, and its status is outside 400..599; what it
    raises is never a [requests.RequestException] nor a [TimeoutError]:
    those are retried and end as an [OllamaConnectionError]. *)
Theorem sync_call_outcome :
  forall cfg method endpoint payload w,
    let w' := snd (Base._make_request cfg method endpoint payload w) in
    match fst (Base._make_request cfg method endpoint payload w) with
    | World.Ok r =>
        snd (World.net w (pred (World.sent w'))) = World.Answers r
        /\ Spec.error_status (World.status_code r) = false
    | World.Raise e =>
        World.is_a World.RequestException e = false
        /\ World.is_a World.BuiltinTimeoutError e = false
    end.
Proof.
  intros cfg method endpoint payload w. cbv zeta.
  destruct (make_request_spec cfg method endpoint payload w)
    as [_ [_ [_ [_ O]]]].
  destruct (fst (Base._make_request cfg method endpoint payload w)) as [r|e].
  - exact O.
  - destruct O as [O _]. unfold Base.retryable in O.
    apply orb_false_iff in O. exact O.
Qed.

(** X5.  Synchronous client.  [health_check] returns [True] only for an
    answer with status 200 and [False] only for an answer with another
    status outside 400..599; a refused connection, a timeout or an error
    status on every attempt makes it raise, and never a
    [requests.RequestException]: its [except] clause does not catch what the
    request raises. *)
Theorem sync_health_check_outcome :
  forall cfg w,
    let w' := snd (Base.health_check cfg w) in
    match fst (Base.health_check cfg w) with
    | World.Ok healthy =>
        exists r,
          snd (World.net w (pred (World.sent w'))) = World.Answers r
          /\ Spec.error_status (World.status_code r) = false
          /\ healthy = (World.status_code r =? 200)%Z
    | World.Raise e =>
        World.is_a World.RequestException e = false
        /\ fst (Base._make_request cfg "GET" "/api/tags" [] w) = World.Raise e
    end.
Proof.
  intros cfg w. cbv zeta. unfold Base.health_check, World.try_except, World.bind.
  destruct (make_request_spec cfg "GET" "/api/tags" [] w) as [_ [_ [_ [_ O]]]].
  destruct (Base._make_request cfg "GET" "/api/tags" [] w) as [[r|e] w1];
    cbn [fst snd] in O |- *.
  - exists r. destruct O as [A B]. repeat split; assumption.
  - destruct O as [O _]. unfold Base.retryable in O.
    apply orb_false_iff in O. destruct O as [O _].
    rewrite O. cbn [fst snd]. split; [exact O | reflexivity].
Qed.

(* ================================================================== *)
(** * The orchestrator *)
(* ================================================================== *)

Section Orchestrator.
Import World.

Lemma docker_check_frame (cfg : Reserv.TestConfig) (w : world) :
  snd (Reserv.docker_check cfg w) = w.
Proof.
  unfold Reserv.docker_check, Reserv.get_docker_status, bind.
  destruct (Reserv.check_docker cfg); [| reflexivity].
  simpl. destruct (docker_installed w); simpl; [| reflexivity].
  destruct (container_running w); reflexivity.
Qed.

Lemma base_run_when_healthy (runner : string -> M Base.ModelTestResult)
  (cfg : Base.TestConfig) (models : option (list string)) (w : world) :
  fst (Base.health_check cfg w) = Ok true ->
  exists report w',
    Base.run_tests_with runner cfg models w = (Ok report, w')
    /\ Spec.filed_in_order runner (Base.error_result cfg)
         (Spec.base_models cfg models) (snd (Base.health_check cfg w))
         (Base.results report) w'.
Proof.
  intros H. unfold Base.run_tests_with.
  destruct (Base.health_check cfg w) as [o w1] eqn:E. simpl in H. subst o.
  rewrite (bind_ok E). cbn [negb snd].
  destruct (filing_loop runner (Base.error_result cfg)
              (Spec.base_models cfg models) [] w1) as [rs [w2 [L F]]].
  simpl app in L. fold (Spec.base_models cfg models).
  rewrite (bind_ok L).
  eexists. eexists. split; [reflexivity | exact F].
Qed.

Lemma reserv_run_when_healthy (runner : string -> M Reserv.ModelTestResult)
  (cfg : Reserv.TestConfig) (w : world) (ds : option Reserv.DockerStatus) :
  fst (Reserv.docker_check cfg w) = Ok ds ->
  fst (Reserv.health_check cfg w) = Ok true ->
  exists report w',
    Reserv.run_tests_with runner cfg w = (Ok report, w')
    /\ Spec.filed_in_order runner (Reserv.error_result cfg)
         (Spec.reserv_models cfg) (snd (Reserv.health_check cfg w))
         (Reserv.results report) w'.
Proof.
  intros D H. unfold Reserv.run_tests_with.
  unfold bind at 1. unfold perf_counter at 1.
  pose proof (docker_check_frame cfg w) as Fr.
  destruct (Reserv.docker_check cfg w) as [o w0] eqn:ED. simpl in D, Fr. subst o w0.
  rewrite (bind_ok ED).
  destruct (Reserv.health_check cfg w) as [o w1] eqn:E. simpl in H. subst o.
  rewrite (bind_ok E). cbn [negb snd].
  destruct (filing_loop runner (Reserv.error_result cfg)
              (Spec.reserv_models cfg) [] w1) as [rs [w2 [L F]]].
  simpl app in L. fold (Spec.reserv_models cfg).
  rewrite (bind_ok L).
  eexists. eexists. split; [reflexivity | exact F].
Qed.

(** The results of a report are the results filed by the loop. *)
Lemma base_run_results (runner : string -> M Base.ModelTestResult) cfg models
  (w : world) report :
  fst (Base.run_tests_with runner cfg models w) = Ok report ->
  exists w',
    Spec.filed_in_order runner (Base.error_result cfg)
      (Spec.base_models cfg models) (snd (Base.health_check cfg w))
      (Base.results report) w'.
Proof.
  intros H. destruct (Base.health_check cfg w) as [[[|]|e] w1] eqn:E.
  - destruct (base_run_when_healthy runner cfg models w) as [rp [w' [R F]]];
      [rewrite E; reflexivity |].
    rewrite R in H. simpl in H. injection H as <-. rewrite E in F.
    exists w'. exact F.
  - unfold Base.run_tests_with in H. rewrite (bind_ok E) in H. discriminate.
  - unfold Base.run_tests_with in H. rewrite (bind_raise E) in H. discriminate.
Qed.

Lemma reserv_run_results (runner : string -> M Reserv.ModelTestResult) cfg
  (w : world) report :
  fst (Reserv.run_tests_with runner cfg w) = Ok report ->
  exists w',
    Spec.filed_in_order runner (Reserv.error_result cfg)
      (Spec.reserv_models cfg) (snd (Reserv.health_check cfg w))
      (Reserv.results report) w'.
Proof.
  intros H. pose proof (docker_check_frame cfg w) as Fr.
  destruct (Reserv.docker_check cfg w) as [[ds|e] w0] eqn:D; simpl in Fr; subst w0.
  - destruct (Reserv.health_check cfg w) as [[[|]|e] w1] eqn:E.
    + destruct (reserv_run_when_healthy runner cfg w ds) as [rp [w' [R F]]];
        [rewrite D; reflexivity | rewrite E; reflexivity |].
      rewrite R in H. simpl in H. injection H as <-. rewrite E in F.
      exists w'. exact F.
    + unfold Reserv.run_tests_with in H. unfold bind at 1 in H.
      unfold perf_counter at 1 in H.
      rewrite (bind_ok D), (bind_ok E) in H. discriminate.
    + unfold Reserv.run_tests_with in H. unfold bind at 1 in H.
      unfold perf_counter at 1 in H.
      rewrite (bind_ok D), (bind_raise E) in H. discriminate.
  - unfold Reserv.run_tests_with in H. unfold bind at 1 in H.
    unfold perf_counter at 1 in H.
    rewrite (bind_raise D) in H. discriminate.
Qed.

(** The liveness check of the synchronous tester is one call of
    [_make_request]: what the call raises passes the [except] clause. *)
Lemma base_health_check_spec cfg (w : world) :
  snd (Base.health_check cfg w)
  = snd (Base._make_request cfg "GET" "/api/tags" [] w)
  /\ match fst (Base.health_check cfg w) with
     | Ok _ => True
     | Raise e => fst (Base._make_request cfg "GET" "/api/tags" [] w) = Raise e
     end.
Proof.
  unfold Base.health_check, try_except, bind.
  destruct (make_request_spec cfg "GET" "/api/tags" [] w) as [_ [_ [_ [_ O]]]].
  destruct (Base._make_request cfg "GET" "/api/tags" [] w) as [[r|e] w1];
    cbn [fst snd] in O |- *.
  - split; [reflexivity | exact I].
  - destruct O as [O _]. unfold Base.retryable in O.
    apply orb_false_iff in O. destruct O as [O _]. rewrite O.
    split; reflexivity.
Qed.

(** The liveness check of the asynchronous tester is one request; the
    exceptions of the HTTP library that are not [httpx.HTTPError]s pass. *)
Lemma reserv_health_check_spec cfg (w : world) :
  log (snd (Reserv.health_check cfg w))
  = log w ++ [Request "GET" (Reserv.base_url cfg ++ "/api/tags") []]
  /\ match fst (Reserv.health_check cfg w) with
     | Ok _ => True
     | Raise e => Reserv.is_httpx_error e = false
                  /\ snd (net w (sent w)) = Fails e
     end.
Proof.
  unfold Reserv.health_check, try_except, bind, send.
  destruct (net w (sent w)) as [latency [r|e]]; cbn [fst snd].
  - split; [reflexivity | exact I].
  - destruct (Reserv.is_httpx_error e) eqn:X; cbn [fst snd ret];
      split; try reflexivity; try exact I. split; [exact X | reflexivity].
Qed.

End Orchestrator.

(* ================================================================== *)
(** * The pre-flight liveness check *)
(* ================================================================== *)

(** C2, as the code has it.  When the liveness check does not report the
    service as healthy, [run_tests] raises and leaves the world as the check
    left it, whatever the runner is: no model is tested and no report, hence
    no Model Result, is produced; all that was sent are the requests of the
    check.  When the check returns false, the synchronous tester raises the
    [OllamaConnectionError] "Ollama is not available at <url>" and the
    asynchronous tester the [RuntimeError] "Cannot connect to Ollama at
    <url>".  When the check itself raises, [run_tests] raises the same
    exception: in the synchronous tester an [OllamaConnectionError] (the
    retries are exhausted) or an exception of the HTTP library that is
    neither a [RequestException] nor a [TimeoutError], so always an
    [OllamaConnectionError] when the library fails with its own exceptions
    only; in the asynchronous tester an exception of the HTTP library that
    is not an [httpx.HTTPError]. *)
Theorem failed_liveness_check_stops_the_run :
  (forall (runner : string -> World.M Base.ModelTestResult) cfg models w,
     let check := Base.health_check cfg w in
     fst check <> World.Ok true ->
     exists e,
       Base.run_tests_with runner cfg models w = (World.Raise e, snd check)
       /\ (exists evs,
             World.log (snd check) = World.log w ++ evs
             /\ Forall (Spec.client_event "GET" (Base.base_url cfg ++ "/api/tags") [])
                  evs)
       /\ match fst check with
          | World.Ok _ =>
              e = World.mkExn World.OllamaConnectionError
                    ("Ollama is not available at " ++ Base.ollama_url cfg)
          | World.Raise e' =>
              e = e'
              /\ Base.retryable e = false
              /\ (World.class_of e = World.OllamaConnectionError
                  \/ Spec.raised_by_service w (World.sent w)
                       (World.sent (snd check)) e)
          end
       /\ (Spec.requests_only w ->
           World.class_of e = World.OllamaConnectionError))
  /\
  (forall (runner : string -> World.M Reserv.ModelTestResult) cfg w ds,
     let check := Reserv.health_check cfg w in
     fst (Reserv.docker_check cfg w) = World.Ok ds ->
     fst check <> World.Ok true ->
     exists e,
       Reserv.run_tests_with runner cfg w = (World.Raise e, snd check)
       /\ World.log (snd check)
          = World.log w
            ++ [World.Request "GET" (Reserv.base_url cfg ++ "/api/tags") []]
       /\ match fst check with
          | World.Ok _ =>
              e = World.mkExn World.RuntimeError
                    ("Cannot connect to Ollama at " ++ Reserv.ollama_url cfg)
          | World.Raise e' =>
              e = e'
              /\ Reserv.is_httpx_error e = false
              /\ snd (World.net w (World.sent w)) = World.Fails e
          end).
Proof.
  split.
  - intros runner cfg models w check H. subst check.
    unfold Base.run_tests_with.
    destruct (base_health_check_spec cfg w) as [W R].
    destruct (make_request_spec cfg "GET" "/api/tags" [] w) as [_ [_ [_ [L O]]]].
    rewrite <- W in L, O.
    destruct (Base.health_check cfg w) as [[[|]|e] w1] eqn:E;
      cbn [fst snd] in H, R, L, O |- *.
    + congruence.
    + rewrite (bind_ok E). cbn [negb]. eexists.
      split; [reflexivity |]. split; [exact L |]. split; [reflexivity |].
      intros _. reflexivity.
    + rewrite (bind_raise E). exists e. rewrite R in O.
      destruct O as [Rt O].
      split; [reflexivity |]. split; [exact L |].
      split; [split; [reflexivity | split; [exact Rt | exact O]] |].
      intros RO. destruct O as [C | [n [_ F]]]; [exact C |].
      specialize (RO n). rewrite F in RO. congruence.
  - intros runner cfg w ds check D H. subst check.
    unfold Reserv.run_tests_with.
    unfold World.bind at 1. unfold World.perf_counter at 1.
    pose proof (docker_check_frame cfg w) as Fr.
    destruct (Reserv.docker_check cfg w) as [o w0] eqn:ED.
    simpl in D, Fr. subst o w0. rewrite (bind_ok ED).
    destruct (reserv_health_check_spec cfg w) as [L R].
    destruct (Reserv.health_check cfg w) as [[[|]|e] w1] eqn:E;
      cbn [fst snd] in H, L, R |- *.
    + congruence.
    + rewrite (bind_ok E). cbn [negb]. eexists.
      split; [reflexivity |]. split; [exact L | reflexivity].
    + rewrite (bind_raise E). exists e.
      split; [reflexivity |]. split; [exact L |].
      split; [reflexivity | exact R].
Qed.

Lemma failed_liveness_check_stops_the_run_witness :
  exists e,
    Base.run_tests_with
      (fun model => Base.test_model Scenario.stdev_stand_in Base.default_config model None)
      Base.default_config Scenario.two_models Scenario.down
    = (World.Raise e, snd (Base.health_check Base.default_config Scenario.down))
    /\ World.class_of e = World.OllamaConnectionError.
Proof.
  destruct (proj1 failed_liveness_check_stops_the_run
              (fun model => Base.test_model Scenario.stdev_stand_in
                              Base.default_config model None)
              Base.default_config Scenario.two_models Scenario.down)
    as [e [E [_ [_ C]]]].
  - vm_compute. discriminate.
  - exists e. split; [exact E |]. apply C. intros n. reflexivity.
Defined.

(** C2, as the claim states it, fails on the asynchronous tester: with the
    service down its liveness check returns false and [run_tests] raises a
    [RuntimeError], which is not a connection error. *)
Lemma async_liveness_failure_is_a_runtime_error :
  fst (Reserv.health_check Reserv.default_config Scenario.httpx_down)
    = World.Ok false
  /\ fst (Reserv.run_tests Scenario.stdev_stand_in Reserv.default_config
            Scenario.httpx_down)
     = World.Raise (World.mkExn World.RuntimeError
                      "Cannot connect to Ollama at http://localhost:11434").
Proof. split; vm_compute; reflexivity. Qed.

(** When the HTTP library fails with an exception that is none of its own,
    neither liveness check catches it and both runs end with it. *)
Example liveness_check_passes_a_foreign_exception :
  fst (Base.run_tests Scenario.stdev_stand_in Base.default_config None
         Scenario.broken_library)
  = World.Raise (World.mkExn World.ValueError "Invalid URL")
  /\ fst (Reserv.run_tests Scenario.stdev_stand_in Reserv.default_config
            Scenario.broken_library)
     = World.Raise (World.mkExn World.ValueError "Invalid URL").
Proof. split; vm_compute; reflexivity. Qed.

(* ================================================================== *)
(** * The asynchronous client: one probe *)
(* ================================================================== *)

Section AsyncProbe.
Import World.



(** A reply from which [get_embedding] does not return holds no embedding. *)
Lemma failed_attempt_value cfg (rep : reply) (message : string) :
  Spec.attempt_error cfg rep = Some message -> Spec.attempt_value rep = JNull.
Proof.
  unfold Spec.attempt_error, Spec.attempt_value.
  destruct rep as [r|e]; [| reflexivity].
  destruct (status_code r =? 200)%Z; [| reflexivity].
  destruct (parsed r) as [[| | | | | |members]|]; try reflexivity.
  discriminate.
Qed.

Lemma attempts_made_bounds cfg (net : nat -> Q * reply) (k : nat) :
  forall first,
    (Spec.attempts_made cfg net first k <= k)%nat
    /\ (k <> O -> Spec.attempts_made cfg net first k <> O).
Proof.
  induction k as [|k IH]; intros first; cbn [Spec.attempts_made].
  - split; [lia | congruence].
  - destruct (Spec.attempt_error cfg (snd (net first))).
    + destruct (IH (S first)) as [B _]. split; [lia | discriminate].
    + split; [lia | discriminate].
Qed.

(** One attempt of the retry loop: the request is sent, and the attempt
    ends the loop with the embedding of the body or leaves the text of its
    failure. *)
Lemma attempt_step cfg model prompt start_time (w : world) :
  let w1 := advance (fst (net w (sent w)))
              (Spec.embedding_request cfg model prompt) 1 w in
  try_except
    (bind (send "POST" (Reserv.base_url cfg ++ "/api/embeddings")
             [("model"%string, model); ("prompt"%string, prompt)])
       (fun response =>
          bind perf_counter
            (fun now =>
               if (status_code response =? 200)%Z
               then bind (Reserv.response_json response)
                      (fun data =>
                         bind (dict_get data "embedding" (JArray []))
                           (fun embedding =>
                              ret (inl (embedding, now - start_time, @None string))))
               else ret (inr ("HTTP " ++ Py.str_of_int (status_code response)
                              ++ ": " ++ Py.take 200 (text response))%string))))
    (fun e => Some (ret (inr (Reserv.describe cfg e)))) w
  = (Ok match Spec.attempt_error cfg (snd (net w (sent w))) with
        | None => inl (Spec.attempt_value (snd (net w (sent w))),
                       clock w1 - start_time, None)
        | Some message => inr message
        end, w1).
Proof.
  cbv zeta. unfold try_except, bind at 1, send.
  unfold Spec.attempt_error, Spec.attempt_value, Spec.embedding_request.
  destruct (net w (sent w)) as [latency [r|e]]; cbn [fst snd]; [| reflexivity].
  unfold bind at 1, perf_counter at 1.
  destruct (status_code r =? 200)%Z; [| reflexivity].
  unfold bind at 1, Reserv.response_json.
  destruct (parsed r) as [[| | | | | |members]|]; reflexivity.
Qed.

(** The retry loop, for the attempts numbered [a], [a+1], ..., [a+k-1] when
    [a+k] is the number of retries: how many requests it sends, what it
    returns, how long it takes and what it leaves in the log are all read
    off the replies of the service. *)
Lemma attempts_spec cfg model prompt retries start_time (k : nat) :
  forall (a : nat) last_error w,
    k = O \/ (Z.of_nat a + Z.of_nat k)%Z = retries ->
    exists d w',
      Reserv.attempts cfg model prompt retries start_time
        (map Z.of_nat (seq a k)) last_error w
      = (Ok (match Spec.attempts_made cfg (net w) (sent w) k with
             | O => JNull
             | S n' => Spec.attempt_value (snd (net w (sent w + n')))
             end,
             d,
             match Spec.attempts_made cfg (net w) (sent w) k with
             | O => last_error
             | S n' => Spec.attempt_error cfg (snd (net w (sent w + n')))
             end), w')
      /\ d = clock w' - start_time
      /\ net w' = net w
      /\ sent w' = (sent w + Spec.attempts_made cfg (net w) (sent w) k)%nat
      /\ log w' = log w ++ Spec.probe_log cfg model prompt (Z.of_nat a)
                             (Spec.attempts_made cfg (net w) (sent w) k)
      /\ clock w' == clock w
                      + Spec.latency_sum (net w) (sent w)
                          (Spec.attempts_made cfg (net w) (sent w) k)
                      + Spec.backoff_from (Z.of_nat a)
                          (Spec.attempts_made cfg (net w) (sent w) k - 1).
Proof.
  induction k as [|k IH]; intros a last_error w Hk.
  - cbn [seq map Reserv.attempts Spec.attempts_made Spec.probe_log
         Spec.latency_sum Spec.backoff_from Nat.sub].
    unfold bind, perf_counter, ret. eexists. exists w.
    split; [reflexivity |]. split; [reflexivity |]. split; [reflexivity |].
    split; [lia |]. split; [rewrite app_nil_r; reflexivity | ring].
  - destruct Hk as [Hk | Hk]; [discriminate |].
    cbn [seq map Reserv.attempts Spec.attempts_made].
    fold (Spec.embedding_request cfg model prompt).
    pose proof (attempt_step cfg model prompt start_time w) as Step.
    cbv zeta in Step. unfold Spec.embedding_request in Step at 1.
    fold (Spec.embedding_request cfg model prompt) in Step.
    rewrite (bind_ok Step). clear Step.
    destruct (Spec.attempt_error cfg (snd (net w (sent w)))) as [message|] eqn:AE.
    + (* the attempt failed *)
      pose proof (failed_attempt_value cfg _ _ AE) as AV.
      destruct k as [|k'].
      * (* it was the last one allowed *)
        replace (Z.of_nat a <? retries - 1)%Z with false
          by (symmetry; apply Z.ltb_ge; lia).
        cbn [seq map Reserv.attempts Spec.attempts_made Spec.probe_log
             Spec.latency_sum Spec.backoff_from Nat.sub].
        unfold bind, perf_counter, ret. rewrite Nat.add_0_r, AV, AE.
        eexists. eexists. split; [reflexivity |].
        cbn [clock net sent log advance Nat.add].
        split; [reflexivity |]. split; [reflexivity |].
        split; [lia |]. split; [reflexivity | ring].
      * replace (Z.of_nat a <? retries - 1)%Z with true
          by (symmetry; apply Z.ltb_lt; lia).
        unfold bind at 1.
        rewrite (async_sleep_positive _ _ (power_of_two_positive _ (Nat2Z.is_nonneg a))).
        match goal with
        | |- context [Reserv.attempts _ _ _ _ _ _ _ ?w2] =>
            destruct (IH (S a) (Some message) w2 ltac:(right; lia))
              as [d [w' [E [Hd [Hn [Hs [Hl Hc]]]]]]]
        end.
        cbn [clock net sent log advance Nat.add] in E, Hn, Hs, Hl, Hc.
        destruct (attempts_made_bounds cfg (net w) (S k') (S (sent w)))
          as [_ NZ]. specialize (NZ ltac:(discriminate)).
        destruct (Spec.attempts_made cfg (net w) (S (sent w)) (S k'))
          as [|n'] eqn:En; [congruence |].
        exists d, w'. rewrite E.
        replace (sent w + S n')%nat with (S (sent w + n')) by lia.
        replace (S (sent w) + n')%nat with (S (sent w + n')) in E |- * by lia.
        split; [reflexivity |]. split; [exact Hd |]. split; [exact Hn |].
        split; [lia |]. split.
        -- rewrite Hl, <- !app_assoc. cbn [app Spec.probe_log].
           replace (Z.of_nat (S a)) with (Z.of_nat a + 1)%Z by lia.
           reflexivity.
        -- rewrite Hc. cbn [Spec.latency_sum Spec.backoff_from Nat.sub].
           rewrite Nat.sub_0_r.
           replace (Z.of_nat (S a)) with (Z.of_nat a + 1)%Z by lia.
           destruct n' as [|n'']; cbn [Spec.backoff_from]; ring.
    + (* the function returns from this attempt *)
      unfold ret at 1. rewrite Nat.add_0_r, AE.
      eexists. eexists. split; [reflexivity |].
      cbn [clock net sent log advance Nat.add Spec.probe_log
           Spec.latency_sum Spec.backoff_from Nat.sub].
      split; [reflexivity |]. split; [reflexivity |].
      split; [lia |]. split; [reflexivity | ring].
Qed.

(** [get_embedding] always returns: it catches every exception of every
    attempt. *)
Lemma get_embedding_spec cfg model prompt retries (w : world) :
  exists d w',
    Reserv.get_embedding cfg model prompt retries w
    = (Ok (match Spec.attempts_made cfg (net w) (sent w) (Z.to_nat retries) with
           | O => JNull
           | S n' => Spec.attempt_value (snd (net w (sent w + n')))
           end,
           d,
           match Spec.attempts_made cfg (net w) (sent w) (Z.to_nat retries) with
           | O => None
           | S n' => Spec.attempt_error cfg (snd (net w (sent w + n')))
           end), w')
    /\ d = clock w' - clock w
    /\ net w' = net w
    /\ sent w' = (sent w + Spec.attempts_made cfg (net w) (sent w)
                             (Z.to_nat retries))%nat
    /\ log w' = log w ++ Spec.probe_log cfg model prompt 0
                           (Spec.attempts_made cfg (net w) (sent w)
                              (Z.to_nat retries))
    /\ d == Spec.latency_sum (net w) (sent w)
              (Spec.attempts_made cfg (net w) (sent w) (Z.to_nat retries))
            + Spec.backoff_sum
                (Spec.attempts_made cfg (net w) (sent w) (Z.to_nat retries) - 1).
Proof.
  unfold Reserv.get_embedding, bind at 1, perf_counter at 1, Py.range.
  destruct (attempts_spec cfg model prompt retries (clock w)
              (Z.to_nat retries) 0 None w)
    as [d [w' [E [Hd [Hn [Hs [Hl Hc]]]]]]].
  { destruct (Z.to_nat retries) eqn:R; [left; reflexivity | right; lia]. }
  exists d, w'. split; [exact E |]. split; [exact Hd |]. split; [exact Hn |].
  split; [exact Hs |]. split; [exact Hl |].
  subst d. rewrite Hc. unfold Spec.backoff_sum. change (Z.of_nat 0) with 0%Z. ring.
Qed.

End AsyncProbe.

(* ================================================================== *)
(** * The sample prober *)
(* ================================================================== *)

Section Prober.
Import World.

(** Synchronous tester: once the retries are exhausted, the
    [OllamaConnectionError] of [_make_request] matches neither [except]
    clause of [test_single_embedding] and leaves it. *)
Lemma sync_probe_lets_exhausted_retries_escape cfg model text (w : world) :
  Spec.always_fails w ->
  exists e, fst (Base.test_single_embedding cfg model text w) = Raise e
            /\ class_of e = OllamaConnectionError.
Proof.
  intros AF. unfold Base.test_single_embedding.
  unfold bind at 1. unfold perf_counter at 1.
  unfold try_except, Base.get_embedding.
  destruct (make_request_gives_up cfg "POST" "/api/embeddings"
              [("model", model); ("prompt", text)]%string w AF) as [_ [e [E C]]].
  unfold bind at 1. unfold bind at 1.
  destruct (Base._make_request cfg "POST" "/api/embeddings" _ w) as [o w1].
  simpl in E. subst o. unfold is_a. rewrite C. simpl.
  exists e. split; [reflexivity | exact C].
Qed.

(** Asynchronous tester: the prober after [get_embedding] returned.  An
    embedding that Python counts as false makes a failed measurement; one
    that counts as true and has a length a successful one; one that counts
    as true and has no length (a number, [true]) makes [len] raise a
    [TypeError], which leaves the prober. *)
Lemma async_probe_cases cfg model text (w : world) :
  exists v d err w',
    Reserv.get_embedding cfg model text (Reserv.max_retries cfg) w
    = (Ok (v, d, err), w')
    /\ ((truthy v = false
         /\ Reserv.test_single_embedding cfg model text w
            = (Ok {| Reserv.success := false;
                     Reserv.duration := d;
                     Reserv.text_length := Py.len text;
                     Reserv.embedding_dim := None;
                     Reserv.tokens_per_second := None;
                     Reserv.error_message := err;
                     Reserv.timestamp := clock w' |}, w'))
        \/ (truthy v = true
            /\ exists dim,
                 size v = Some dim
                 /\ Reserv.test_single_embedding cfg model text w
                    = (Ok {| Reserv.success := true;
                             Reserv.duration := d;
                             Reserv.text_length := Py.len text;
                             Reserv.embedding_dim := Some dim;
                             Reserv.tokens_per_second :=
                               Some (if Py.Qltb 0 d then inject_Z dim / d else 0);
                             Reserv.error_message := None;
                             Reserv.timestamp := clock w' |}, w'))
        \/ (truthy v = true /\ size v = None
            /\ Reserv.test_single_embedding cfg model text w
               = (Raise (no_len v), w'))).
Proof.
  destruct (get_embedding_spec cfg model text (Reserv.max_retries cfg) w)
    as [d [w' [E _]]].
  eexists. exists d. eexists. exists w'. split; [exact E |].
  unfold Reserv.test_single_embedding. rewrite (bind_ok E).
  match goal with
  | |- (truthy ?v = _ /\ _) \/ _ => destruct (truthy v) eqn:T
  end.
  - right. unfold bind at 1 2, len.
    match goal with
    | |- (_ /\ exists dim, size ?v = _ /\ _) \/ _ => destruct (size v) as [dim|] eqn:S
    end.
    + left. split; [reflexivity |]. exists dim. split; reflexivity.
    + right. split; [reflexivity |]. split; reflexivity.
  - left. split; reflexivity.
Qed.

(** The size of a value that has one is not negative, and not zero when
    Python counts the value as true. *)
Lemma len_nonnegative (s : string) : (0 <= Py.len s)%Z.
Proof.
  induction s as [|c s IH]; simpl; [lia |].
  destruct (Py.is_continuation c); lia.
Qed.

Lemma size_nonnegative (v : json) (n : Z) : size v = Some n -> (0 <= n)%Z.
Proof.
  destruct v; simpl; intros H; try discriminate; injection H as <-;
    try lia. apply len_nonnegative.
Qed.

Lemma truthy_size_positive (v : json) (n : Z) :
  truthy v = true -> size v = Some n -> (0 < n)%Z.
Proof.
  intros T S. pose proof (size_nonnegative v n S) as NN.
  destruct v; simpl in S; try discriminate; unfold truthy in T;
    cbn [size] in T; injection S as S; rewrite S in T;
    apply negb_true_iff, Z.eqb_neq in T; lia.
Qed.

(** When the embeddings the service sends have a length, the asynchronous
    prober returns. *)
Lemma async_probe_never_raises cfg model text (w : world) :
  Spec.embeddings_have_length w ->
  exists m w', Reserv.test_single_embedding cfg model text w = (Ok m, w').
Proof.
  intros WT.
  destruct (get_embedding_spec cfg model text (Reserv.max_retries cfg) w)
    as [d0 [w0 [E0 _]]].
  destruct (async_probe_cases cfg model text w)
    as [v [d [err [w' [E [[_ R] | [[_ [dim [_ R]]] | [T [S _]]]]]]]]].
  - eauto.
  - eauto.
  - exfalso. rewrite E0 in E. injection E as Hv _ _ _.
    destruct (Spec.attempts_made cfg (net w) (sent w)
                (Z.to_nat (Reserv.max_retries cfg))) as [|n'].
    + subst v. discriminate.
    + subst v. exact (WT _ T S).
Qed.

(** What the asynchronous prober raises is the [TypeError] of [len]. *)
Lemma async_probe_raises cfg model text (w w' : world) (e : exn) :
  Reserv.test_single_embedding cfg model text w = (Raise e, w') ->
  class_of e = TypeError.
Proof.
  intros H.
  destruct (async_probe_cases cfg model text w)
    as [v [d [err [w1 [E [[_ R] | [[_ [dim [_ R]]] | [T [S R]]]]]]]]];
    rewrite R in H; try discriminate.
  injection H as <- _. reflexivity.
Qed.

(** The asynchronous prober leaves the world as [get_embedding] left it. *)
Lemma async_probe_world cfg model text (w : world) :
  snd (Reserv.test_single_embedding cfg model text w)
  = snd (Reserv.get_embedding cfg model text (Reserv.max_retries cfg) w).
Proof.
  destruct (async_probe_cases cfg model text w)
    as [v [d [err [w1 [E [[_ R] | [[_ [dim [_ R]]] | [T [S R]]]]]]]]];
    rewrite R, E; reflexivity.
Qed.

End Prober.

(** C1 fails on the synchronous tester.  With the service down and the
    default three attempts, [test_single_embedding] makes its three requests
    and raises an [OllamaConnectionError] instead of returning a failed
    measurement. *)
Theorem sync_probe_raises_when_the_service_is_down :
  exists w',
    Base.test_single_embedding Base.default_config "all-minilm:l6-v2" "hello"
      Scenario.down
    = (World.Raise
         (World.mkExn World.OllamaConnectionError
            ("Failed to connect to Ollama: RetryError["
             ++ World.future_repr Scenario.down
                  (World.mkExn World.RequestException "Connection refused")
             ++ "]")), w')
    /\ World.sent w' = 3%nat.
Proof. eexists. split; vm_compute; reflexivity. Qed.

(* ================================================================== *)
(** * The model test runner: what a Model Result looks like *)
(* ================================================================== *)

Section Runner.
Import World.
Variable stdev : list Q -> Q.

(** ** Synchronous tester *)

Lemma base_test_model_shape cfg model num_tests (w : world) r :
  fst (Base.test_model stdev cfg model num_tests w) = Ok r ->
  exists results w1,
    Base.timed_tests cfg model (Base.effective_num_tests cfg num_tests) w
    = (Ok results, w1)
    /\ ((filter Base.success results = []
         /\ r = Base.all_failed_result model
                  (Base.effective_num_tests cfg num_tests) results)
        \/ (filter Base.success results <> []
            /\ exists info,
                 r = Base.success_result stdev model
                       (Base.effective_num_tests cfg num_tests) results info)).
Proof.
  intros H. apply fst_ok in H. destruct H as [w' H].
  unfold Base.test_model in H. cbv zeta in H.
  apply bind_ok_inv in H. destruct H as [results [w1 [L H]]].
  exists results, w1. split; [exact L |].
  destruct (filter Base.success results) as [|x xs] eqn:F.
  - left. unfold ret in H. injection H as <- _. split; reflexivity.
  - right. split; [discriminate |].
    apply bind_ok_inv in H. destruct H as [info0 [w2 [_ H]]].
    apply bind_ok_inv in H. destruct H as [info [w3 [_ H]]].
    unfold ret in H. injection H as <- _. exists info. reflexivity.
Qed.

(** What holds of every measurement of the prober holds of every
    measurement of the loop. *)
Lemma base_timed_tests_Forall (P : Base.EmbeddingResult -> Prop) cfg model n :
  (forall text w m,
      fst (Base.test_single_embedding cfg model text w) = Ok m -> P m) ->
  forall (w : world) results w1,
    Base.timed_tests cfg model n w = (Ok results, w1) ->
    Forall P results.
Proof.
  intros HP w results w1 L. unfold Base.timed_tests in L.
  eapply for_each_invariant; [| | exact L]; [| constructor].
  intros s i w0 s' w' Hs H. cbv beta zeta in H.
  apply bind_ok_inv in H. destruct H as [m [w2 [E H]]].
  apply bind_ok_inv in H. destruct H as [u [w3 [_ H]]].
  unfold ret in H. injection H as <- _.
  apply Forall_app. split; [exact Hs |]. constructor; [| constructor].
  eapply HP. rewrite E. reflexivity.
Qed.

Lemma base_timed_tests_length cfg model n (w : world) results w1 :
  Base.timed_tests cfg model n w = (Ok results, w1) ->
  List.length results = Z.to_nat n.
Proof.
  intros L. unfold Base.timed_tests in L. apply for_each_length in L.
  - unfold Py.range in L. rewrite length_map, length_seq in L. exact L.
  - intros s i w0 s' w' H. cbv beta zeta in H.
    apply bind_ok_inv in H. destruct H as [m [w2 [_ H]]].
    apply bind_ok_inv in H. destruct H as [u [w3 [_ H]]].
    unfold ret in H. injection H as <- _. rewrite length_app. simpl. lia.
Qed.

Lemma base_truthy_dims_nonempty (l : list Base.EmbeddingResult) :
  Base.truthy_dims l <> [] <->
  exists m, In m l /\ Py.truthy_Z (Base.embedding_dim m) = true.
Proof.
  induction l as [|x l IH]; simpl.
  - split; [congruence | intros [m [[] _]]].
  - unfold Py.truthy_Z at 1.
    destruct (Base.embedding_dim x) as [d|] eqn:D.
    + destruct (d =? 0)%Z eqn:Z0; simpl.
      * rewrite IH. split.
        -- intros [m [I T]]. exists m. auto.
        -- intros [m [[<- | I] T]]; [| eauto].
           rewrite D in T. simpl in T. rewrite Z0 in T. discriminate.
      * split; [| discriminate]. intros _. exists x. split; [auto |].
        rewrite D. simpl. now rewrite Z0.
    + simpl. rewrite IH. split.
      * intros [m [I T]]. exists m. auto.
      * intros [m [[<- | I] T]]; [| eauto]. rewrite D in T. discriminate.
Qed.

Lemma base_success_result_stats model n results info :
  filter Base.success results <> [] ->
  Spec.base_stats_iff (Base.success_result stdev model n results info).
Proof.
  intros NE. left. split; [| split].
  - unfold Base.success_result. cbn [Base.successful_tests].
    destruct (filter Base.success results); [congruence |].
    cbn [List.length]. lia.
  - repeat split; discriminate.
  - unfold Spec.reported_a_dimension. simpl.
    transitivity (Base.truthy_dims (filter Base.success results) <> []).
    + destruct (Base.truthy_dims (filter Base.success results)); simpl;
        split; congruence.
    + rewrite base_truthy_dims_nonempty. split.
      * intros [m [I T]]. apply filter_In in I. exists m. tauto.
      * intros [m [I [S T]]]. exists m. split; [| exact T].
        apply filter_In. auto.
Qed.

Lemma base_test_model_stats cfg model num_tests (w : world) r :
  fst (Base.test_model stdev cfg model num_tests w) = Ok r ->
  Spec.base_stats_iff r.
Proof.
  intros H. apply base_test_model_shape in H.
  destruct H as [results [w1 [_ [[F ->] | [NE [info ->]]]]]].
  - right. repeat split.
  - apply base_success_result_stats, NE.
Qed.


Lemma base_test_model_name cfg model num_tests (w : world) r :
  fst (Base.test_model stdev cfg model num_tests w) = Ok r ->
  Base.mr_model r = model.
Proof.
  intros H. apply base_test_model_shape in H.
  destruct H as [results [w1 [_ [[F ->] | [NE [info ->]]]]]]; reflexivity.
Qed.

(** In the synchronous tester the counters add up in this sense: the
    successes and the failed measurements kept in a result of [test_model]
    are [total_tests], for a number of tests that is not negative. *)
Lemma base_test_model_counts cfg model num_tests (w : world) r :
  (0 <= Base.effective_num_tests cfg num_tests)%Z ->
  fst (Base.test_model stdev cfg model num_tests w) = Ok r ->
  Spec.base_counts_add_up r.
Proof.
  intros Hn H. apply base_test_model_shape in H.
  destruct H as [results [w1 [L R]]].
  apply base_timed_tests_length in L.
  pose proof (filter_split_length Base.success results) as Split.
  unfold Spec.base_counts_add_up, Spec.base_failed_tests.
  destruct R as [[F ->] | [NE [info ->]]].
  - cbn [Base.all_failed_result Base.successful_tests Base.total_tests
         Base.individual_results].
    rewrite F in Split. cbn [List.length] in Split. lia.
  - unfold Base.success_result.
    cbn [Base.successful_tests Base.total_tests Base.individual_results]. lia.
Qed.

(** ** Asynchronous tester *)

Lemma reserv_truthy_dims_nonempty (l : list Reserv.EmbeddingMetrics) :
  l <> [] -> Forall (fun m => Py.truthy_Z (Reserv.embedding_dim m) = true) l ->
  Reserv.truthy_dims l <> [].
Proof.
  intros NE Hl. destruct Hl as [|x l Hx Hl]; [congruence |].
  simpl. unfold Py.truthy_Z in Hx.
  destruct (Reserv.embedding_dim x) as [d|]; [| discriminate].
  destruct (d =? 0)%Z; [discriminate |]. discriminate.
Qed.

Lemma aggregate_counts model (metrics_list : list Reserv.EmbeddingMetrics) :
  Spec.counts_add_up (Reserv.aggregate stdev model metrics_list).
Proof.
  unfold Spec.counts_add_up, Reserv.aggregate.
  pose proof (filter_split_length Reserv.success metrics_list) as L.
  destruct (filter Reserv.success metrics_list) as [|x xs];
    cbn [Reserv.successful_tests Reserv.failed_tests Reserv.total_tests];
    cbn [List.length] in L |- *; lia.
Qed.

Lemma aggregate_stats model (metrics_list : list Reserv.EmbeddingMetrics) :
  Forall Spec.measured_dimension metrics_list ->
  Spec.reserv_stats_iff (Reserv.aggregate stdev model metrics_list).
Proof.
  intros Hm. unfold Reserv.aggregate.
  destruct (filter Reserv.success metrics_list) as [|x xs] eqn:F.
  - right. repeat split.
  - left. split; [cbn [Reserv.successful_tests List.length]; lia |].
    assert (D : Reserv.truthy_dims (x :: xs) <> []).
    { apply reserv_truthy_dims_nonempty; [discriminate |].
      rewrite <- F. rewrite Forall_forall in *. intros m I.
      apply filter_In in I. destruct I as [I S]. exact (Hm m I S). }
    repeat split; try discriminate. cbn [Reserv.avg_embedding_dim].
    destruct (Reserv.truthy_dims (x :: xs)); [congruence | discriminate].
Qed.


Lemma aggregate_keeps_measurements model (metrics_list : list Reserv.EmbeddingMetrics) :
  Reserv.individual_metrics (Reserv.aggregate stdev model metrics_list)
  = metrics_list.
Proof.
  unfold Reserv.aggregate. destruct (filter Reserv.success metrics_list); reflexivity.
Qed.

(** The measurements of the asynchronous prober: a success has a positive
    dimensionality, a throughput and no error message; a failure has
    neither dimensionality nor throughput. *)
Lemma async_probe_measurement cfg model text (w : world) m :
  fst (Reserv.test_single_embedding cfg model text w) = Ok m ->
  Spec.reserv_measurement_ok m.
Proof.
  intros H.
  destruct (async_probe_cases cfg model text w)
    as [v [d [err [w1 [E [[_ R] | [[T [dim [S R]]] | [_ [_ R]]]]]]]]];
    rewrite R in H; cbn [fst] in H; try discriminate; injection H as <-;
    unfold Spec.reserv_measurement_ok;
    cbn [Reserv.success Reserv.embedding_dim Reserv.tokens_per_second
         Reserv.error_message].
  - split; reflexivity.
  - split; [| split; [discriminate | reflexivity]].
    exists dim. split; [reflexivity |]. eapply truthy_size_positive; eassumption.
Qed.

Lemma async_probe_measures_dimension cfg model text (w : world) m :
  fst (Reserv.test_single_embedding cfg model text w) = Ok m ->
  Spec.measured_dimension m.
Proof.
  intros H. apply async_probe_measurement in H.
  unfold Spec.reserv_measurement_ok in H. unfold Spec.measured_dimension.
  intros S. rewrite S in H. destruct H as [[dim [D P]] _].
  rewrite D. simpl. apply negb_true_iff, Z.eqb_neq. lia.
Qed.

Lemma reserv_timed_tests_Forall (P : Reserv.EmbeddingMetrics -> Prop) cfg model :
  (forall text w m,
      fst (Reserv.test_single_embedding cfg model text w) = Ok m -> P m) ->
  forall (w : world) metrics_list w1,
    Reserv.timed_tests cfg model w = (Ok metrics_list, w1) ->
    Forall P metrics_list.
Proof.
  intros HP w ml w1 L. unfold Reserv.timed_tests in L.
  eapply for_each_invariant; [| | exact L]; [| constructor].
  intros s i w0 s' w' Hs H. cbv beta zeta in H.
  apply bind_ok_inv in H. destruct H as [m [w2 [E H]]].
  apply bind_ok_inv in H. destruct H as [u [w3 [_ H]]].
  unfold ret in H. injection H as <- _.
  apply Forall_app. split; [exact Hs |]. constructor; [| constructor].
  eapply HP. rewrite E. reflexivity.
Qed.


(** A result the asynchronous runner returns is the aggregate of the
    measurements of its timed loop, which started where the warm-up ended. *)
Lemma reserv_test_model_shape cfg model (w : world) r :
  fst (Reserv.test_model stdev cfg model w) = Ok r ->
  exists w1 metrics_list w2,
    Reserv.warmup cfg model w = (Ok tt, w1)
    /\ Reserv.timed_tests cfg model w1 = (Ok metrics_list, w2)
    /\ r = Reserv.aggregate stdev model metrics_list.
Proof.
  intros H. apply fst_ok in H. destruct H as [w' H].
  unfold Reserv.test_model in H.
  apply bind_ok_inv in H. destruct H as [[] [w1 [W H]]].
  apply bind_ok_inv in H. destruct H as [ml [w2 [L H]]].
  unfold ret in H. injection H as <- _.
  exists w1, ml, w2. repeat split; assumption.
Qed.

Lemma reserv_test_model_name cfg model (w : world) r :
  fst (Reserv.test_model stdev cfg model w) = Ok r ->
  Reserv.model_name r = model.
Proof.
  intros H. apply reserv_test_model_shape in H.
  destruct H as [w1 [ml [w2 [_ [_ ->]]]]].
  unfold Reserv.aggregate. destruct (filter Reserv.success ml); reflexivity.
Qed.

End Runner.

(* ================================================================== *)
(** * Invariants of the Model Results of a run *)
(* ================================================================== *)

(** C4, as the code has it.  Asynchronous tester (the one whose Model
    Result has a [failed_tests] field): [successful_tests + failed_tests =
    total_tests] for every result [test_model] returns, for the ERROR result
    the orchestrator files for a runner that raised, and so for every result
    of every report, whatever runner is bound to [test_model].  Synchronous
    tester, with the measurements kept with [success = False] counted as
    failed: the identity holds for every result [test_model] returns when
    the number of tests is not negative; the ERROR result of the
    orchestrator has no success, keeps no measurement and has
    [tests_per_model] as total; every result of a report is of one of the
    two kinds. *)
Theorem successes_and_failures_add_up :
  forall stdev : list Q -> Q,
    (forall cfg : Reserv.TestConfig,
        (forall model w r,
            fst (Reserv.test_model stdev cfg model w) = World.Ok r ->
            Spec.counts_add_up r)
        /\ (forall model e, Spec.counts_add_up (Reserv.error_result cfg model e))
        /\ (forall (runner : string -> World.M Reserv.ModelTestResult) w report,
              (forall m w1 r, fst (runner m w1) = World.Ok r ->
                              Spec.counts_add_up r) ->
              fst (Reserv.run_tests_with runner cfg w) = World.Ok report ->
              Forall Spec.counts_add_up (Reserv.results report))
        /\ (forall w report,
              fst (Reserv.run_tests stdev cfg w) = World.Ok report ->
              Forall Spec.counts_add_up (Reserv.results report)))
    /\
    (forall cfg : Base.TestConfig,
        (forall model num_tests w r,
            (0 <= Base.effective_num_tests cfg num_tests)%Z ->
            fst (Base.test_model stdev cfg model num_tests w) = World.Ok r ->
            Spec.base_counts_add_up r)
        /\ (forall model e,
              Spec.base_error_counts cfg (Base.error_result cfg model e))
        /\ (forall models w report,
              (0 <= Base.tests_per_model cfg)%Z ->
              fst (Base.run_tests stdev cfg models w) = World.Ok report ->
              Forall (fun r => Spec.base_counts_add_up r
                               \/ Spec.base_error_counts cfg r)
                     (Base.results report))).
Proof.
  intros stdev. split.
  - intros cfg.
    assert (T : forall model w r,
               fst (Reserv.test_model stdev cfg model w) = World.Ok r ->
               Spec.counts_add_up r).
    { intros model w r H. apply reserv_test_model_shape in H.
      destruct H as [w1 [ml [w2 [_ [_ ->]]]]]. apply aggregate_counts. }
    assert (E : forall model e,
               Spec.counts_add_up (Reserv.error_result cfg model e)).
    { intros model e. unfold Spec.counts_add_up. simpl. lia. }
    assert (G : forall (runner : string -> World.M Reserv.ModelTestResult) w report,
               (forall m w1 r, fst (runner m w1) = World.Ok r ->
                               Spec.counts_add_up r) ->
               fst (Reserv.run_tests_with runner cfg w) = World.Ok report ->
               Forall Spec.counts_add_up (Reserv.results report)).
    { intros runner w report Hr H.
      destruct (reserv_run_results runner cfg w report H) as [w' F].
      eapply filed_Forall; [exact F | exact Hr | exact E]. }
    repeat split; try assumption.
    intros w report H. apply (G (Reserv.test_model stdev cfg) w); [| exact H].
    intros m w1 r. apply T.
  - intros cfg.
    assert (E : forall model e,
               Spec.base_error_counts cfg (Base.error_result cfg model e)).
    { intros model e. repeat split. }
    split; [| split; [exact E |]].
    + intros model num_tests w r. apply base_test_model_counts.
    + intros models w report Hn H. unfold Base.run_tests in H.
      destruct (base_run_results _ cfg models w report H) as [w' F].
      eapply filed_Forall; [exact F | |].
      * intros m w1 r Hr. left.
        eapply base_test_model_counts; [| exact Hr]. exact Hn.
      * intros m e. right. apply E.
Qed.

Lemma successes_and_failures_add_up_witness :
  exists report,
    fst (Reserv.run_tests Scenario.stdev_stand_in (Scenario.short_run 2)
           Scenario.healthy) = World.Ok report
    /\ Forall Spec.counts_add_up (Reserv.results report).
Proof.
  eexists. split; [vm_compute; reflexivity |].
  apply (proj2 (proj2 (proj2
           (proj1 (successes_and_failures_add_up Scenario.stdev_stand_in)
              (Scenario.short_run 2)))) Scenario.healthy).
  vm_compute. reflexivity.
Defined.

(** C4, as the claim states it, fails on the synchronous tester.  With the
    service down after the liveness check, the runner raises for both
    models and the orchestrator files two ERROR results: no success, no
    failed measurement, and a total of five tests. *)
Lemma sync_error_result_does_not_add_up :
  exists report,
    fst (Base.run_tests Scenario.stdev_stand_in Base.default_config
           Scenario.two_models Scenario.up_then_down) = World.Ok report
    /\ map (fun r => (Base.status r, Base.successful_tests r,
                      Spec.base_failed_tests r, Base.total_tests r))
           (Base.results report)
       = [("ERROR"%string, 0%Z, 0%Z, 5%Z); ("ERROR"%string, 0%Z, 0%Z, 5%Z)].
Proof.
  eexists. split; [vm_compute; reflexivity |]. vm_compute. reflexivity.
Qed.

(** C5, as the code has it.  In every Model Result of either tester, from
    [test_model] or from the orchestrator, the duration statistics are
    present exactly when [successful_tests > 0] and every statistic is absent
    when [successful_tests = 0].  The mean dimensionality is present exactly
    when [successful_tests > 0] in the asynchronous tester; in the
    synchronous tester it is present exactly when some successful
    measurement reported a dimensionality other than zero. *)
Theorem statistics_follow_successes :
  forall stdev : list Q -> Q,
    (forall cfg model num_tests w r,
        fst (Base.test_model stdev cfg model num_tests w) = World.Ok r ->
        Spec.base_stats_iff r)
    /\ (forall cfg models w report,
          fst (Base.run_tests stdev cfg models w) = World.Ok report ->
          Forall Spec.base_stats_iff (Base.results report))
    /\ (forall cfg model w r,
          fst (Reserv.test_model stdev cfg model w) = World.Ok r ->
          Spec.reserv_stats_iff r)
    /\ (forall cfg w report,
          fst (Reserv.run_tests stdev cfg w) = World.Ok report ->
          Forall Spec.reserv_stats_iff (Reserv.results report)).
Proof.
  intros stdev.
  assert (R : forall cfg model w r,
             fst (Reserv.test_model stdev cfg model w) = World.Ok r ->
             Spec.reserv_stats_iff r).
  { intros cfg model w r H. apply reserv_test_model_shape in H.
    destruct H as [w1 [ml [w2 [_ [L ->]]]]]. apply aggregate_stats.
    eapply reserv_timed_tests_Forall; [| exact L].
    intros text w0 m. apply async_probe_measures_dimension. }
  split; [| split; [| split]].
  - intros cfg model num_tests w r. apply base_test_model_stats.
  - intros cfg models w report H. unfold Base.run_tests in H.
    destruct (base_run_results _ cfg models w report H) as [w' F].
    eapply filed_Forall; [exact F | |].
    + intros m w1 r. apply base_test_model_stats.
    + intros m e. right. repeat split.
  - exact R.
  - intros cfg w report H. unfold Reserv.run_tests in H.
    destruct (reserv_run_results _ cfg w report H) as [w' F].
    eapply filed_Forall; [exact F | |].
    + intros m w1 r. apply R.
    + intros m e. right. repeat split.
Qed.

Lemma statistics_follow_successes_witness :
  exists report,
    fst (Reserv.run_tests Scenario.stdev_stand_in (Scenario.short_run 2)
           Scenario.healthy) = World.Ok report
    /\ Forall Spec.reserv_stats_iff (Reserv.results report).
Proof.
  eexists. split; [vm_compute; reflexivity |].
  apply (proj2 (proj2 (proj2
           (statistics_follow_successes Scenario.stdev_stand_in)))
           (Scenario.short_run 2) Scenario.healthy).
  vm_compute. reflexivity.
Defined.

(** C5, as the claim states it, fails on the synchronous tester: a 200
    answer with an empty vector is a success of dimensionality 0, so all
    five samples succeed and the duration statistics are there, yet the mean
    dimensionality is absent. *)
Lemma sync_successes_without_mean_dimension :
  exists r,
    fst (Base.test_model Scenario.stdev_stand_in Base.default_config
           "all-minilm:l6-v2" None Scenario.empty_vectors) = World.Ok r
    /\ Base.status r = "SUCCESS"%string
    /\ Base.successful_tests r = 5%Z
    /\ Base.min_duration r = Some (1 # 2)
    /\ Base.avg_embedding_dim r = None.
Proof.
  eexists. split; [vm_compute; reflexivity |]. repeat split.
Qed.



(** What [attempts_made] counts: every request of a probe but the last was
    a failed attempt, and a probe that does not use all its attempts ended
    with an attempt from which the function returned. *)
Lemma attempts_made_spec cfg (net : nat -> Q * World.reply) (k : nat) :
  forall first,
    let n := Spec.attempts_made cfg net first k in
    (n <= k)%nat
    /\ (k <> O -> n <> O)
    /\ (forall i, (i + 1 < n)%nat ->
                  Spec.attempt_error cfg (snd (net (first + i)%nat)) <> None)
    /\ ((n < k)%nat ->
        Spec.attempt_error cfg (snd (net (first + (n - 1))%nat)) = None).
Proof.
  induction k as [|k IH]; intros first; cbv zeta; cbn [Spec.attempts_made].
  - repeat split; try lia; congruence.
  - destruct (Spec.attempt_error cfg (snd (net first))) as [message|] eqn:AE.
    + specialize (IH (S first)). cbv zeta in IH.
      destruct IH as [B [NZ [Failed Last]]].
      split; [lia |]. split; [discriminate |]. split.
      * intros [|i] Hi.
        -- rewrite Nat.add_0_r, AE. discriminate.
        -- replace (first + S i)%nat with (S first + i)%nat by lia.
           apply Failed. lia.
      * intros Hn.
        destruct (Spec.attempts_made cfg net (S first) k) as [|n'] eqn:En.
        -- destruct k; [lia |]. exfalso. apply NZ; [discriminate | reflexivity].
        -- replace (first + (S (S n') - 1))%nat with (S first + (S n' - 1))%nat
             by lia.
           apply Last. lia.
    + split; [lia |]. split; [discriminate |]. split.
      * intros i Hi. lia.
      * intros _. simpl. rewrite Nat.add_0_r. exact AE.
Qed.

(** C10.  Asynchronous tester.  [get_embedding] always returns, and what it
    does is read off the replies of the service: after an attempt that
    failed and was not the last one allowed it sleeps [2 ** attempt] seconds
    and sends the request again, so it sends [attempts_made] requests, the
    first from which it can return and all the failed ones before it.  The
    duration it returns is the time from its entry to its return: the sum
    of the latencies of all these requests, failed ones included, plus the
    back-off sleeps [2 ** 0], [2 ** 1], ... between them.  The measurement
    [test_single_embedding] builds carries that duration. *)
Theorem async_probe_duration_is_cumulative :
  (forall cfg model prompt retries w,
     let n := Spec.attempts_made cfg (World.net w) (World.sent w)
                (Z.to_nat retries) in
     exists v d err w',
       Reserv.get_embedding cfg model prompt retries w
       = (World.Ok (v, d, err), w')
       /\ World.sent w' = (World.sent w + n)%nat
       /\ World.log w' = World.log w ++ Spec.probe_log cfg model prompt 0 n
       /\ d = World.clock w' - World.clock w
       /\ d == Spec.latency_sum (World.net w) (World.sent w) n
               + Spec.backoff_sum (n - 1))
  /\
  (forall cfg model text w,
     let n := Spec.attempts_made cfg (World.net w) (World.sent w)
                (Z.to_nat (Reserv.max_retries cfg)) in
     World.sent (snd (Reserv.test_single_embedding cfg model text w))
     = (World.sent w + n)%nat
     /\ forall m,
          fst (Reserv.test_single_embedding cfg model text w) = World.Ok m ->
          Reserv.duration m
          == Spec.latency_sum (World.net w) (World.sent w) n
             + Spec.backoff_sum (n - 1))
  /\
  (forall cfg (net : nat -> Q * World.reply) first k,
     let n := Spec.attempts_made cfg net first k in
     (n <= k)%nat
     /\ (k <> O -> n <> O)
     /\ (forall i, (i + 1 < n)%nat ->
                   Spec.attempt_error cfg (snd (net (first + i)%nat)) <> None)
     /\ ((n < k)%nat ->
         Spec.attempt_error cfg (snd (net (first + (n - 1))%nat)) = None)).
Proof.
  split; [| split].
  - intros cfg model prompt retries w. cbv zeta.
    destruct (get_embedding_spec cfg model prompt retries w)
      as [d [w' [E [Hd [_ [Hs [Hl Hc]]]]]]].
    eexists. exists d. eexists. exists w'.
    split; [exact E |]. split; [exact Hs |]. split; [exact Hl |].
    split; [exact Hd | exact Hc].
  - intros cfg model text w. cbv zeta.
    destruct (get_embedding_spec cfg model text (Reserv.max_retries cfg) w)
      as [d0 [w0 [E0 [_ [_ [Hs [_ Hc]]]]]]].
    destruct (async_probe_cases cfg model text w)
      as [v [d [err [w1 [E [[_ R] | [[_ [dim [_ R]]] | [_ [_ R]]]]]]]]];
      rewrite E0 in E; injection E as _ <- _ <-; rewrite R; cbn [fst snd];
      (split; [exact Hs |]); intros m H; try discriminate;
      injection H as <-; exact Hc.
  - intros cfg net first k. apply attempts_made_spec.
Qed.

(** The third attempt succeeds: three requests with the sleeps of 1 and 2
    seconds between them, and three exchanges of half a second, make a
    duration of four and a half seconds. *)
Lemma async_probe_duration_is_cumulative_witness :
  exists v d err w',
    Reserv.get_embedding Reserv.default_config "all-minilm:l6-v2" "hello" 3
      Scenario.third_time_lucky = (World.Ok (v, d, err), w')
    /\ World.sent w' = 3%nat
    /\ World.log w'
       = [Spec.embedding_request Reserv.default_config "all-minilm:l6-v2" "hello";
          World.Sleep 1;
          Spec.embedding_request Reserv.default_config "all-minilm:l6-v2" "hello";
          World.Sleep 2;
          Spec.embedding_request Reserv.default_config "all-minilm:l6-v2" "hello"]
    /\ d == 9 # 2.
Proof.
  destruct (proj1 async_probe_duration_is_cumulative Reserv.default_config
              "all-minilm:l6-v2"%string "hello"%string 3%Z
              Scenario.third_time_lucky)
    as [v [d [err [w' [E [S [L [_ D]]]]]]]].
  exists v, d, err, w'. split; [exact E |]. split; [exact S |].
  split; [exact L |]. rewrite D. reflexivity.
Defined.

Example third_attempt_duration :
  fst (Reserv.get_embedding Reserv.default_config "all-minilm:l6-v2" "hello" 3
         Scenario.third_time_lucky)
  = World.Ok (World.JArray [World.JFloat 1; World.JFloat 2], 36 # 8, None).
Proof. vm_compute. reflexivity. Qed.

(* ================================================================== *)
(** * The warm-up of the asynchronous runner *)
(* ================================================================== *)

Section Warmup.
Import World.

Lemma probe_log_events cfg model prompt (n : nat) :
  forall a, n <> O ->
            Spec.probe_events cfg model prompt a
              (Spec.probe_log cfg model prompt a n).
Proof.
  induction n as [|n IH]; intros a Hn; [congruence |].
  cbn [Spec.probe_log]. destruct n as [|n'].
  - constructor.
  - apply Spec.probe_retry. apply IH. discriminate.
Qed.

(** What a probe of [get_embedding] leaves: the service as it was, between
    one request (when an attempt is allowed) and as many as it is allowed,
    and in the log the events of one probe. *)
Lemma get_embedding_log cfg model prompt retries (w : world) :
  exists out w',
    Reserv.get_embedding cfg model prompt retries w = (Ok out, w')
    /\ net w' = net w
    /\ (sent w <= sent w')%nat
    /\ (sent w' <= sent w + Z.to_nat retries)%nat
    /\ ((0 < retries)%Z -> (sent w < sent w')%nat)
    /\ exists evs,
         log w' = log w ++ evs
         /\ ((0 < retries)%Z -> Spec.probe_events cfg model prompt 0 evs).
Proof.
  destruct (get_embedding_spec cfg model prompt retries w)
    as [d [w' [E [_ [Hn [Hs [Hl _]]]]]]].
  destruct (attempts_made_bounds cfg (net w) (Z.to_nat retries) (sent w))
    as [B NZ].
  eexists. exists w'. split; [exact E |]. split; [exact Hn |].
  split; [lia |]. split; [lia |]. split.
  - intros H. assert (Z.to_nat retries <> O) by lia. specialize (NZ H0). lia.
  - eexists. split; [exact Hl |]. intros H. apply probe_log_events.
    apply NZ. lia.
Qed.

(** The warm-up loop over any list of [n] indices. *)
Lemma warmup_loop cfg model (l : list Z) :
  forall w,
    exists w' evs,
      for_each l
        (fun _ _ =>
           bind (Reserv.get_embedding cfg model (nth 0 Reserv.TEST_TEXTS ""%string)
                   Reserv.DEFAULT_RETRIES)
                (fun _ => async_sleep 1))
        tt w = (Ok tt, w')
      /\ net w' = net w
      /\ (sent w + List.length l <= sent w')%nat
      /\ (sent w' <= sent w + 3 * List.length l)%nat
      /\ log w' = log w ++ evs
      /\ Spec.warmup_events cfg model (List.length l) evs.
Proof.
  induction l as [|i l IH]; intros w; cbn [for_each List.length].
  - exists w, []. rewrite app_nil_r. repeat split; try lia. constructor.
  - destruct (get_embedding_log cfg model (nth 0 Reserv.TEST_TEXTS ""%string)
                Reserv.DEFAULT_RETRIES w)
      as [out [w1 [E [N [_ [Hi [Lo [probe [L P]]]]]]]]].
    specialize (Lo ltac:(reflexivity)). specialize (P ltac:(reflexivity)).
    change (Z.to_nat Reserv.DEFAULT_RETRIES) with 3%nat in Hi.
    unfold bind at 1. unfold bind at 1. rewrite E.
    rewrite (async_sleep_positive 1 w1 ltac:(reflexivity)).
    match goal with
    | |- context [for_each l _ tt ?w2] =>
        destruct (IH w2) as [w' [rest [E' [N' [Lo' [Hi' [L' W]]]]]]]
    end.
    cbn [net sent log advance Nat.add] in N', Lo', Hi', L'.
    exists w', (probe ++ Sleep 1 :: rest). split; [exact E' |].
    split; [congruence |]. split; [lia |]. split; [lia |].
    rewrite L', L, <- !app_assoc. split; [reflexivity |].
    constructor; assumption.
Qed.

(** The warm-up never raises. *)
Lemma warmup_log cfg model (w : world) :
  exists w' evs,
    Reserv.warmup cfg model w = (Ok tt, w')
    /\ net w' = net w
    /\ (sent w + Z.to_nat (Reserv.warmup_requests cfg) <= sent w')%nat
    /\ (sent w' <= sent w + 3 * Z.to_nat (Reserv.warmup_requests cfg))%nat
    /\ log w' = log w ++ evs
    /\ Spec.warmup_events cfg model (Z.to_nat (Reserv.warmup_requests cfg)) evs.
Proof.
  unfold Reserv.warmup. destruct (0 <? Reserv.warmup_requests cfg)%Z eqn:G.
  - destruct (warmup_loop cfg model (Py.range (Reserv.warmup_requests cfg)) w)
      as [w' [evs [E [N [Lo [Hi [L W]]]]]]].
    unfold Py.range in Lo, Hi, W. rewrite length_map, length_seq in Lo, Hi, W.
    exists w', evs. repeat split; assumption.
  - apply Z.ltb_ge in G.
    replace (Z.to_nat (Reserv.warmup_requests cfg)) with O by lia.
    exists w, []. rewrite app_nil_r. repeat split; try lia. constructor.
Qed.

(** One sample of the timed loop, with or without the pause after it,
    whether the prober returns or raises: the service is as it was, at most
    [max_retries] requests were sent, and the log has grown. *)
Lemma sample_world cfg model text (pause : bool) (interval : Q) {S : Type}
  (k : Reserv.EmbeddingMetrics -> S) (w : world) :
  let w' := snd (bind (Reserv.test_single_embedding cfg model text)
                   (fun metrics =>
                      bind (if pause then async_sleep interval else ret tt)
                        (fun _ => ret (k metrics))) w) in
  net w' = net w
  /\ (sent w <= sent w')%nat
  /\ (sent w' <= sent w + Z.to_nat (Reserv.max_retries cfg))%nat
  /\ exists evs, log w' = log w ++ evs.
Proof.
  cbv zeta. pose proof (async_probe_world cfg model text w) as W.
  destruct (get_embedding_log cfg model text (Reserv.max_retries cfg) w)
    as [out [w1 [E [N [Lo [Hi [_ [evs [L _]]]]]]]]].
  rewrite E in W. cbn [snd] in W.
  destruct (Reserv.test_single_embedding cfg model text w) as [[m|e] w2] eqn:T;
    cbn [snd] in W; subst w2.
  - rewrite (bind_ok T).
    destruct pause; unfold bind, async_sleep, ret;
      cbn [snd net sent log advance Nat.add].
    + split; [exact N |]. split; [lia |]. split; [lia |].
      exists (evs ++ [Sleep interval]).
      rewrite L, <- app_assoc. reflexivity.
    + split; [exact N |]. split; [lia |]. split; [lia |].
      exists evs. exact L.
  - rewrite (bind_raise T). cbn [snd].
    split; [exact N |]. split; [lia |]. split; [lia |].
    exists evs. exact L.
Qed.


(** ** When the asynchronous runner returns *)

Lemma embeddings_have_length_net (w w' : world) :
  net w' = net w ->
  Spec.embeddings_have_length w -> Spec.embeddings_have_length w'.
Proof. unfold Spec.embeddings_have_length. intros ->. trivial. Qed.

(** A loop whose body returns in every world with the property [P], and
    keeps it, returns. *)
Lemma for_each_returns {A S} (P : world -> Prop) (body : S -> A -> M S) :
  (forall s x w, P w -> exists s' w', body s x w = (Ok s', w') /\ P w') ->
  forall l s w, P w -> exists s' w', for_each l body s w = (Ok s', w') /\ P w'.
Proof.
  intros Hbody. induction l as [|x l IH]; intros s w Hw; cbn [for_each].
  - exists s, w. split; [reflexivity | exact Hw].
  - destruct (Hbody s x w Hw) as [s1 [w1 [E Hw1]]].
    rewrite (bind_ok E). apply IH. exact Hw1.
Qed.

Lemma timed_tests_returns cfg model (w : world) :
  Spec.embeddings_have_length w ->
  exists metrics_list w', Reserv.timed_tests cfg model w = (Ok metrics_list, w').
Proof.
  intros WT. unfold Reserv.timed_tests.
  destruct (for_each_returns Spec.embeddings_have_length
              (fun metrics_list i =>
                 bind (Reserv.test_single_embedding cfg model
                         (nth (Z.to_nat (i mod Z.of_nat (List.length Reserv.TEST_TEXTS)))
                              Reserv.TEST_TEXTS ""%string))
                   (fun metrics =>
                      bind (if (i <? Reserv.tests_per_model cfg - 1)%Z
                            then async_sleep (inject_Z (Reserv.interval_between_tests cfg))
                            else ret tt)
                        (fun _ => ret (metrics_list ++ [metrics])%list))))
      with (l := Py.range (Reserv.tests_per_model cfg))
           (s := @nil Reserv.EmbeddingMetrics) (w := w)
      as [ml [w' [E _]]]; [| exact WT | eauto].
  intros s i w0 WT0.
  destruct (async_probe_never_raises cfg model
              (nth (Z.to_nat (i mod Z.of_nat (List.length Reserv.TEST_TEXTS)))
                   Reserv.TEST_TEXTS ""%string) w0 WT0) as [m [w1 T]].
  destruct (sample_world cfg model
              (nth (Z.to_nat (i mod Z.of_nat (List.length Reserv.TEST_TEXTS)))
                   Reserv.TEST_TEXTS ""%string)
              (i <? Reserv.tests_per_model cfg - 1)%Z
              (inject_Z (Reserv.interval_between_tests cfg))
              (fun metrics => (s ++ [metrics])%list) w0) as [N _].
  rewrite (bind_ok T) in N |- *.
  destruct (i <? Reserv.tests_per_model cfg - 1)%Z;
    unfold bind, async_sleep, ret in N |- *; cbn [snd] in N;
    eexists; eexists; (split; [reflexivity |]);
    eapply embeddings_have_length_net; eassumption.
Qed.

End Warmup.

(* ================================================================== *)
(** * The synchronous runner has no warm-up *)
(* ================================================================== *)

Section FirstSample.
Import World.
Variable stdev : list Q -> Q.



Lemma base_result_keeps_measurements cfg model num_tests (w : world) r :
  fst (Base.test_model stdev cfg model num_tests w) = Ok r ->
  exists w1,
    Base.timed_tests cfg model (Base.effective_num_tests cfg num_tests) w
    = (Ok (Base.individual_results r), w1).
Proof.
  intros H. apply base_test_model_shape in H.
  destruct H as [results [w1 [L [[F ->] | [NE [info ->]]]]]];
    exists w1; exact L.
Qed.

End FirstSample.




Example warmup_of_two_probes :
  World.log (snd (Reserv.warmup (Scenario.short_run 1) "all-minilm:l6-v2"
                    Scenario.healthy))
  = [Spec.embedding_request (Scenario.short_run 1) "all-minilm:l6-v2"
       (nth 0 Reserv.TEST_TEXTS ""%string);
     World.Sleep 1;
     Spec.embedding_request (Scenario.short_run 1) "all-minilm:l6-v2"
       (nth 0 Reserv.TEST_TEXTS ""%string);
     World.Sleep 1].
Proof. vm_compute. reflexivity. Qed.

(* ================================================================== *)
(** * One result per configured model *)
(* ================================================================== *)

(** C3.  When the liveness check passes, [run_tests] returns a report,
    whatever the runner bound to [test_model] does.  Its results are what
    the loop files from the world the check left: the runner is called for
    each configured model in the configured order, each call in the world
    the one before it left; what the runner returns is filed, and when it
    raises [e] the loop files for that model a result with status ERROR,
    zero successes and [str(e)] as error, and goes on to the models that
    follow; so there is exactly one result per configured model.  With the
    testers' own [test_model] as runner, the names of the results are the
    configured models in the configured order.  Both testers. *)
Theorem orchestrator_files_one_result_per_model :
  (forall (runner : string -> World.M Base.ModelTestResult) cfg models w,
     fst (Base.health_check cfg w) = World.Ok true ->
     exists report w',
       Base.run_tests_with runner cfg models w = (World.Ok report, w')
       /\ Spec.filed_in_order runner (Base.error_result cfg)
            (Spec.base_models cfg models) (snd (Base.health_check cfg w))
            (Base.results report) w'
       /\ List.length (Base.results report) =
          List.length (Spec.base_models cfg models))
  /\
  (forall (stdev : list Q -> Q) cfg models w,
     fst (Base.health_check cfg w) = World.Ok true ->
     exists report w',
       Base.run_tests stdev cfg models w = (World.Ok report, w')
       /\ Spec.filed_in_order (fun model => Base.test_model stdev cfg model None)
            (Base.error_result cfg)
            (Spec.base_models cfg models) (snd (Base.health_check cfg w))
            (Base.results report) w'
       /\ map Base.mr_model (Base.results report) = Spec.base_models cfg models)
  /\
  (forall cfg model e, Spec.base_errored model e (Base.error_result cfg model e))
  /\
  (forall (runner : string -> World.M Reserv.ModelTestResult) cfg w ds,
     fst (Reserv.docker_check cfg w) = World.Ok ds ->
     fst (Reserv.health_check cfg w) = World.Ok true ->
     exists report w',
       Reserv.run_tests_with runner cfg w = (World.Ok report, w')
       /\ Spec.filed_in_order runner (Reserv.error_result cfg)
            (Spec.reserv_models cfg) (snd (Reserv.health_check cfg w))
            (Reserv.results report) w'
       /\ List.length (Reserv.results report) =
          List.length (Spec.reserv_models cfg))
  /\
  (forall (stdev : list Q -> Q) cfg w ds,
     fst (Reserv.docker_check cfg w) = World.Ok ds ->
     fst (Reserv.health_check cfg w) = World.Ok true ->
     exists report w',
       Reserv.run_tests stdev cfg w = (World.Ok report, w')
       /\ Spec.filed_in_order (Reserv.test_model stdev cfg)
            (Reserv.error_result cfg)
            (Spec.reserv_models cfg) (snd (Reserv.health_check cfg w))
            (Reserv.results report) w'
       /\ map Reserv.model_name (Reserv.results report) = Spec.reserv_models cfg)
  /\
  (forall cfg model e,
     Spec.reserv_errored model e (Reserv.error_result cfg model e)).
Proof.
  split; [| split; [| split; [| split; [| split]]]].
  - intros runner cfg models w H.
    destruct (base_run_when_healthy runner cfg models w H) as [rp [w' [E F]]].
    exists rp, w'. split; [exact E |]. split; [exact F |].
    eapply filed_length. exact F.
  - intros stdev cfg models w H. unfold Base.run_tests.
    destruct (base_run_when_healthy
                (fun model => Base.test_model stdev cfg model None)
                cfg models w H) as [rp [w' [E F]]].
    exists rp, w'. split; [exact E |]. split; [exact F |].
    eapply (filed_names _ _ Base.mr_model); [exact F | |].
    + intros m w1 r. apply base_test_model_name.
    + reflexivity.
  - intros cfg model e. repeat split.
  - intros runner cfg w ds D H.
    destruct (reserv_run_when_healthy runner cfg w ds D H) as [rp [w' [E F]]].
    exists rp, w'. split; [exact E |]. split; [exact F |].
    eapply filed_length. exact F.
  - intros stdev cfg w ds D H. unfold Reserv.run_tests.
    destruct (reserv_run_when_healthy (Reserv.test_model stdev cfg)
                cfg w ds D H) as [rp [w' [E F]]].
    exists rp, w'. split; [exact E |]. split; [exact F |].
    eapply (filed_names _ _ Reserv.model_name); [exact F | |].
    + intros m w1 r. apply reserv_test_model_name.
    + reflexivity.
  - intros cfg model e. repeat split.
Qed.

(** The service answers the liveness check, is down while the first model
    is tested and up for the second: the runner raises for the first model,
    which gets its ERROR result, and the second model is tested all the
    same. *)
Lemma orchestrator_files_one_result_per_model_witness :
  exists report w',
    Base.run_tests Scenario.stdev_stand_in Base.default_config
      Scenario.two_models Scenario.down_for_the_first_model
    = (World.Ok report, w')
    /\ Spec.filed_in_order
         (fun model => Base.test_model Scenario.stdev_stand_in
                         Base.default_config model None)
         (Base.error_result Base.default_config)
         (Spec.base_models Base.default_config Scenario.two_models)
         (snd (Base.health_check Base.default_config
                 Scenario.down_for_the_first_model))
         (Base.results report) w'
    /\ map (fun r => (Base.mr_model r, Base.status r, Base.successful_tests r))
           (Base.results report)
       = [("a"%string, "ERROR"%string, 0%Z); ("b"%string, "SUCCESS"%string, 5%Z)].
Proof.
  destruct (proj1 (proj2 orchestrator_files_one_result_per_model)
              Scenario.stdev_stand_in Base.default_config Scenario.two_models
              Scenario.down_for_the_first_model)
    as [report [w' [E [F _]]]].
  - vm_compute. reflexivity.
  - exists report, w'. split; [exact E |]. split; [exact F |].
    assert (R : fst (Base.run_tests Scenario.stdev_stand_in Base.default_config
                       Scenario.two_models Scenario.down_for_the_first_model)
                = World.Ok report) by (rewrite E; reflexivity).
    clear E F. vm_compute in R. injection R as <-. reflexivity.
Defined.

(** With the service down after the liveness check, each of the two models
    gets its ERROR result, with the message of the exception. *)
Example both_models_errored :
  option_map
    (fun report => map (fun r => (Base.mr_model r, Base.status r,
                                  Base.successful_tests r, Base.mr_error r))
                       (Base.results report))
    (match fst (Base.run_tests Scenario.stdev_stand_in Base.default_config
                  Scenario.two_models Scenario.up_then_down) with
     | World.Ok report => Some report
     | World.Raise _ => None
     end)
  = Some [("a"%string, "ERROR"%string, 0%Z,
           Some "Failed to connect to Ollama: RetryError[<Future at 0x7f3a5c1d2e90 state=finished raised ConnectionError>]"%string);
          ("b"%string, "ERROR"%string, 0%Z,
           Some "Failed to connect to Ollama: RetryError[<Future at 0x7f3a5c1d2e90 state=finished raised ConnectionError>]"%string)].
Proof. vm_compute. reflexivity. Qed.

(** Scenario D of the design: the faster model Y is ranked first. *)
Example scenario_D_ranking :
  map (fun e => (Base.rank e, Base.re_model e))
      (Base.ranking_by_speed (Base._create_summary Scenario.scenario_D))
  = [(1%Z, "Y"%string); (2%Z, "X"%string)].
Proof. reflexivity. Qed.

Lemma ranking_by_speed_is_stable_sort_by_key_witness :
  StronglySorted Spec.mean_le
    (map Base.re_avg_duration
       (Base.ranking_by_speed (Base._create_summary Scenario.scenario_D))).
Proof.
  apply (proj2 (proj2 (proj2 (proj2
           (proj1 ranking_by_speed_is_stable_sort_by_key Scenario.scenario_D))))).
  repeat constructor; eexists; (split; [reflexivity |]);
    intros E; vm_compute in E; discriminate.
Defined.

(* ================================================================== *)
(** * An empty vector in the asynchronous tester *)
(* ================================================================== *)

(** C9.  Asynchronous tester.  Whenever the last request of a probe is
    answered HTTP 200 with a JSON object whose embedding Python counts as
    false (an empty vector, no member at all, [null]), at the first attempt
    or after failed ones, the measurement of the probe has
    [success = False] and no error message. *)
Theorem empty_vector_fails_without_reason :
  forall cfg model text w m latency r members,
    let w' := snd (Reserv.test_single_embedding cfg model text w) in
    fst (Reserv.test_single_embedding cfg model text w) = World.Ok m ->
    World.sent w' <> World.sent w ->
    World.net w (pred (World.sent w')) = (latency, World.Answers r) ->
    World.status_code r = 200%Z ->
    World.parsed r = Some (World.JObject members) ->
    World.truthy (World.member "embedding" members (World.JArray [])) = false ->
    Reserv.success m = false /\ Reserv.error_message m = None.
Proof.
  intros cfg model text w m latency r members. cbv zeta.
  rewrite async_probe_world.
  destruct (get_embedding_spec cfg model text (Reserv.max_retries cfg) w)
    as [d0 [w0 [E0 [_ [_ [Hs _]]]]]].
  destruct (async_probe_cases cfg model text w)
    as [v [d [err [w1 [E Cases]]]]].
  rewrite E0 in E. injection E as Hv _ He Hw. subst w1.
  rewrite E0. cbn [snd]. intros Hm Hne Hnet H200 Hp Hempty.
  destruct (Spec.attempts_made cfg (World.net w) (World.sent w)
              (Z.to_nat (Reserv.max_retries cfg))) as [|n'] eqn:En; [lia |].
  replace (pred (World.sent w0)) with (World.sent w + n')%nat in Hnet by lia.
  assert (V : v = World.member "embedding" members (World.JArray [])).
  { rewrite <- Hv. unfold Spec.attempt_value. rewrite Hnet. cbn [snd].
    rewrite H200, Hp. reflexivity. }
  assert (Er : err = None).
  { rewrite <- He. unfold Spec.attempt_error. rewrite Hnet. cbn [snd].
    rewrite H200, Hp. reflexivity. }
  rewrite <- V in Hempty.
  destruct Cases as [[_ R] | [[T _] | [T _]]]; try congruence.
  rewrite R in Hm. injection Hm as <-. split; [reflexivity | exact Er].
Qed.

Lemma empty_vector_fails_without_reason_witness :
  exists m,
    fst (Reserv.test_single_embedding Reserv.default_config "all-minilm:l6-v2"
           "hello" Scenario.empty_on_second_attempt) = World.Ok m
    /\ Reserv.success m = false
    /\ Reserv.error_message m = None.
Proof.
  eexists. split; [vm_compute; reflexivity |].
  apply (empty_vector_fails_without_reason Reserv.default_config
           "all-minilm:l6-v2" "hello" Scenario.empty_on_second_attempt
           _ (1 # 2)
           (World.mkResponse 200 "{}" (Some (Scenario.body (Some []))) "")
           [("embedding"%string, World.JArray [])]).
  - vm_compute. reflexivity.
  - vm_compute. discriminate.
  - vm_compute. reflexivity.
  - reflexivity.
  - reflexivity.
  - reflexivity.
Defined.

(* ================================================================== *)
(** * The summary: ranking by dimensionality, counts *)
(* ================================================================== *)

Section RankingBy.
Context {R E Row K : Type}.
Variables (lt : K -> K -> bool) (key : R -> K).
Variables (make_entry : Z -> R -> E) (start : Z).
Variables (row : E -> Row) (row_of : R -> Row) (row_key : Row -> K).
Variables (entry_key : E -> K) (rank : E -> Z).

Hypothesis lt_not_trans :
  forall a b c, lt b a = false -> lt c b = false -> lt c a = false.
Hypothesis lt_asymmetric : forall a b, lt a b = true -> lt b a = false.
Hypothesis row_entry : forall i r, row (make_entry i r) = row_of r.
Hypothesis row_key_of : forall r, row_key (row_of r) = key r.
Hypothesis entry_key_row : forall e, entry_key e = row_key (row e).
Hypothesis rank_entry : forall i r, rank (make_entry i r) = (i + (1 - start))%Z.

Let ranked (l : list R) : list E :=
  map (fun ir => make_entry (fst ir) (snd ir))
      (Py.enumerate start (Py.sorted lt key l)).

Lemma ranked_rows (l : list R) :
  map row (ranked l) = map row_of (Py.sorted lt key l).
Proof.
  unfold ranked. rewrite map_map.
  rewrite <- (enumerate_snd start (Py.sorted lt key l)) at 2.
  rewrite map_map. apply map_ext. intros [i r]. apply row_entry.
Qed.

Lemma ranked_perm (l : list R) :
  Permutation (map row (ranked l)) (map row_of l).
Proof. rewrite ranked_rows. apply Permutation_map, sorted_perm. Qed.

Lemma ranked_sorted (l : list R) :
  StronglySorted (fun a b => lt b a = false) (map entry_key (ranked l)).
Proof.
  assert (Hk : map entry_key (ranked l) = map key (Py.sorted lt key l)).
  { transitivity (map row_key (map row (ranked l))).
    - rewrite map_map. apply map_ext. intros e. apply entry_key_row.
    - rewrite ranked_rows, map_map. apply map_ext. intros r. apply row_key_of. }
  rewrite Hk. apply StronglySorted_map.
  apply (sorted_sorted lt key lt_not_trans lt_asymmetric).
Qed.

Lemma ranked_stable (k : K) (l : list R) :
  filter (fun x => Spec.ties lt k (row_key x)) (map row (ranked l)) =
  filter (fun x => Spec.ties lt k (row_key x)) (map row_of l).
Proof.
  rewrite ranked_rows, !filter_map_comm. f_equal.
  rewrite !(filter_ext (fun a => Spec.ties lt k (row_key (row_of a)))
              (fun a => Spec.ties lt k (key a)))
    by (intros a; now rewrite row_key_of).
  apply (sorted_stable lt key lt_not_trans).
Qed.

Lemma ranked_ranks (l : list R) :
  map rank (ranked l) = Spec.ranks_upto (List.length l).
Proof.
  unfold ranked. rewrite map_map.
  transitivity (map (fun i => (i + (1 - start))%Z)
                  (map fst (Py.enumerate start (Py.sorted lt key l)))).
  - rewrite map_map. apply map_ext. intros [i r]. apply rank_entry.
  - rewrite enumerate_fst, map_map.
    rewrite (Permutation_length (sorted_perm lt key l)).
    rewrite <- ranks_upto_spec. apply map_ext. intros i. lia.
Qed.

Lemma ranked_length (l : list R) : List.length (ranked l) = List.length l.
Proof.
  rewrite <- (length_map rank), ranked_ranks.
  unfold Spec.ranks_upto. now rewrite length_map, length_seq.
Qed.
End RankingBy.

Lemma Qgtb_not_trans (a b c : Q) :
  Py.Qltb a b = false -> Py.Qltb b c = false -> Py.Qltb a c = false.
Proof. rewrite !Qltb_false_iff. intros. eapply Qle_trans; eassumption. Qed.

Lemma Qgtb_asym (a b : Q) : Py.Qltb b a = true -> Py.Qltb a b = false.
Proof. rewrite Qltb_true_iff, Qltb_false_iff. apply Qlt_le_weak. Qed.

Lemma Zgtb_not_trans (a b c : Z) :
  (a <? b)%Z = false -> (b <? c)%Z = false -> (a <? c)%Z = false.
Proof. rewrite !Z.ltb_ge. lia. Qed.

Lemma Zgtb_asym (a b : Z) : (b <? a)%Z = true -> (a <? b)%Z = false.
Proof. rewrite Z.ltb_lt, Z.ltb_ge. lia. Qed.

Lemma ties_Qeq (k a : Q) :
  Spec.ties (fun x y => Py.Qltb y x) k a = Qeq_bool k a.
Proof.
  unfold Spec.ties. destruct (Qeq_bool k a) eqn:E.
  - apply Qeq_bool_iff in E. apply andb_true_intro. split; apply negb_true_iff;
      apply Qltb_false_iff; rewrite E; apply Qle_refl.
  - destruct (Py.Qltb a k) eqn:A; [reflexivity |].
    destruct (Py.Qltb k a) eqn:B; [reflexivity |]. exfalso.
    apply Qltb_false_iff in A, B.
    assert (k == a) by (apply Qle_antisym; assumption).
    apply Qeq_bool_iff in H. congruence.
Qed.

Lemma ties_Zeq (k a : Z) :
  Spec.ties (fun x y => (y <? x)%Z) k a = (k =? a)%Z.
Proof.
  unfold Spec.ties.
  destruct (Z.ltb_spec a k), (Z.ltb_spec k a), (Z.eqb_spec k a);
    try reflexivity; lia.
Qed.

Lemma base_quality_ranking (results : list Base.ModelTestResult) :
  Base.ranking_by_quality (Base._create_summary results) =
  map (fun ir => Base.make_entry (fst ir) (snd ir))
      (Py.enumerate 1 (Py.sorted (fun a b => Py.Qltb b a) Base.quality_key
                         (filter Base.is_success results))).
Proof.
  unfold Base._create_summary. simpl.
  destruct (filter Base.is_success results); reflexivity.
Qed.

Lemma StronglySorted_impl {A} (R R' : A -> A -> Prop) (l : list A) :
  (forall a b, R a b -> R' a b) -> StronglySorted R l -> StronglySorted R' l.
Proof. intros H. apply StronglySorted_impl_in. intros a b _ _. apply H. Qed.

Lemma option_map_None {A B} (f : A -> B) (o : option A) :
  option_map f o = None <-> o = None.
Proof. destruct o; simpl; split; congruence. Qed.

Lemma hd_error_ranked {R E} (make_entry : Z -> R -> E) (start : Z) (l : list R) :
  hd_error (map (fun ir => make_entry (fst ir) (snd ir)) (Py.enumerate start l))
  = option_map (make_entry start) (hd_error l).
Proof. destruct l; reflexivity. Qed.

(** X1.  In both testers the ranking by dimensionality holds exactly the
    results with status SUCCESS, each once; it is sorted non-increasing by
    the key [avg_embedding_dim or 0]; results with equal keys keep the order
    of the input ([reverse=True] keeps the sort stable); the ranks are
    1, 2, ..., n. *)
Theorem ranking_by_quality_is_stable_descending_sort :
  (forall results : list Base.ModelTestResult,
     let ranking := Base.ranking_by_quality (Base._create_summary results) in
     let succeeded := filter Base.is_success results in
     Permutation (map Spec.base_row ranking) (map Spec.base_row_of succeeded)
     /\ StronglySorted (fun a b => b <= a)
          (map (fun e => Spec.dim_or_zero (Base.re_embedding_dim e)) ranking)
     /\ (forall k,
           filter (fun x => Qeq_bool k (Spec.dim_or_zero (snd (fst x))))
                  (map Spec.base_row ranking) =
           filter (fun x => Qeq_bool k (Spec.dim_or_zero (snd (fst x))))
                  (map Spec.base_row_of succeeded))
     /\ map Base.rank ranking = Spec.ranks_upto (List.length succeeded))
  /\
  (forall results : list Reserv.ModelTestResult,
     let ranking := Reserv.ranking_by_quality (Reserv._create_summary results) in
     let succeeded := filter Reserv.is_success results in
     Permutation (map Spec.reserv_row ranking) (map Spec.reserv_row_of succeeded)
     /\ StronglySorted (fun a b => (b <= a)%Z)
          (map (fun e => Spec.int_dim_or_zero (Reserv.re_embedding_dim e)) ranking)
     /\ (forall k,
           filter (fun x => (k =? Spec.int_dim_or_zero (snd x))%Z)
                  (map Spec.reserv_row ranking) =
           filter (fun x => (k =? Spec.int_dim_or_zero (snd x))%Z)
                  (map Spec.reserv_row_of succeeded))
     /\ map Reserv.rank ranking = Spec.ranks_upto (List.length succeeded)).
Proof.
  split; intros results ranking succeeded; subst ranking succeeded.
  - rewrite base_quality_ranking.
    set (succeeded := filter Base.is_success results).
    split; [| split; [| split]].
    + apply (ranked_perm (fun a b => Py.Qltb b a) Base.quality_key
               Base.make_entry 1 Spec.base_row Spec.base_row_of); reflexivity.
    + eapply StronglySorted_impl;
        [| apply (ranked_sorted (fun a b => Py.Qltb b a) Base.quality_key
                    Base.make_entry 1 Spec.base_row Spec.base_row_of
                    (fun x => Spec.dim_or_zero (snd (fst x)))
                    (fun e => Spec.dim_or_zero (Base.re_embedding_dim e)));
           try reflexivity ].
      * intros a b H. cbv beta in H. apply Qltb_false_iff. exact H.
      * intros a b c. apply Qgtb_not_trans.
      * intros a b. apply Qgtb_asym.
    + intros k.
      rewrite !(filter_ext (fun x => Qeq_bool k (Spec.dim_or_zero (snd (fst x))))
                  (fun x => Spec.ties (fun a b => Py.Qltb b a) k
                              (Spec.dim_or_zero (snd (fst x)))))
        by (intros x; now rewrite ties_Qeq).
      apply (ranked_stable (fun a b => Py.Qltb b a) Base.quality_key
               Base.make_entry 1 Spec.base_row Spec.base_row_of
               (fun x => Spec.dim_or_zero (snd (fst x)))); try reflexivity.
      intros a b c. apply Qgtb_not_trans.
    + apply (ranked_ranks (fun a b => Py.Qltb b a) Base.quality_key
               Base.make_entry 1). intros i r. simpl. lia.
  - unfold Reserv._create_summary. cbn [Reserv.ranking_by_quality].
    unfold Py.sorted_reverse.
    set (succeeded := filter Reserv.is_success results).
    split; [| split; [| split]].
    + apply (ranked_perm (fun a b => (b <? a)%Z) Reserv.quality_key
               Reserv.make_entry 0 Spec.reserv_row Spec.reserv_row_of); reflexivity.
    + eapply StronglySorted_impl;
        [| apply (ranked_sorted (fun a b => (b <? a)%Z) Reserv.quality_key
                    Reserv.make_entry 0 Spec.reserv_row Spec.reserv_row_of
                    (fun x => Spec.int_dim_or_zero (snd x))
                    (fun e => Spec.int_dim_or_zero (Reserv.re_embedding_dim e)));
           try reflexivity ].
      * intros a b H. cbv beta in H. apply Z.ltb_ge. exact H.
      * intros a b c. apply Zgtb_not_trans.
      * intros a b. apply Zgtb_asym.
    + intros k.
      rewrite !(filter_ext (fun x => (k =? Spec.int_dim_or_zero (snd x))%Z)
                  (fun x => Spec.ties (fun a b => (b <? a)%Z) k
                              (Spec.int_dim_or_zero (snd x))))
        by (intros x; now rewrite ties_Zeq).
      apply (ranked_stable (fun a b => (b <? a)%Z) Reserv.quality_key
               Reserv.make_entry 0 Spec.reserv_row Spec.reserv_row_of
               (fun x => Spec.int_dim_or_zero (snd x))); try reflexivity.
      intros a b c. apply Zgtb_not_trans.
    + apply (ranked_ranks (fun a b => (b <? a)%Z) Reserv.quality_key
               Reserv.make_entry 0). intros i r. simpl. lia.
Qed.

(** X2.  The counts of a summary agree with its lists: the successful and
    the failed models add up to all the models, neither count is negative,
    and each ranking has one row per successful model.  In the asynchronous
    tester [fastest_model] and [highest_quality_model] are the models of the
    first row of the two rankings, and are absent exactly when no model
    succeeded. *)
Theorem summary_counts_agree_with_rankings :
  (forall results : list Base.ModelTestResult,
     let s := Base._create_summary results in
     Base.total_models s = Z.of_nat (List.length results)
     /\ (Base.successful_models s + Base.failed_models s)%Z = Base.total_models s
     /\ (0 <= Base.successful_models s)%Z /\ (0 <= Base.failed_models s)%Z
     /\ Z.of_nat (List.length (Base.ranking_by_speed s)) = Base.successful_models s
     /\ Z.of_nat (List.length (Base.ranking_by_quality s)) = Base.successful_models s)
  /\
  (forall results : list Reserv.ModelTestResult,
     let s := Reserv._create_summary results in
     Reserv.total_models s = Z.of_nat (List.length results)
     /\ (Reserv.successful_models s + Reserv.failed_models s)%Z
        = Reserv.total_models s
     /\ (0 <= Reserv.successful_models s)%Z /\ (0 <= Reserv.failed_models s)%Z
     /\ Z.of_nat (List.length (Reserv.ranking_by_speed s))
        = Reserv.successful_models s
     /\ Z.of_nat (List.length (Reserv.ranking_by_quality s))
        = Reserv.successful_models s
     /\ Reserv.fastest_model s
        = option_map Reserv.re_model (hd_error (Reserv.ranking_by_speed s))
     /\ Reserv.highest_quality_model s
        = option_map Reserv.re_model (hd_error (Reserv.ranking_by_quality s))
     /\ (Reserv.fastest_model s = None <-> Reserv.successful_models s = 0%Z)
     /\ (Reserv.highest_quality_model s = None
         <-> Reserv.successful_models s = 0%Z)).
Proof.
  split; intros results s.
  - assert (Ls : List.length (Base.ranking_by_speed s)
                 = List.length (filter Base.is_success results)).
    { subst s. rewrite base_speed_ranking, length_map.
      rewrite <- (length_map fst), enumerate_fst, length_map, length_seq.
      apply Permutation_length, sorted_perm. }
    assert (Lq : List.length (Base.ranking_by_quality s)
                 = List.length (filter Base.is_success results)).
    { subst s. rewrite base_quality_ranking, length_map.
      rewrite <- (length_map fst), enumerate_fst, length_map, length_seq.
      apply Permutation_length, sorted_perm. }
    rewrite Ls, Lq. subst s. unfold Base._create_summary.
    cbn [Base.total_models Base.successful_models Base.failed_models].
    pose proof (filter_length_le Base.is_success results).
    repeat split; lia.
  - assert (Len : forall (lt : Z -> Z -> bool) (key : Reserv.ModelTestResult -> Z) l,
               List.length (map (fun ir => Reserv.make_entry (fst ir) (snd ir))
                              (Py.enumerate 0 (Py.sorted lt key l)))
               = List.length l).
    { intros lt key l. rewrite length_map.
      rewrite <- (length_map fst), enumerate_fst, length_map, length_seq.
      apply Permutation_length, sorted_perm. }
    assert (LenS : forall l,
               List.length (map (fun ir => Reserv.make_entry (fst ir) (snd ir))
                              (Py.enumerate 0
                                 (Py.sorted Py.ext_ltb Reserv.speed_key l)))
               = List.length l).
    { intros l. rewrite length_map.
      rewrite <- (length_map fst), enumerate_fst, length_map, length_seq.
      apply Permutation_length, sorted_perm. }
    subst s. unfold Reserv._create_summary.
    cbn [Reserv.total_models Reserv.successful_models Reserv.failed_models
         Reserv.ranking_by_speed Reserv.ranking_by_quality
         Reserv.fastest_model Reserv.highest_quality_model].
    unfold Py.sorted_reverse. rewrite LenS, Len, !hd_error_ranked.
    pose proof (filter_split_length Reserv.is_success results) as Split.
    set (succeeded := filter Reserv.is_success results) in *.
    assert (Hs : forall (lt : Z -> Z -> bool) key,
               hd_error (Py.sorted lt key succeeded) = None
               <-> List.length succeeded = O).
    { intros lt key.
      pose proof (Permutation_length (sorted_perm lt key succeeded)) as P.
      destruct (Py.sorted lt key succeeded); simpl in *; split; intros; try lia;
        try reflexivity; discriminate. }
    assert (Hs' : hd_error (Py.sorted Py.ext_ltb Reserv.speed_key succeeded) = None
                  <-> List.length succeeded = O).
    { pose proof (Permutation_length
                    (sorted_perm Py.ext_ltb Reserv.speed_key succeeded)) as P.
      destruct (Py.sorted Py.ext_ltb Reserv.speed_key succeeded); simpl in *;
        split; intros; try lia; try reflexivity; discriminate. }
    split; [reflexivity |]. split; [lia |]. split; [lia |]. split; [lia |].
    split; [reflexivity |]. split; [reflexivity |].
    split; [destruct (hd_error (Py.sorted Py.ext_ltb Reserv.speed_key succeeded));
            reflexivity |].
    split; [destruct (hd_error (Py.sorted (fun a b => (b <? a)%Z)
                                  Reserv.quality_key succeeded)); reflexivity |].
    split.
    + rewrite option_map_None, Hs'. lia.
    + rewrite option_map_None, Hs. lia.
Qed.


(* ================================================================== *)
(** * The Docker checks of the asynchronous tester *)
(* ================================================================== *)

(** X6.  Asynchronous tester.  With [check_docker] set, [run_tests] raises
    the [RuntimeError] "Docker is not installed" when Docker is missing, and
    "Ollama container 'ollama' is not running" when Docker is there and the
    container is not; in both cases before the liveness probe: nothing is
    sent and the world is left as it was, whatever the runner.  The first
    check wins when both fail. *)
Theorem docker_checks_precede_the_liveness_probe :
  forall (runner : string -> World.M Reserv.ModelTestResult) cfg w,
    Reserv.check_docker cfg = true ->
    (World.docker_installed w = false ->
     Reserv.run_tests_with runner cfg w
     = (World.Raise (World.mkExn World.RuntimeError "Docker is not installed"), w))
    /\ (World.docker_installed w = true ->
        World.container_running w = false ->
        Reserv.run_tests_with runner cfg w
        = (World.Raise (World.mkExn World.RuntimeError
                          "Ollama container 'ollama' is not running"), w)).
Proof.
  intros runner cfg w C. unfold Reserv.run_tests_with, Reserv.docker_check.
  rewrite C. unfold Reserv.get_docker_status, World.bind, World.perf_counter.
  cbn [Reserv.ds_docker_installed Reserv.ds_container_running].
  split.
  - intros ->. reflexivity.
  - intros -> ->. reflexivity.
Qed.

Lemma docker_checks_precede_the_liveness_probe_witness :
  Reserv.run_tests_with (Reserv.test_model Scenario.stdev_stand_in
                           Reserv.default_config)
    Reserv.default_config Scenario.without_docker
  = (World.Raise (World.mkExn World.RuntimeError "Docker is not installed"),
     Scenario.without_docker)
  /\ Reserv.run_tests_with (Reserv.test_model Scenario.stdev_stand_in
                              Reserv.default_config)
       Reserv.default_config Scenario.container_stopped
     = (World.Raise (World.mkExn World.RuntimeError
                       "Ollama container 'ollama' is not running"),
        Scenario.container_stopped).
Proof.
  split.
  - apply (proj1 (docker_checks_precede_the_liveness_probe _
                    Reserv.default_config Scenario.without_docker eq_refl)).
    reflexivity.
  - apply (proj2 (docker_checks_precede_the_liveness_probe _
                    Reserv.default_config Scenario.container_stopped eq_refl));
      reflexivity.
Defined.


(* ================================================================== *)
(** * Status and measurements of the results of the runners *)
(* ================================================================== *)

Section Statuses.
Import World.
Variable stdev : list Q -> Q.

Lemma truthy_messages_not_empty (l : list Reserv.EmbeddingMetrics) :
  Forall (fun message => message <> ""%string) (Reserv.truthy_messages l).
Proof.
  induction l as [|m l IH]; simpl; [constructor |].
  destruct (Reserv.error_message m) as [[|c message]|]; simpl; try exact IH.
  constructor; [discriminate | exact IH].
Qed.

Lemma join_not_empty (sep x : string) (rest : list string) :
  x <> ""%string -> Py.join sep (x :: rest) <> ""%string.
Proof.
  intros Hx. simpl. destruct rest as [|y rest]; [exact Hx |].
  destruct x as [|c x]; [congruence | discriminate].
Qed.

Lemma aggregate_status model (metrics_list : list Reserv.EmbeddingMetrics) :
  Spec.reserv_status_ok (Reserv.aggregate stdev model metrics_list).
Proof.
  unfold Reserv.aggregate.
  destruct (filter Reserv.success metrics_list) as [|x xs].
  - right. cbn [Reserv.status Reserv.successful_tests Reserv.error_summary].
    split; [reflexivity |]. split; [reflexivity |].
    pose proof (truthy_messages_not_empty
                  (filter (fun m => negb (Reserv.success m)) metrics_list)) as NE.
    destruct (Reserv.truthy_messages
                (filter (fun m => negb (Reserv.success m)) metrics_list))
      as [|message rest].
    + eexists. split; [reflexivity | discriminate].
    + eexists. split; [reflexivity |].
      cbn [Py.distinct]. apply join_not_empty.
      inversion NE. assumption.
  - left. cbn [Reserv.status Reserv.successful_tests Reserv.error_summary
               List.length].
    split; [reflexivity |]. split; [lia | reflexivity].
Qed.

Lemma base_test_model_status cfg model num_tests (w : world) r :
  fst (Base.test_model stdev cfg model num_tests w) = Ok r ->
  Spec.base_status_ok r.
Proof.
  intros H. apply base_test_model_shape in H.
  destruct H as [results [w1 [_ [[F ->] | [NE [info ->]]]]]].
  - right. repeat split.
  - left. unfold Base.success_result.
    cbn [Base.status Base.successful_tests Base.mr_error].
    split; [reflexivity |]. split; [| reflexivity].
    destruct (filter Base.success results); [congruence |].
    cbn [List.length]. lia.
Qed.

(** The measurements of the synchronous prober. *)
Lemma sync_probe_measurement cfg model text (w : world) m :
  fst (Base.test_single_embedding cfg model text w) = Ok m ->
  Spec.base_measurement_ok model m.
Proof.
  unfold Base.test_single_embedding. unfold bind at 1, perf_counter at 1.
  unfold try_except.
  match goal with
  | |- fst (match ?body with _ => _ end) = _ -> _ =>
      destruct body as [[m0|e] w1] eqn:E
  end.
  - cbn [fst]. intros H. injection H as <-.
    apply bind_ok_inv in E. destruct E as [response [w2 [_ E]]].
    apply bind_ok_inv in E. destruct E as [now [w3 [_ E]]].
    apply bind_ok_inv in E. destruct E as [embedding [w4 [_ E]]].
    apply bind_ok_inv in E. destruct E as [dim [w5 [D E]]].
    unfold ret in E. injection E as <- _.
    unfold Spec.base_measurement_ok.
    cbn [Base.model Base.success Base.error Base.text_length
         Base.embedding_dim Base.tokens_per_second].
    split; [reflexivity |]. split; [reflexivity |]. split; [discriminate |].
    eexists. eexists. split; [reflexivity |]. split.
    + destruct (truthy embedding).
      * unfold len in D. destruct (size embedding) as [n|] eqn:S;
          [| discriminate].
        unfold ret in D. injection D as <- _.
        eapply size_nonnegative. exact S.
      * unfold ret in D. injection D as <- _. lia.
    + split; [reflexivity |]. intros ->. reflexivity.
  - destruct (is_a RequestException e).
    + unfold bind, perf_counter, ret. cbn [fst]. intros H. injection H as <-.
      unfold Spec.base_measurement_ok, Base.failed_result.
      cbn [Base.model Base.success Base.error Base.text_length
           Base.embedding_dim Base.tokens_per_second].
      repeat split. discriminate.
    + destruct (is_a BuiltinTimeoutError e); [| discriminate].
      unfold bind, perf_counter, ret. cbn [fst]. intros H. injection H as <-.
      unfold Spec.base_measurement_ok, Base.failed_result.
      cbn [Base.model Base.success Base.error Base.text_length
           Base.embedding_dim Base.tokens_per_second].
      repeat split. discriminate.
Qed.

Lemma base_test_model_measurements cfg model num_tests (w : world) r :
  fst (Base.test_model stdev cfg model num_tests w) = Ok r ->
  Forall (Spec.base_measurement_ok model) (Base.individual_results r).
Proof.
  intros H.
  destruct (base_result_keeps_measurements stdev cfg model num_tests w r H)
    as [w1 L].
  eapply base_timed_tests_Forall; [| exact L].
  intros text w0 m. apply sync_probe_measurement.
Qed.

Lemma reserv_test_model_measurements cfg model (w : world) r :
  fst (Reserv.test_model stdev cfg model w) = Ok r ->
  Forall Spec.reserv_measurement_ok (Reserv.individual_metrics r).
Proof.
  intros H. apply reserv_test_model_shape in H.
  destruct H as [w1 [ml [w2 [_ [L ->]]]]].
  rewrite aggregate_keeps_measurements.
  eapply reserv_timed_tests_Forall; [| exact L].
  intros text w0 m. apply async_probe_measurement.
Qed.

Lemma reserv_test_model_returns cfg model (w : world) :
  Spec.embeddings_have_length w ->
  exists r w', Reserv.test_model stdev cfg model w = (Ok r, w').
Proof.
  intros WT.
  destruct (warmup_log cfg model w) as [w1 [warm [E [N _]]]].
  destruct (timed_tests_returns cfg model w1) as [ml [w2 T]].
  { eapply embeddings_have_length_net; eassumption. }
  unfold Reserv.test_model. rewrite (bind_ok E), (bind_ok T).
  eexists. eexists. reflexivity.
Qed.

(** What the asynchronous runner raises is the [TypeError] of [len]. *)
Lemma reserv_test_model_raises cfg model (w : world) (e : exn) :
  fst (Reserv.test_model stdev cfg model w) = Raise e ->
  class_of e = TypeError.
Proof.
  destruct (warmup_log cfg model w) as [w1 [warm [E _]]].
  unfold Reserv.test_model. rewrite (bind_ok E).
  destruct (Reserv.timed_tests cfg model w1) as [[ml|e0] w2] eqn:T.
  - rewrite (bind_ok T). discriminate.
  - rewrite (bind_raise T). cbn [fst]. intros H. injection H as <-.
    unfold Reserv.timed_tests in T.
    eapply (for_each_raises (fun e => class_of e = TypeError)); [| exact T].
    intros s i w0 e1 w3 H. cbv beta zeta in H.
    apply bind_inv in H. destruct H as [[m [w4 [_ H]]] | [e2 [H Ee]]].
    + exfalso. destruct (i <? Reserv.tests_per_model cfg - 1)%Z;
        unfold bind, async_sleep, ret in H; discriminate.
    + injection Ee as ->. eapply async_probe_raises. exact H.
Qed.

End Statuses.

(** X7.  What a runner returns has one of two shapes.  Synchronous: status
    SUCCESS with successes and no error, or status FAILED with no success,
    no model information and the error "All tests failed".  Asynchronous:
    status SUCCESS, successes and no error summary, or status FAILED, no
    success and an error summary that is not empty; the runner returns
    whenever the embeddings the service sends have a length, and what it
    raises otherwise is the [TypeError] of [len].  ERROR is the
    orchestrator's alone. *)
Theorem runner_results_are_success_or_failed :
  forall stdev : list Q -> Q,
    (forall cfg model num_tests w r,
        fst (Base.test_model stdev cfg model num_tests w) = World.Ok r ->
        Spec.base_status_ok r)
    /\ (forall cfg model w r,
          fst (Reserv.test_model stdev cfg model w) = World.Ok r ->
          Spec.reserv_status_ok r)
    /\ (forall cfg model w,
          Spec.embeddings_have_length w ->
          exists r w', Reserv.test_model stdev cfg model w = (World.Ok r, w'))
    /\ (forall cfg model w e,
          fst (Reserv.test_model stdev cfg model w) = World.Raise e ->
          World.class_of e = World.TypeError).
Proof.
  intros stdev. split; [| split; [| split]].
  - intros cfg model num_tests w r. apply base_test_model_status.
  - intros cfg model w r H. apply reserv_test_model_shape in H.
    destruct H as [w1 [ml [w2 [_ [_ ->]]]]]. apply aggregate_status.
  - intros cfg model w. apply reserv_test_model_returns.
  - intros cfg model w e. apply reserv_test_model_raises.
Qed.

Lemma runner_results_are_success_or_failed_witness :
  exists r,
    fst (Reserv.test_model Scenario.stdev_stand_in (Scenario.short_run 2)
           "all-minilm:l6-v2" Scenario.healthy) = World.Ok r
    /\ Spec.reserv_status_ok r.
Proof.
  eexists. split; [vm_compute; reflexivity |].
  apply (proj1 (proj2 (runner_results_are_success_or_failed
                         Scenario.stdev_stand_in))
           (Scenario.short_run 2) "all-minilm:l6-v2"%string Scenario.healthy).
  vm_compute. reflexivity.
Defined.

(** A number where the vector should be makes the asynchronous runner
    raise, and the orchestrator files an ERROR result with the text of the
    [TypeError]. *)
Example a_number_for_a_vector_is_an_error :
  fst (Reserv.test_model Scenario.stdev_stand_in (Scenario.short_run 1)
         "all-minilm:l6-v2" Scenario.number_for_a_vector)
  = World.Raise (World.mkExn World.TypeError "object of type 'int' has no len()")
  /\ option_map
       (fun report => map (fun r => (Reserv.status r, Reserv.error_summary r))
                          (Reserv.results report))
       (match fst (Reserv.run_tests Scenario.stdev_stand_in (Scenario.short_run 1)
                     Scenario.number_for_a_vector) with
        | World.Ok report => Some report
        | World.Raise _ => None
        end)
     = Some [(Reserv.ERROR, Some "object of type 'int' has no len()"%string)].
Proof. split; vm_compute; reflexivity. Qed.

(** X8.  Every measurement kept in a result of a runner is well formed.
    Synchronous: it names the model; a success has no error, a text length,
    a dimensionality that is not negative and a throughput, zero when the
    dimensionality is; a failure has an error and none of the three.
    Asynchronous: a success has a positive dimensionality, a throughput and
    no error message; a failure has neither dimensionality nor throughput;
    and the runner returns such a result whenever the embeddings the service
    sends have a length. *)
Theorem kept_measurements_are_well_formed :
  forall stdev : list Q -> Q,
    (forall cfg model num_tests w r,
        fst (Base.test_model stdev cfg model num_tests w) = World.Ok r ->
        Forall (Spec.base_measurement_ok model) (Base.individual_results r))
    /\ (forall cfg model w r,
          fst (Reserv.test_model stdev cfg model w) = World.Ok r ->
          Forall Spec.reserv_measurement_ok (Reserv.individual_metrics r))
    /\ (forall cfg model w,
          Spec.embeddings_have_length w ->
          exists r w',
            Reserv.test_model stdev cfg model w = (World.Ok r, w')
            /\ Forall Spec.reserv_measurement_ok (Reserv.individual_metrics r)).
Proof.
  intros stdev. split; [| split].
  - intros cfg model num_tests w r. apply base_test_model_measurements.
  - intros cfg model w r. apply reserv_test_model_measurements.
  - intros cfg model w WT.
    destruct (reserv_test_model_returns stdev cfg model w WT) as [r [w' E]].
    exists r, w'. split; [exact E |].
    apply (reserv_test_model_measurements stdev cfg model w).
    rewrite E. reflexivity.
Qed.

Lemma kept_measurements_are_well_formed_witness :
  exists r,
    fst (Base.test_model Scenario.stdev_stand_in Base.default_config
           "all-minilm:l6-v2" (Some 2%Z) Scenario.empty_vectors) = World.Ok r
    /\ Forall (Spec.base_measurement_ok "all-minilm:l6-v2")
         (Base.individual_results r).
Proof.
  eexists. split; [vm_compute; reflexivity |].
  apply (proj1 (kept_measurements_are_well_formed Scenario.stdev_stand_in)
           Base.default_config "all-minilm:l6-v2"%string (Some 2%Z)
           Scenario.empty_vectors).
  vm_compute. reflexivity.
Defined.

(* ================================================================== *)
(** * The asynchronous client: failing attempts *)
(* ================================================================== *)

Section AsyncFailures.
Import World.

Lemma attempts_made_all_fail cfg (net : nat -> Q * reply) (k : nat) :
  forall first,
    (forall i, (i < k)%nat ->
               Spec.attempt_error cfg (snd (net (first + i)%nat)) <> None) ->
    Spec.attempts_made cfg net first k = k.
Proof.
  induction k as [|k IH]; intros first Hfail; cbn [Spec.attempts_made];
    [reflexivity |].
  pose proof (Hfail O ltac:(lia)) as H0. rewrite Nat.add_0_r in H0.
  destruct (Spec.attempt_error cfg (snd (net first))); [| congruence].
  f_equal. apply IH. intros i Hi.
  replace (S first + i)%nat with (first + S i)%nat by lia.
  apply Hfail. lia.
Qed.

End AsyncFailures.

(** X9.  Asynchronous client.  When every one of the [retries] attempts
    fails (an exception, a status other than 200, or a 200 answer whose
    body is not a JSON object), [get_embedding] sends exactly [retries]
    requests and returns no embedding and the description of the last
    failure only; the measurement of the probe is a failure with that
    description as its error message. *)
Theorem async_probe_reports_the_last_failure :
  forall cfg model text w,
    (0 < Reserv.max_retries cfg)%Z ->
    (forall i, (i < Z.to_nat (Reserv.max_retries cfg))%nat ->
               Spec.attempt_error cfg
                 (snd (World.net w (World.sent w + i))) <> None) ->
    let last := snd (World.net w (World.sent w
                                  + (Z.to_nat (Reserv.max_retries cfg) - 1))) in
    (exists d w',
        Reserv.get_embedding cfg model text (Reserv.max_retries cfg) w
        = (World.Ok (World.JNull, d, Spec.attempt_error cfg last), w')
        /\ World.sent w' = (World.sent w + Z.to_nat (Reserv.max_retries cfg))%nat)
    /\ (exists m w',
          Reserv.test_single_embedding cfg model text w = (World.Ok m, w')
          /\ Reserv.success m = false
          /\ Reserv.error_message m = Spec.attempt_error cfg last).
Proof.
  intros cfg model text w Hr Hfail. cbv zeta.
  destruct (get_embedding_spec cfg model text (Reserv.max_retries cfg) w)
    as [d [w' [E [_ [_ [Hs _]]]]]].
  rewrite (attempts_made_all_fail cfg (World.net w)
             (Z.to_nat (Reserv.max_retries cfg)) (World.sent w) Hfail) in E, Hs.
  destruct (Z.to_nat (Reserv.max_retries cfg)) as [|n'] eqn:R; [lia |].
  replace (S n' - 1)%nat with n' by lia.
  pose proof (Hfail n' ltac:(lia)) as Hlast.
  destruct (Spec.attempt_error cfg (snd (World.net w (World.sent w + n'))))
    as [message|] eqn:AE; [| congruence].
  rewrite (failed_attempt_value cfg _ _ AE) in E.
  split.
  - exists d, w'. split; [exact E | exact Hs].
  - unfold Reserv.test_single_embedding. rewrite (bind_ok E).
    cbn [World.truthy]. unfold World.bind, World.perf_counter, World.ret.
    eexists. eexists. split; [reflexivity |]. split; reflexivity.
Qed.

Lemma async_probe_reports_the_last_failure_witness :
  exists m w',
    Reserv.test_single_embedding Reserv.default_config "all-minilm:l6-v2" "hello"
      Scenario.timeouts_then_503 = (World.Ok m, w')
    /\ Reserv.success m = false
    /\ Reserv.error_message m = Some "HTTP 503: overloaded"%string.
Proof.
  apply (proj2 (async_probe_reports_the_last_failure Reserv.default_config
                  "all-minilm:l6-v2" "hello" Scenario.timeouts_then_503
                  ltac:(reflexivity)
                  ltac:(intros [|[|[|i]]] Hi;
                        [discriminate | discriminate | discriminate
                        | vm_compute in Hi; lia]))).
Defined.

(* ================================================================== *)
(** * The asynchronous runner: no attempt allowed, request budget *)
(* ================================================================== *)

Section AsyncBudget.
Import World.
Variable stdev : list Q -> Q.



(** The requests of a loop whose every iteration, returning or raising,
    sends [hi] requests at most. *)
Lemma for_each_budget {A S} (body : S -> A -> M S) (hi : nat) :
  (forall s x w, (sent w <= sent (snd (body s x w)))%nat
                 /\ (sent (snd (body s x w)) <= sent w + hi)%nat) ->
  forall l s w,
    (sent w <= sent (snd (for_each l body s w)))%nat
    /\ (sent (snd (for_each l body s w)) <= sent w + hi * List.length l)%nat.
Proof.
  intros Hbody. induction l as [|x l IH]; intros s w; cbn [for_each List.length].
  - cbn [snd ret]. lia.
  - unfold bind. destruct (Hbody s x w) as [Lo Hi].
    destruct (body s x w) as [[s1|e] w1]; cbn [snd] in Lo, Hi |- *.
    + destruct (IH s1 w1) as [Lo' Hi']. lia.
    + lia.
Qed.

Lemma timed_tests_budget cfg model (w : world) :
  (sent w <= sent (snd (Reserv.timed_tests cfg model w)))%nat
  /\ (sent (snd (Reserv.timed_tests cfg model w))
      <= sent w + Z.to_nat (Reserv.max_retries cfg)
                  * Z.to_nat (Reserv.tests_per_model cfg))%nat.
Proof.
  unfold Reserv.timed_tests.
  match goal with
  | |- context [for_each _ ?body _ _] =>
      pose proof (for_each_budget body (Z.to_nat (Reserv.max_retries cfg))) as B
  end.
  match type of B with
  | ?H -> _ => assert (Hb : H)
  end.
  { intros s i w0. cbv beta zeta.
    destruct (sample_world cfg model
                (nth (Z.to_nat (i mod Z.of_nat (List.length Reserv.TEST_TEXTS)))
                     Reserv.TEST_TEXTS ""%string)
                (i <? Reserv.tests_per_model cfg - 1)%Z
                (inject_Z (Reserv.interval_between_tests cfg))
                (fun metrics => (s ++ [metrics])%list) w0) as [_ [Lo [Hi _]]].
    split; assumption. }
  specialize (B Hb (Py.range (Reserv.tests_per_model cfg))
                (@nil Reserv.EmbeddingMetrics) w).
  unfold Py.range in B at 3. rewrite length_map, length_seq in B. exact B.
Qed.

(** The asynchronous runner leaves the world as its timed loop left it. *)
Lemma reserv_test_model_world cfg model (w : world) :
  snd (Reserv.test_model stdev cfg model w)
  = snd (Reserv.timed_tests cfg model (snd (Reserv.warmup cfg model w))).
Proof.
  destruct (warmup_log cfg model w) as [w1 [warm [E _]]].
  unfold Reserv.test_model. rewrite (bind_ok E), E. cbn [snd].
  unfold bind. destruct (Reserv.timed_tests cfg model w1) as [[ml|e] w2];
    reflexivity.
Qed.

End AsyncBudget.



(** X11.  Asynchronous runner.  The warm-up sends at least one request per
    warm-up probe and at most three, whatever [max_retries] is (it uses the
    default number of retries); the timed loop that follows sends at most
    [max_retries] requests per sample. *)
Theorem async_runner_request_budget :
  forall (stdev : list Q -> Q) cfg model w,
    let warmups := Z.to_nat (Reserv.warmup_requests cfg) in
    let samples := Z.to_nat (Reserv.tests_per_model cfg) in
    let retries := Z.to_nat (Reserv.max_retries cfg) in
    let w1 := snd (Reserv.warmup cfg model w) in
    let w' := snd (Reserv.test_model stdev cfg model w) in
    (World.sent w + warmups <= World.sent w1)%nat
    /\ (World.sent w1 <= World.sent w + 3 * warmups)%nat
    /\ (World.sent w1 <= World.sent w')%nat
    /\ (World.sent w' <= World.sent w1 + retries * samples)%nat.
Proof.
  intros stdev cfg model w. cbv zeta.
  rewrite reserv_test_model_world.
  destruct (warmup_log cfg model w) as [w1 [warm [E [_ [Lo [Hi _]]]]]].
  rewrite E. cbn [snd].
  destruct (timed_tests_budget cfg model w1) as [Lo' Hi'].
  split; [exact Lo |]. split; [exact Hi |]. split; [exact Lo' | exact Hi'].
Qed.

(* ================================================================== *)
(** * Duration statistics *)
(* ================================================================== *)

Section StatsFacts.

Lemma fold_min_spec (rest : list Q) :
  forall x, let m := fold_left Qmin rest x in
            (m = x \/ In m rest) /\ m <= x /\ Forall (Qle m) rest.
Proof.
  induction rest as [|y rest IH]; intros x; cbn [fold_left].
  - split; [left; reflexivity |]. split; [apply Qle_refl | constructor].
  - destruct (IH (Qmin x y)) as [Hin [Hle F]]. cbv zeta.
    set (m := fold_left Qmin rest (Qmin x y)) in *.
    assert (Hx : m <= x) by (eapply Qle_trans; [exact Hle | apply Q.le_min_l]).
    assert (Hy : m <= y) by (eapply Qle_trans; [exact Hle | apply Q.le_min_r]).
    split; [| split; [exact Hx | constructor; [exact Hy | exact F]]].
    destruct Hin as [Hm | Hm]; [| right; right; exact Hm].
    rewrite Hm. unfold Qmin, GenericMinMax.gmin.
    destruct (x ?= y); [left | left | right; left]; reflexivity.
Qed.

Lemma fold_max_spec (rest : list Q) :
  forall x, let m := fold_left Qmax rest x in
            (m = x \/ In m rest) /\ x <= m /\ Forall (fun y => y <= m) rest.
Proof.
  induction rest as [|y rest IH]; intros x; cbn [fold_left].
  - split; [left; reflexivity |]. split; [apply Qle_refl | constructor].
  - destruct (IH (Qmax x y)) as [Hin [Hle F]]. cbv zeta.
    set (m := fold_left Qmax rest (Qmax x y)) in *.
    assert (Hx : x <= m) by (eapply Qle_trans; [apply Q.le_max_l | exact Hle]).
    assert (Hy : y <= m) by (eapply Qle_trans; [apply Q.le_max_r | exact Hle]).
    split; [| split; [exact Hx | constructor; [exact Hy | exact F]]].
    destruct Hin as [Hm | Hm]; [| right; right; exact Hm].
    rewrite Hm. unfold Qmax, GenericMinMax.gmax.
    destruct (x ?= y); [left | right; left | left]; reflexivity.
Qed.

Lemma minimum_spec (l : list Q) :
  l <> [] ->
  In (Stats.minimum l) l /\ Forall (Qle (Stats.minimum l)) l.
Proof.
  destruct l as [|x rest]; [congruence | intros _].
  cbn [Stats.minimum]. destruct (fold_min_spec rest x) as [Hin [Hle F]].
  split; [destruct Hin as [-> | Hin]; [left; reflexivity | right; exact Hin] |].
  constructor; assumption.
Qed.

Lemma maximum_spec (l : list Q) :
  l <> [] ->
  In (Stats.maximum l) l /\ Forall (fun y => y <= Stats.maximum l) l.
Proof.
  destruct l as [|x rest]; [congruence | intros _].
  cbn [Stats.maximum]. destruct (fold_max_spec rest x) as [Hin [Hle F]].
  split; [destruct Hin as [-> | Hin]; [left; reflexivity | right; exact Hin] |].
  constructor; assumption.
Qed.

Lemma sumQ_between (lo hi : Q) (l : list Q) :
  Forall (fun x => lo <= x /\ x <= hi) l ->
  lo * inject_Z (Z.of_nat (List.length l)) <= Stats.sumQ l
  /\ Stats.sumQ l <= hi * inject_Z (Z.of_nat (List.length l)).
Proof.
  induction 1 as [|x l [Hlo Hhi] F [IHlo IHhi]];
    cbn [List.length Stats.sumQ fold_right].
  - change (inject_Z (Z.of_nat 0)) with 0. lra.
  - rewrite Nat2Z.inj_succ. unfold Z.succ. rewrite inject_Z_plus.
    change (inject_Z 1) with 1. fold (Stats.sumQ l).
    set (n := inject_Z (Z.of_nat (List.length l))) in *.
    split; ring_simplify; lra.
Qed.

Lemma mean_between (lo hi : Q) (l : list Q) :
  l <> [] ->
  Forall (fun x => lo <= x /\ x <= hi) l ->
  lo <= Stats.mean l /\ Stats.mean l <= hi.
Proof.
  intros Hl F. destruct (sumQ_between lo hi l F) as [Hlo Hhi].
  assert (Hn : 0 < inject_Z (Z.of_nat (List.length l))).
  { change 0 with (inject_Z 0). rewrite <- Zlt_Qlt.
    destruct l; [congruence | cbn [List.length]; lia]. }
  unfold Stats.mean. split.
  - apply Qle_shift_div_l; assumption.
  - apply Qle_shift_div_r; assumption.
Qed.

Lemma median_between (lo hi : Q) (l : list Q) :
  l <> [] ->
  Forall (fun x => lo <= x /\ x <= hi) l ->
  lo <= Stats.median l /\ Stats.median l <= hi.
Proof.
  intros Hl F. unfold Stats.median. cbv zeta.
  set (s := Py.sorted Py.Qltb (fun x => x) l).
  assert (P : Permutation s l) by apply sorted_perm.
  assert (Fs : Forall (fun x => lo <= x /\ x <= hi) s).
  { eapply Permutation_Forall; [apply Permutation_sym; exact P | exact F]. }
  assert (Hn : (0 < List.length s)%nat).
  { rewrite (Permutation_length P). destruct l; [congruence | cbn; lia]. }
  assert (At : forall i, (i < List.length s)%nat ->
                         lo <= nth i s 0 /\ nth i s 0 <= hi).
  { intros i Hi. rewrite Forall_forall in Fs. apply Fs, nth_In, Hi. }
  assert (Half : (List.length s / 2 < List.length s)%nat)
    by (apply Nat.div_lt; lia).
  destruct (Nat.even (List.length s)).
  - destruct (At (List.length s / 2 - 1)%nat ltac:(lia)) as [A1 A2].
    destruct (At (List.length s / 2)%nat Half) as [B1 B2].
    split; [apply Qle_shift_div_l | apply Qle_shift_div_r]; lra.
  - apply At, Half.
Qed.

Lemma stats_between (l : list Q) :
  l <> [] ->
  Forall (fun x => Stats.minimum l <= x /\ x <= Stats.maximum l) l.
Proof.
  intros Hl. destruct (minimum_spec l Hl) as [_ Fmin].
  destruct (maximum_spec l Hl) as [_ Fmax].
  rewrite Forall_forall in *. intros x Hx. split; [apply Fmin | apply Fmax]; exact Hx.
Qed.

End StatsFacts.

Section OrderedStatistics.
Variable stdev : list Q -> Q.

Lemma aggregate_durations_ordered model (ml : list Reserv.EmbeddingMetrics) :
  Spec.reserv_durations_ordered (Reserv.aggregate stdev model ml).
Proof.
  unfold Spec.reserv_durations_ordered. cbv zeta.
  rewrite aggregate_keeps_measurements. unfold Reserv.aggregate.
  destruct (filter Reserv.success ml) as [|m ms] eqn:F.
  - reflexivity.
  - cbn [Reserv.min_duration Reserv.avg_duration Reserv.median_duration
           Reserv.max_duration].
    set (durations := map Reserv.duration (m :: ms)).
    assert (Hd : durations <> []) by discriminate.
    destruct (minimum_spec durations Hd) as [Imin _].
    destruct (maximum_spec durations Hd) as [Imax _].
    destruct (mean_between _ _ durations Hd (stats_between durations Hd))
      as [M1 M2].
    destruct (median_between _ _ durations Hd (stats_between durations Hd))
      as [D1 D2].
    repeat split; assumption.
Qed.

End OrderedStatistics.

(** X12.  The duration statistics of a result of either runner agree with the
    measurements it keeps: the minimum and the maximum are durations of
    successful measurements, the mean lies between them, and so does the
    median of the asynchronous result; a result without duration statistics
    keeps no successful measurement.  The asynchronous runner returns such a
    result whenever the embeddings the service sends have a length. *)
Theorem duration_statistics_are_ordered :
  forall stdev : list Q -> Q,
    (forall cfg model num_tests w r,
        fst (Base.test_model stdev cfg model num_tests w) = World.Ok r ->
        Spec.base_durations_ordered r)
    /\ (forall cfg model w r,
          fst (Reserv.test_model stdev cfg model w) = World.Ok r ->
          Spec.reserv_durations_ordered r)
    /\ (forall cfg model w,
          Spec.embeddings_have_length w ->
          exists r w',
            Reserv.test_model stdev cfg model w = (World.Ok r, w')
            /\ Spec.reserv_durations_ordered r).
Proof.
  intros stdev.
  assert (R : forall cfg model w r,
             fst (Reserv.test_model stdev cfg model w) = World.Ok r ->
             Spec.reserv_durations_ordered r).
  { intros cfg model w r H. apply reserv_test_model_shape in H.
    destruct H as [w1 [ml [w2 [_ [_ ->]]]]]. apply aggregate_durations_ordered. }
  split; [| split; [exact R |]].
  - intros cfg model num_tests w r H.
    destruct (base_test_model_shape stdev cfg model num_tests w r H)
      as [results [w1 [_ [[F ->] | [F [info ->]]]]]];
      unfold Spec.base_durations_ordered; cbv zeta.
    + cbn [Base.all_failed_result Base.min_duration Base.avg_duration
             Base.max_duration Base.individual_results].
      rewrite F. reflexivity.
    + unfold Base.success_result. cbv zeta.
      cbn [Base.min_duration Base.avg_duration Base.max_duration
             Base.individual_results].
      set (durations := map Base.duration (filter Base.success results)).
      assert (Hd : durations <> []).
      { subst durations. destruct (filter Base.success results);
          [congruence | discriminate]. }
      destruct (minimum_spec durations Hd) as [Imin _].
      destruct (maximum_spec durations Hd) as [Imax _].
      destruct (mean_between _ _ durations Hd (stats_between durations Hd))
        as [M1 M2].
      unfold Base._calculate_stats.
      destruct durations as [|d ds] eqn:D; [congruence |].
      cbn [Base.min Base.mean Base.max]. repeat split; assumption.
  - intros cfg model w WT.
    destruct (reserv_test_model_returns stdev cfg model w WT) as [r [w' E]].
    exists r, w'. split; [exact E |]. apply (R cfg model w). rewrite E. reflexivity.
Qed.

Lemma duration_statistics_are_ordered_witness :
  exists r,
    fst (Base.test_model Scenario.stdev_stand_in Base.default_config
           "all-minilm:l6-v2" (Some 2%Z) Scenario.healthy) = World.Ok r
    /\ Base.is_success r = true
    /\ Spec.base_durations_ordered r.
Proof.
  eexists. split; [vm_compute; reflexivity |]. split; [reflexivity |].
  apply (proj1 (duration_statistics_are_ordered Scenario.stdev_stand_in)
           Base.default_config "all-minilm:l6-v2"%string (Some 2%Z)
           Scenario.healthy).
  vm_compute. reflexivity.
Defined.

(* ================================================================== *)
(** * The asynchronous runner: the trace of the timed loop *)
(* ================================================================== *)

Section TimedLoop.
Import World.

(** Whether the prober returns or raises, it leaves in the log the events of
    one probe of its text. *)
Lemma async_probe_events cfg model text (w : world) :
  (0 < Reserv.max_retries cfg)%Z ->
  exists evs,
    log (snd (Reserv.test_single_embedding cfg model text w)) = log w ++ evs
    /\ Spec.probe_events cfg model text 0 evs.
Proof.
  intros H. rewrite async_probe_world.
  destruct (get_embedding_log cfg model text (Reserv.max_retries cfg) w)
    as [out [w' [E [_ [_ [_ [_ [evs [L P]]]]]]]]].
  rewrite E. cbn [snd]. exists evs. split; [exact L | exact (P H)].
Qed.

Lemma sample_text_index (a : nat) :
  nth (Z.to_nat (Z.of_nat a mod Z.of_nat (List.length Reserv.TEST_TEXTS)))
      Reserv.TEST_TEXTS ""%string
  = Spec.sample_text a.
Proof.
  unfold Spec.sample_text. rewrite <- Nat2Z.inj_mod, Nat2Z.id. reflexivity.
Qed.

Lemma timed_loop_events cfg model (k : nat) :
  (0 < Reserv.max_retries cfg)%Z ->
  forall (a : nat) acc w metrics_list w',
    k = O \/ Z.of_nat (a + k) = Reserv.tests_per_model cfg ->
    for_each (map Z.of_nat (seq a k))
      (fun metrics_list i =>
         bind (Reserv.test_single_embedding cfg model
                 (nth (Z.to_nat (i mod Z.of_nat (List.length Reserv.TEST_TEXTS)))
                      Reserv.TEST_TEXTS ""%string))
              (fun metrics =>
                 bind (if (i <? Reserv.tests_per_model cfg - 1)%Z
                       then async_sleep (inject_Z (Reserv.interval_between_tests cfg))
                       else ret tt)
                      (fun _ => ret (metrics_list ++ [metrics]))))
      acc w = (Ok metrics_list, w') ->
    exists evs,
      log w' = log w ++ evs
      /\ Spec.timed_events cfg model a k evs.
Proof.
  intros Hr. induction k as [|k IH]; intros a acc w ml w' Hk;
    cbn [seq map for_each].
  - unfold ret. intros H. injection H as _ <-.
    exists []. rewrite app_nil_r. split; [reflexivity | constructor].
  - destruct Hk as [Hk | Hk]; [discriminate |].
    rewrite sample_text_index. intros H.
    apply bind_ok_inv in H. destruct H as [s1 [w2 [B H]]].
    apply bind_ok_inv in B. destruct B as [m [w1 [E B]]].
    destruct (async_probe_events cfg model (Spec.sample_text a) w Hr)
      as [probe [L1 P]].
    rewrite E in L1. cbn [snd] in L1.
    destruct k as [|k].
    + replace (Z.of_nat a <? Reserv.tests_per_model cfg - 1)%Z with false in B
        by (symmetry; apply Z.ltb_ge; lia).
      unfold bind, ret in B. injection B as <- <-.
      cbn [seq map for_each] in H. unfold ret in H. injection H as _ <-.
      exists probe. split; [exact L1 |]. constructor. exact P.
    + replace (Z.of_nat a <? Reserv.tests_per_model cfg - 1)%Z with true in B
        by (symmetry; apply Z.ltb_lt; lia).
      unfold bind, async_sleep, ret in B. injection B as <- <-.
      destruct (IH (S a) _ _ _ _ ltac:(right; lia) H) as [evs [L T]].
      cbn [log advance] in L.
      eexists. rewrite L, L1, <- !app_assoc. split; [reflexivity |].
      cbn [app]. constructor; assumption.
Qed.

End TimedLoop.

(** X13.  Asynchronous runner, with at least one attempt allowed.  When the
    timed loop returns, it has left in the log, for each of the
    [tests_per_model] samples in turn, the events of one probe of that
    sample's text, the test texts being taken in turn and again from the
    first when they run out; between two samples it has slept
    [interval_between_tests] seconds, and not after the last.  It returns
    whenever the embeddings the service sends have a length; what it raises
    otherwise is the [TypeError] of [len]. *)
Theorem timed_loop_paces_its_samples :
  forall cfg model w,
    (0 < Reserv.max_retries cfg)%Z ->
    (forall metrics_list w',
        Reserv.timed_tests cfg model w = (World.Ok metrics_list, w') ->
        exists timed,
          World.log w' = (World.log w ++ timed)%list
          /\ Spec.timed_events cfg model 0
               (Z.to_nat (Reserv.tests_per_model cfg)) timed)
    /\ (Spec.embeddings_have_length w ->
        exists metrics_list w' timed,
          Reserv.timed_tests cfg model w = (World.Ok metrics_list, w')
          /\ World.log w' = (World.log w ++ timed)%list
          /\ Spec.timed_events cfg model 0
               (Z.to_nat (Reserv.tests_per_model cfg)) timed)
    /\ (forall e w',
          Reserv.timed_tests cfg model w = (World.Raise e, w') ->
          World.class_of e = World.TypeError).
Proof.
  intros cfg model w H.
  assert (C : forall metrics_list w',
             Reserv.timed_tests cfg model w = (World.Ok metrics_list, w') ->
             exists timed,
               World.log w' = (World.log w ++ timed)%list
               /\ Spec.timed_events cfg model 0
                    (Z.to_nat (Reserv.tests_per_model cfg)) timed).
  { intros ml w' E. unfold Reserv.timed_tests, Py.range in E.
    apply (timed_loop_events cfg model (Z.to_nat (Reserv.tests_per_model cfg)) H
             0%nat [] w ml w'); [| exact E].
    destruct (Z.to_nat (Reserv.tests_per_model cfg)) eqn:R;
      [left; reflexivity | right; lia]. }
  split; [exact C |]. split.
  - intros WT. destruct (timed_tests_returns cfg model w WT) as [ml [w' E]].
    destruct (C ml w' E) as [timed [L T]]. exists ml, w', timed. auto.
  - intros e w' T. unfold Reserv.timed_tests in T.
    eapply (for_each_raises (fun e => World.class_of e = World.TypeError));
      [| exact T].
    intros s i w0 e1 w3 B. cbv beta zeta in B.
    apply bind_inv in B. destruct B as [[m [w4 [_ B]]] | [e2 [B Ee]]].
    + destruct (i <? Reserv.tests_per_model cfg - 1)%Z;
        unfold World.bind, World.async_sleep, World.ret in B; discriminate.
    + injection Ee as ->. eapply async_probe_raises. exact B.
Qed.

Lemma timed_loop_paces_its_samples_witness :
  exists metrics_list w' timed,
    Reserv.timed_tests (Scenario.short_run 2) "all-minilm:l6-v2"
      Scenario.third_time_lucky = (World.Ok metrics_list, w')
    /\ World.log w' = (World.log Scenario.third_time_lucky ++ timed)%list
    /\ Spec.timed_events (Scenario.short_run 2) "all-minilm:l6-v2" 0
         (Z.to_nat (Reserv.tests_per_model (Scenario.short_run 2))) timed.
Proof.
  pose proof (proj1 (timed_loop_paces_its_samples (Scenario.short_run 2)
                       "all-minilm:l6-v2"%string Scenario.third_time_lucky
                       eq_refl)) as C.
  destruct (Reserv.timed_tests (Scenario.short_run 2) "all-minilm:l6-v2"
              Scenario.third_time_lucky) as [[ml | e] w'] eqn:E.
  - destruct (C ml w' eq_refl) as [timed [L T]]. exists ml, w', timed. auto.
  - vm_compute in E. discriminate.
Defined.

